(** * E-tendering: bid evaluation pipeline

    A shallow embedding of the extraction, request-building, response
    normalisation and ranking code of the backend:

    - [backend/app/services/document_processor.py]  (module [DocumentProcessor])
    - [backend/app/services/ai_evaluator.py]        (module [AIEvaluator])
    - [backend/app/api/routes/organization.py]      (module [Organization])

    Python values are modelled as they are at run time: a [str] is a
    sequence of code points, an [int] is unbounded, a [float] is an IEEE-754
    binary64 number (the Standard Library's executable [SpecFloat]), a
    [dict] keeps its keys in insertion order.  Exceptions and the module
    loggers are threaded through a small state-and-error monad.

    The libraries the services call ([json], [PyPDF2], [docx], [pandas],
    [openpyxl], the database session) are parameters of the sections that
    hold the service code: the theorems hold whatever those libraries
    return or raise.  [JsonDecoder] is a decoder that follows CPython's
    [json.loads], and [Examples] holds small stand-ins for the others;
    they serve to run the services on concrete inputs. *)

From Stdlib Require Import List ZArith NArith Lia Bool Ascii String.
From Stdlib Require Import Permutation Sorted DecimalN Wf_nat.
From Stdlib Require Import SpecFloat.
Import ListNotations.

Set Implicit Arguments.
Set Warnings "-register-all".

(* ================================================================== *)
(** * The Python runtime the services rely on *)
(* ================================================================== *)

Module Py.

(** ** Strings: sequences of Unicode code points *)

Definition char := N.
Definition str := list char.

(** An ASCII literal as a [str]. *)
Definition lit (s : string) : str :=
  List.map N_of_ascii (list_ascii_of_string s).

Definition nl : str := [10%N].

Fixpoint str_eqb (a b : str) : bool :=
  match a, b with
  | [], [] => true
  | c :: a', d :: b' => N.eqb c d && str_eqb a' b'
  | _, _ => false
  end.

(** [s.startswith(p)] *)
Fixpoint startswith (s p : str) {struct p} : bool :=
  match p with
  | [] => true
  | c :: p' =>
      match s with
      | d :: s' => N.eqb c d && startswith s' p'
      | [] => false
      end
  end.

(** [s.endswith(p)] *)
Definition endswith (s p : str) : bool :=
  startswith (rev s) (rev p).

(** [s[:n]] and [s[n:]] for a non-negative [n], [s[:-n]] for a positive one. *)
Definition slice_to (n : nat) (s : str) : str := firstn n s.
Definition slice_from (n : nat) (s : str) : str := skipn n s.
Definition slice_to_neg (n : nat) (s : str) : str :=
  firstn (List.length s - n) s.

(** [needle in hay] on two strings. *)
Fixpoint str_contains (hay needle : str) : bool :=
  startswith hay needle
  || match hay with
     | [] => false
     | _ :: hay' => str_contains hay' needle
     end.

(** The characters [str.strip()] removes: those with the Unicode
    White_Space property or bidirectional type WS, B or S. *)
Definition isspace (c : char) : bool :=
  ((9 <=? c) && (c <=? 13) || (28 <=? c) && (c <=? 32)
   || (c =? 133) || (c =? 160) || (c =? 5760)
   || (8192 <=? c) && (c <=? 8202)
   || (c =? 8232) || (c =? 8233) || (c =? 8239) || (c =? 8287)
   || (c =? 12288))%N.

Fixpoint lstrip (s : str) : str :=
  match s with
  | c :: s' => if isspace c then lstrip s' else s
  | [] => []
  end.

Definition rstrip (s : str) : str := rev (lstrip (rev s)).

Definition strip (s : str) : str := rstrip (lstrip s).

(** [sep.join(parts)] *)
Fixpoint join (sep : str) (parts : list str) : str :=
  match parts with
  | [] => []
  | [p] => p
  | p :: ps => p ++ sep ++ join sep ps
  end.

(** ** Integers: [str(n)] *)

Fixpoint digits_of_uint (u : Decimal.uint) : str :=
  match u with
  | Decimal.Nil => []
  | Decimal.D0 u => 48%N :: digits_of_uint u
  | Decimal.D1 u => 49%N :: digits_of_uint u
  | Decimal.D2 u => 50%N :: digits_of_uint u
  | Decimal.D3 u => 51%N :: digits_of_uint u
  | Decimal.D4 u => 52%N :: digits_of_uint u
  | Decimal.D5 u => 53%N :: digits_of_uint u
  | Decimal.D6 u => 54%N :: digits_of_uint u
  | Decimal.D7 u => 55%N :: digits_of_uint u
  | Decimal.D8 u => 56%N :: digits_of_uint u
  | Decimal.D9 u => 57%N :: digits_of_uint u
  end.

Definition str_of_N (n : N) : str := digits_of_uint (N.to_uint n).
Definition str_of_nat (n : nat) : str := str_of_N (N.of_nat n).

(** ** Floats: IEEE-754 binary64, round to nearest even *)

Definition float := spec_float.
Definition prec : Z := 53.
Definition emax : Z := 1024.

Definition fmul : float -> float -> float := SFmul prec emax.
Definition fadd : float -> float -> float := SFadd prec emax.

(** The double nearest to the rational [(-1)^s * p / q], for [q > 0]. *)
Definition nearest_ratio (s : bool) (p : positive) (q : positive) : float :=
  let '(m, e, l) := SFdiv_core_binary prec emax (Zpos p) 0 (Zpos q) 0 in
  binary_round_aux prec emax s m e l.

(** The double nearest to the integer [z], [-0] never arising. *)
Definition nearest_int (z : Z) : float := binary_normalize prec emax z 0 false.

Definition is_nan (x : float) : bool :=
  match x with S754_nan => true | _ => false end.

Definition is_finite (x : float) : bool :=
  match x with
  | S754_zero _ | S754_finite _ _ _ => true
  | _ => false
  end.

(** [float(z)] as the arithmetic operators convert an [int] operand:
    [None] stands for [OverflowError]. *)
Definition float_of_int (z : Z) : option float :=
  let x := nearest_int z in
  if is_finite x then Some x else None.

(** The integer nearest to [p / q], ties to the even one. *)
Definition div_half_even (p q : Z) : Z :=
  let d := (p / q)%Z in
  let r := (p mod q)%Z in
  match (2 * r ?= q)%Z with
  | Lt => d
  | Gt => (d + 1)%Z
  | Eq => if Z.even d then d else (d + 1)%Z
  end.

(** [round(x, 2)]: the exact value of [x] is rounded (ties to even) to
    two decimals, and that decimal is converted back to the nearest
    double; infinities and NaN round to themselves, and a double that is
    an integer already is returned as it is. *)
Definition round2 (x : float) : float :=
  match x with
  | S754_finite s m e =>
      match e with
      | Zneg k =>
          let n := div_half_even (Zpos m * 100) (Z.pow_pos 2 k) in
          match n with
          | Zpos n' => nearest_ratio s n' 100
          | _ => S754_zero s
          end
      | _ => x
      end
  | _ => x
  end.

(** The literals of the weighted average. *)
Definition f0_5 : float := nearest_ratio false 1 2.
Definition f0_3 : float := nearest_ratio false 3 10.
Definition f0_2 : float := nearest_ratio false 2 10.

(** ** Exceptions *)

Inductive exn_class :=
| TypeError
| AttributeError
| OverflowError
| KeyError
| RecursionError
| JSONDecodeError
| HTTPException
| LibraryError (name : str).

(** An exception instance; [exn_msg] is what [str(e)] returns. *)
Record exn := Exn { exn_cls : exn_class; exn_msg : str }.

Definition is_JSONDecodeError (e : exn) : bool :=
  match exn_cls e with JSONDecodeError => true | _ => false end.

Inductive result (A : Type) :=
| Ok (a : A)
| Raise (e : exn).
Arguments Ok {A} a.
Arguments Raise {A} e.

Definition rbind {A B} (r : result A) (k : A -> result B) : result B :=
  match r with
  | Ok a => k a
  | Raise e => Raise e
  end.

(** ** Dictionaries with string keys, in insertion order *)

Definition dict (V : Type) := list (str * V).

Fixpoint dict_get {V} (d : dict V) (k : str) : option V :=
  match d with
  | [] => None
  | (k', v) :: d' => if str_eqb k' k then Some v else dict_get d' k
  end.

Definition dict_has {V} (d : dict V) (k : str) : bool :=
  match dict_get d k with Some _ => true | None => false end.

(** [d[k] = v]: an existing key keeps its place, a new one goes last. *)
Fixpoint dict_set {V} (d : dict V) (k : str) (v : V) : dict V :=
  match d with
  | [] => [(k, v)]
  | (k', v') :: d' =>
      if str_eqb k' k then (k', v) :: d' else (k', v') :: dict_set d' k v
  end.

(** [d.get(k, default)] *)
Definition dict_get_default {V} (d : dict V) (k : str) (default : V) : V :=
  match dict_get d k with Some v => v | None => default end.

(** ** Logging and the monad of service code *)

Inductive level := INFO | WARNING | ERROR.

Definition log := list (level * str).

(** A computation reads and extends the log and returns or raises. *)
Definition M (A : Type) := log -> result A * log.

Definition ret {A} (a : A) : M A := fun l => (Ok a, l).

Definition raise {A} (e : exn) : M A := fun l => (Raise e, l).

Definition bind {A B} (m : M A) (k : A -> M B) : M B :=
  fun l => match m l with
           | (Ok a, l') => k a l'
           | (Raise e, l') => (Raise e, l')
           end.

Definition lift {A} (r : result A) : M A := fun l => (r, l).

(** [logger.<level>(msg)] *)
Definition logger (lv : level) (msg : str) : M unit :=
  fun l => (Ok tt, l ++ [(lv, msg)]).

(** [try: body  except <classes selected by catches> as e: handler(e)] *)
Definition try_except {A} (body : M A) (catches : exn -> bool)
  (handler : exn -> M A) : M A :=
  fun l => match body l with
           | (Raise e, l') => if catches e then handler e l' else (Raise e, l')
           | r => r
           end.

(** [except Exception]: every exception modelled here is an [Exception].
    (What derives from [BaseException] alone, a cancellation or an
    interrupt, is outside this sequential model.) *)
Definition any_Exception (e : exn) : bool := true.

End Py.

Declare Scope py_scope.
Delimit Scope py_scope with py.
Notation "x <- m ;; k" := (Py.bind m (fun x => k))
  (at level 61, m at next level, right associativity) : py_scope.
Notation "m ;;; k" := (Py.bind m (fun _ => k))
  (at level 61, right associativity) : py_scope.
Notation "x <~ r ;; k" := (Py.rbind r (fun x => k))
  (at level 61, r at next level, right associativity) : py_scope.

(* ================================================================== *)
(** * The objects [json.loads] returns *)
(* ================================================================== *)

Module Json.
Import Py.

Inductive value :=
| VNone
| VBool (b : bool)
| VInt (z : Z)
| VFloat (x : float)
| VStr (s : str)
| VList (l : list value)
| VDict (d : list (str * value)).

Definition type_name (v : value) : str :=
  lit match v with
      | VNone => "NoneType"
      | VBool _ => "bool"
      | VInt _ => "int"
      | VFloat _ => "float"
      | VStr _ => "str"
      | VList _ => "list"
      | VDict _ => "dict"
      end.

Definition is_str (k : str) (v : value) : bool :=
  match v with
  | VStr s => str_eqb s k
  | _ => false
  end.

(** [k in v], for a string [k]: key membership in a dict, element
    membership in a list, substring test in a string, [TypeError] on the
    other types. *)
Definition contains (v : value) (k : str) : result bool :=
  match v with
  | VDict d => Ok (dict_has d k)
  | VList l => Ok (existsb (is_str k) l)
  | VStr s => Ok (str_contains s k)
  | _ => Raise (Exn TypeError
            (lit "argument of type '" ++ type_name v ++ lit "' is not iterable"))
  end.

(** [v[k]], for a string [k]. *)
Definition getitem (v : value) (k : str) : result value :=
  match v with
  | VDict d =>
      match dict_get d k with
      | Some w => Ok w
      | None => Raise (Exn KeyError (lit "'" ++ k ++ lit "'"))
      end
  | VList _ =>
      Raise (Exn TypeError (lit "list indices must be integers or slices, not str"))
  | VStr _ =>
      Raise (Exn TypeError (lit "string indices must be integers, not 'str'"))
  | _ => Raise (Exn TypeError
            (lit "'" ++ type_name v ++ lit "' object is not subscriptable"))
  end.

(** [v.get(k, default)]: only a dict has the method. *)
Definition get (v : value) (k : str) (default : value) : result value :=
  match v with
  | VDict d => Ok (dict_get_default d k default)
  | _ => Raise (Exn AttributeError
            (lit "'" ++ type_name v ++ lit "' object has no attribute 'get'"))
  end.

(** [v * x], for a float [x]: an [int] or [bool] operand is converted to
    a float first. *)
Definition mul_float (v : value) (x : float) : result float :=
  match v with
  | VFloat y => Ok (fmul y x)
  | VInt z =>
      match float_of_int z with
      | Some y => Ok (fmul y x)
      | None => Raise (Exn OverflowError (lit "int too large to convert to float"))
      end
  | VBool b =>
      match float_of_int (if b then 1 else 0) with
      | Some y => Ok (fmul y x)
      | None => Raise (Exn OverflowError (lit "int too large to convert to float"))
      end
  | VStr _ | VList _ =>
      Raise (Exn TypeError (lit "can't multiply sequence by non-int of type 'float'"))
  | _ => Raise (Exn TypeError
            (lit "unsupported operand type(s) for *: '" ++ type_name v
             ++ lit "' and 'float'"))
  end.

(** [v[k] = w], for a string [k]: the object after the assignment. *)
Definition setitem (v : value) (k : str) (w : value) : result value :=
  match v with
  | VDict d => Ok (VDict (dict_set d k w))
  | VList _ =>
      Raise (Exn TypeError (lit "list indices must be integers or slices, not str"))
  | _ => Raise (Exn TypeError
            (lit "'" ++ type_name v ++ lit "' object does not support item assignment"))
  end.

End Json.

(* ================================================================== *)
(** * [services/ai_evaluator.py] *)
(* ================================================================== *)

Module AIEvaluator.
Import Py Json.
Local Open Scope py_scope.

(** ** [re.search(r'\{.*\}', s, re.DOTALL)]

    The leftmost match starts at the first opening brace that has a
    closing brace after it, which is the first opening brace of [s] when
    there is a match at all; the greedy [.*] (matching newlines too)
    extends it to the last closing brace of [s]. *)

Definition lbrace : char := 123%N.
Definition rbrace : char := 125%N.

(** The suffix of [s] that starts at the first [c]. *)
Fixpoint from_first (c : char) (s : str) : option str :=
  match s with
  | [] => None
  | d :: s' => if N.eqb d c then Some s else from_first c s'
  end.

(** The prefix of [s] that ends at the last [c]. *)
Definition upto_last (c : char) (s : str) : option str :=
  option_map (@rev char) (from_first c (rev s)).

(** [json_match.group(0)], or [None] when nothing matches. *)
Definition search_braces (s : str) : option str :=
  match from_first lbrace s with
  | Some (b :: rest) => option_map (cons b) (upto_last rbrace rest)
  | _ => None
  end.

(** ** The cleaning steps of [_parse_evaluation], before [json.loads] *)

Definition fence_json : str := lit "```json".
Definition fence : str := lit "```".

Definition clean (evaluation_text : str) : str :=
  let cleaned := strip evaluation_text in
  let cleaned :=
    if startswith cleaned fence_json then slice_from 7 cleaned
    else if startswith cleaned fence then slice_from 3 cleaned
    else cleaned in
  let cleaned :=
    if endswith cleaned fence then slice_to_neg 3 cleaned else cleaned in
  let cleaned :=
    match search_braces cleaned with
    | Some json_match => json_match
    | None => cleaned
    end in
  strip cleaned.

(** ** The block "Calculate overall score if not provided"

    [evaluation_data] is whatever [json.loads] returned, not necessarily
    a dict, and its members are not necessarily of the expected types:
    every operation is the dynamically typed one.  The nested dict is
    mutated in place, so the outer dict sees the new key. *)

Definition k_overall_assessment := lit "overall_assessment".
Definition k_overall_score := lit "overall_score".
Definition k_technical_evaluation := lit "technical_evaluation".
Definition k_financial_evaluation := lit "financial_evaluation".
Definition k_compliance_evaluation := lit "compliance_evaluation".
Definition k_score := lit "score".

(** [evaluation_data.get(section, {}).get("score", 0)] *)
Definition section_score (evaluation_data : value) (section : str)
  : result value :=
  sec <~ get evaluation_data section (VDict []) ;;
  get sec k_score (VInt 0).

(** [(tech_score * 0.5) + (fin_score * 0.3) + (comp_score * 0.2)] *)
Definition weighted (tech_score fin_score comp_score : value) : result float :=
  t <~ mul_float tech_score f0_5 ;;
  f <~ mul_float fin_score f0_3 ;;
  c <~ mul_float comp_score f0_2 ;;
  Ok (fadd (fadd t f) c).

Definition fill_overall (evaluation_data : value) : result value :=
  has_assessment <~ contains evaluation_data k_overall_assessment ;;
  if has_assessment then
    assessment <~ getitem evaluation_data k_overall_assessment ;;
    has_score <~ contains assessment k_overall_score ;;
    if negb has_score then
      tech_score <~ section_score evaluation_data k_technical_evaluation ;;
      fin_score <~ section_score evaluation_data k_financial_evaluation ;;
      comp_score <~ section_score evaluation_data k_compliance_evaluation ;;
      overall <~ weighted tech_score fin_score comp_score ;;
      assessment <~ getitem evaluation_data k_overall_assessment ;;
      assessment' <~ setitem assessment k_overall_score (VFloat (round2 overall)) ;;
      setitem evaluation_data k_overall_assessment assessment'
    else Ok evaluation_data
  else Ok evaluation_data.

(** ** The default structure returned when parsing fails *)

Definition degraded (evaluation_text : str) (e : exn) : value :=
  VDict
    [ (k_technical_evaluation,
        VDict [ (k_score, VInt 0);
                (lit "key_findings", VStr (lit "Evaluation parsing failed")) ]);
      (k_financial_evaluation,
        VDict [ (k_score, VInt 0);
                (lit "key_findings", VStr (lit "Evaluation parsing failed")) ]);
      (k_compliance_evaluation,
        VDict [ (k_score, VInt 0); (lit "status", VStr (lit "fail")) ]);
      (k_overall_assessment,
        VDict [ (k_overall_score, VInt 0);
                (lit "recommendation", VStr (lit "reject"));
                (lit "summary",
                  VStr (lit "Error parsing evaluation: " ++ exn_msg e)) ]);
      (lit "raw_response", VStr evaluation_text) ].

Section WithLibraries.

(** [json.loads]: returns the decoded object or raises, [JSONDecodeError]
    on a malformed document. *)
Variable json_loads : str -> result value.

(** [str.upper] *)
Variable str_upper : str -> str.

(** ** [_parse_evaluation] *)

Definition _parse_evaluation (evaluation_text : str) : M value :=
  try_except
    (evaluation_data <- lift (json_loads (clean evaluation_text)) ;;
     lift (fill_overall evaluation_data))
    is_JSONDecodeError
    (fun e =>
       logger ERROR (lit "Failed to parse evaluation JSON: " ++ exn_msg e) ;;;
       logger ERROR (lit "Raw response: " ++ evaluation_text) ;;;
       ret (degraded evaluation_text e)).

(** ** [_prepare_documents] and [_format_documents] *)

(** A document as the caller passes it: a dict in which any of the four
    keys may be absent ([None]). *)
Record document := Document {
  document_type : option str;
  extracted_text : option str;
  filename : option str;
  metadata : option value
}.

(** An entry of [doc_summaries[doc_type]]; [doc.get("filename")] is
    Python's [None] when the key is absent. *)
Record summary := Summary {
  s_filename : option str;
  s_content : str;
  s_metadata : value
}.

(** [doc.get("extracted_text", "")] *)
Definition text_of (doc : document) : str :=
  match extracted_text doc with Some t => t | None => [] end.

Definition summarise (doc : document) : summary :=
  {| s_filename := filename doc;
     s_content := slice_to 5000 (text_of doc);
     s_metadata :=
       match metadata doc with Some m => m | None => VDict [] end |}.

Definition doc_type_of (doc : document) : str :=
  match document_type doc with Some t => t | None => lit "unknown" end.

(** One iteration of the loop over [documents]. *)
Definition add_document (doc_summaries : dict (list summary)) (doc : document)
  : dict (list summary) :=
  let doc_type := doc_type_of doc in
  let doc_summaries :=
    if negb (dict_has doc_summaries doc_type)
    then dict_set doc_summaries doc_type []
    else doc_summaries in
  dict_set doc_summaries doc_type
    (dict_get_default doc_summaries doc_type [] ++ [summarise doc]).

Definition _prepare_documents (documents : list document)
  : dict (list summary) :=
  fold_left add_document documents [].

(** [f"{doc['filename']}"] *)
Definition show_filename (f : option str) : str :=
  match f with Some s => s | None => lit "None" end.

(** [f"{doc['content'][:2000]}..."]: what the oracle sees of a document. *)
Definition marker : str := lit "...".

Definition excerpt (doc : summary) : str :=
  slice_to 2000 (s_content doc) ++ marker.

Definition format_doc (doc : summary) : str :=
  (nl ++ lit "**File: " ++ show_filename (s_filename doc) ++ lit "**" ++ nl)
  ++ (excerpt doc ++ nl).

Definition format_group (g : str * list summary) : str :=
  (nl ++ lit "### " ++ str_upper (fst g) ++ lit " DOCUMENTS" ++ nl)
  ++ List.concat (List.map format_doc (snd g)).

Definition _format_documents (documents : dict (list summary)) : str :=
  fold_left (fun formatted g => formatted ++ format_group g) documents [].

End WithLibraries.

End AIEvaluator.

(* ================================================================== *)
(** * [services/document_processor.py] *)
(* ================================================================== *)

Module DocumentProcessor.
Import Py.
Local Open Scope py_scope.

Definition bytes := list Byte.byte.

(** What [docx.Document] exposes to the extractor: the text of each
    paragraph, and for each table its rows of cell texts. *)
Record docx_document := DocxDocument {
  paragraphs : list str;
  tables : list (list (list str))
}.

(** What [openpyxl.load_workbook(..., data_only=True)] exposes: for each
    sheet, in [wb.sheetnames] order, its name and its rows of cell
    values; a cell is [None] or a value, given by its [str(cell)]. *)
Definition worksheet_rows := list (list (option str)).
Definition workbook := list (str * worksheet_rows).

Section WithLibraries.

(** The decoding libraries.  Each call returns or raises; a failure
    raised lazily while the extractor walks the decoded object is
    accounted to the call that produced the object, which the caller
    cannot distinguish: the [try] covers both and the partial
    [text_parts] is local. *)

(** [PyPDF2.PdfReader(io.BytesIO(file_content)).pages] *)
Variable page : Type.
Variable PdfReader : bytes -> result (list page).
(** [page.extract_text()] *)
Variable page_extract_text : page -> result str.

(** [docx.Document(io.BytesIO(file_content))] *)
Variable Document : bytes -> result docx_document.

(** [pd.read_excel(excel_file, sheet_name=None)]: the sheets in file
    order. *)
Variable dataframe : Type.
Variable read_excel : bytes -> result (dict dataframe).
(** [df.head(100).to_string(index=False)] *)
Variable head100_to_string : dataframe -> result str.
(** [df.select_dtypes(include=['number']).columns] *)
Variable numeric_cols : dataframe -> result (list str).
(** [df[numeric_cols].describe().to_string()] *)
Variable describe_to_string : dataframe -> list str -> result str.

(** [load_workbook(excel_file, read_only=True, data_only=True)] *)
Variable load_workbook : bytes -> result workbook.

(** ** [_extract_from_pdf] *)

Definition page_marker (k : nat) : str :=
  lit "--- Page " ++ str_of_nat k ++ lit " ---".

(** [f"--- Page {page_num + 1} ---\n{text}"] *)
Definition page_block (page_num : nat) (text : str) : str :=
  page_marker (page_num + 1) ++ nl ++ text.

(** [if text:] *)
Definition truthy (text : str) : bool :=
  match text with [] => false | _ => true end.

(** The loop over [range(len(pdf_reader.pages))], from [page_num] on. *)
Fixpoint pdf_pages (page_num : nat) (pages : list page) (text_parts : list str)
  : result (list str) :=
  match pages with
  | [] => Ok text_parts
  | p :: pages' =>
      text <~ page_extract_text p ;;
      let text_parts :=
        if truthy text then text_parts ++ [page_block page_num text]
        else text_parts in
      pdf_pages (S page_num) pages' text_parts
  end.

Definition blank_line : str := nl ++ nl.

Definition extracted_msg (extracted_text : str) (what : string) : str :=
  lit "Extracted " ++ str_of_nat (List.length extracted_text)
  ++ lit " characters from " ++ lit what.

(** The body of the [try]. *)
Definition pdf_body (file_content : bytes) : M str :=
  pages <- lift (PdfReader file_content) ;;
  text_parts <- lift (pdf_pages 0 pages []) ;;
  let extracted_text := join blank_line text_parts in
  logger INFO (extracted_msg extracted_text "PDF") ;;;
  ret extracted_text.

Definition _extract_from_pdf (file_content : bytes) : M str :=
  try_except (pdf_body file_content) any_Exception
    (fun e =>
       logger ERROR (lit "PDF extraction error: " ++ exn_msg e) ;;;
       ret (lit "Error reading PDF: " ++ exn_msg e)).

(** ** [_extract_from_docx] *)

(** [" | ".join(cell.text.strip() for cell in row.cells)] *)
Definition docx_row_text (row : list str) : str :=
  join (lit " | ") (List.map strip row).

(** One iteration of the loop over [doc.tables]. *)
Definition docx_add_table (text_parts : list str) (table : list (list str))
  : list str :=
  let table_text := List.map docx_row_text table in
  match table_text with
  | [] => text_parts
  | _ => text_parts
         ++ [nl ++ lit "[TABLE]" ++ nl ++ join nl table_text ++ nl ++ lit "[/TABLE]"]
  end.

Definition docx_body (file_content : bytes) : M str :=
  doc <- lift (Document file_content) ;;
  let text_parts :=
    List.filter (fun text => truthy (strip text)) (paragraphs doc) in
  let text_parts := fold_left docx_add_table (tables doc) text_parts in
  let extracted_text := join blank_line text_parts in
  logger INFO (extracted_msg extracted_text "DOCX") ;;;
  ret extracted_text.

Definition _extract_from_docx (file_content : bytes) : M str :=
  try_except (docx_body file_content) any_Exception
    (fun e =>
       logger ERROR (lit "DOCX extraction error: " ++ exn_msg e) ;;;
       ret (lit "Error reading Word document: " ++ exn_msg e)).

(** ** [_extract_from_excel] *)

(** The loop over [excel_data.items()]. *)
Fixpoint pandas_sheets (sheets : dict dataframe) (text_parts : list str)
  : result (list str) :=
  match sheets with
  | [] => Ok text_parts
  | (sheet_name, df) :: sheets' =>
      let text_parts :=
        text_parts ++ [lit "--- Sheet: " ++ sheet_name ++ lit " ---"] in
      sample <~ head100_to_string df ;;
      let text_parts := text_parts ++ [sample] in
      cols <~ numeric_cols df ;;
      text_parts <~
        (match cols with
         | [] => Ok text_parts
         | _ => stats <~ describe_to_string df cols ;;
                Ok (text_parts ++ [nl ++ lit "[SUMMARY STATISTICS]"] ++ [stats])
         end) ;;
      pandas_sheets sheets' text_parts
  end.

Definition pandas_body (file_content : bytes) : M str :=
  excel_data <- lift (read_excel file_content) ;;
  text_parts <- lift (pandas_sheets excel_data []) ;;
  let extracted_text := join blank_line text_parts in
  logger INFO (extracted_msg extracted_text "Excel") ;;;
  ret extracted_text.

(** [any(cell is not None for cell in row)] *)
Definition any_cell (row : list (option str)) : bool :=
  existsb (fun cell => match cell with Some _ => true | None => false end) row.

(** [" | ".join(str(cell) if cell is not None else "" for cell in row)] *)
Definition openpyxl_row_text (row : list (option str)) : str :=
  join (lit " | ")
    (List.map (fun cell => match cell with Some s => s | None => [] end) row).

(** One sheet: [sheet.iter_rows(max_row=100, values_only=True)] yields
    at most the first 100 rows, so [row_idx] never reaches 100. *)
Definition openpyxl_add_sheet (text_parts : list str) (sheet : str * worksheet_rows)
  : list str :=
  (text_parts ++ [lit "--- Sheet: " ++ fst sheet ++ lit " ---"])
  ++ List.map openpyxl_row_text (List.filter any_cell (firstn 100 (snd sheet))).

Definition openpyxl_body (file_content : bytes) : M str :=
  wb <- lift (load_workbook file_content) ;;
  let text_parts := fold_left openpyxl_add_sheet wb [] in
  let extracted_text := join nl text_parts in
  logger INFO (extracted_msg extracted_text "Excel (openpyxl)") ;;;
  ret extracted_text.

Definition _extract_from_excel (file_content : bytes) : M str :=
  try_except
    (try_except (pandas_body file_content) any_Exception
       (fun e =>
          logger ERROR (lit "Pandas Excel extraction failed: " ++ exn_msg e) ;;;
          try_except (openpyxl_body file_content) any_Exception
            (fun openpyxl_error =>
               logger ERROR (lit "OpenPyXL Excel extraction also failed: "
                             ++ exn_msg openpyxl_error) ;;;
               ret (lit "Error reading Excel file: " ++ exn_msg openpyxl_error))))
    any_Exception
    (fun e =>
       logger ERROR (lit "Excel extraction error: " ++ exn_msg e) ;;;
       ret (lit "Error reading Excel file: " ++ exn_msg e)).

(** ** [extract_text] *)

Definition extract_text (file_content : bytes) (file_extension : str) : M str :=
  try_except
    (if str_eqb file_extension (lit ".pdf") then
       _extract_from_pdf file_content
     else if str_eqb file_extension (lit ".docx")
             || str_eqb file_extension (lit ".doc") then
       _extract_from_docx file_content
     else if str_eqb file_extension (lit ".xlsx")
             || str_eqb file_extension (lit ".xls") then
       _extract_from_excel file_content
     else
       logger WARNING (lit "Unsupported file extension: " ++ file_extension) ;;;
       ret [])
    any_Exception
    (fun e =>
       logger ERROR (lit "Error extracting text from " ++ file_extension
                     ++ lit ": " ++ exn_msg e) ;;;
       ret (lit "Error extracting text: " ++ exn_msg e)).

End WithLibraries.

End DocumentProcessor.

(* ================================================================== *)
(** * A reference decoder for [json.loads]

    [AIEvaluator] takes [json.loads] as a parameter.  To run the
    normaliser on concrete texts, this module decodes a document the way
    CPython's [json] scanner does (the same values, the same
    [JSONDecodeError] messages and positions).  The recursion is bounded
    by a counter, twice the length of the document, which is enough
    (lemma [loads_raises_decode_errors]); running out would be reported
    as [RecursionError].  Two limits of the interpreter are not part of
    it: CPython raises [RecursionError] on brackets nested deeper than
    its recursion limit and [ValueError] on an integer of more than
    4300 digits, where this decoder returns the value.  What is proved
    of the services holds for every [json.loads]; this decoder only
    runs them on the example texts, which are within both limits. *)
(* ================================================================== *)

Module JsonDecoder.
Import Py Json.

Inductive scan (A : Type) :=
| Scanned (a : A) (rest : str) (idx : nat)
| Failed (msg : string) (pos : nat)
| TooDeep.
Arguments Scanned {A} a rest idx.
Arguments Failed {A} msg pos.
Arguments TooDeep {A}.

Definition quote : char := 34%N.
Definition backslash : char := 92%N.

(** JSON whitespace: space, tab, line feed, carriage return. *)
Definition is_ws (c : char) : bool :=
  ((c =? 32) || (c =? 9) || (c =? 10) || (c =? 13))%N.

Fixpoint skip_ws (rest : str) (idx : nat) : str * nat :=
  match rest with
  | c :: rest' => if is_ws c then skip_ws rest' (S idx) else (rest, idx)
  | [] => (rest, idx)
  end.

Definition is_digit (c : char) : bool := ((48 <=? c) && (c <=? 57))%N.

Definition hex_value (c : char) : option N :=
  if is_digit c then Some (c - 48)%N
  else if ((97 <=? c) && (c <=? 102))%N then Some (c - 87)%N
  else if ((65 <=? c) && (c <=? 70))%N then Some (c - 55)%N
  else None.

(** The four hexadecimal digits of a [\uXXXX] escape. *)
Definition decode_uXXXX (rest : str) : option (N * str) :=
  match rest with
  | a :: b :: c :: d :: rest' =>
      match hex_value a, hex_value b, hex_value c, hex_value d with
      | Some a, Some b, Some c, Some d =>
          Some ((((a * 16 + b) * 16 + c) * 16 + d)%N, rest')
      | _, _, _, _ => None
      end
  | _ => None
  end.

Definition simple_escape (c : char) : option char :=
  if (c =? 34)%N then Some 34%N          (* the double quote *)
  else if (c =? 92)%N then Some 92%N     (* the backslash *)
  else if (c =? 47)%N then Some 47%N     (* / *)
  else if (c =? 98)%N then Some 8%N      (* b *)
  else if (c =? 102)%N then Some 12%N    (* f *)
  else if (c =? 110)%N then Some 10%N    (* n *)
  else if (c =? 114)%N then Some 13%N    (* r *)
  else if (c =? 116)%N then Some 9%N     (* t *)
  else None.

(** [scanstring(s, idx)] in strict mode, [idx] just after the opening
    quote, which is at [begin]; [acc] holds the decoded characters in
    reverse. *)
Fixpoint scanstring (begin : nat) (acc : str) (rest : str) (idx : nat)
  : scan str :=
  match rest with
  | [] => Failed "Unterminated string starting at" begin
  | c :: rest1 =>
      if (c =? quote)%N then Scanned (rev acc) rest1 (S idx)
      else if (c =? backslash)%N then
        match rest1 with
        | [] => Failed "Unterminated string starting at" begin
        | esc :: rest2 =>
            if (esc =? 117)%N then                      (* u *)
              match decode_uXXXX rest2 with
              | None => Failed "Invalid \uXXXX escape" (S idx)
              | Some (uni, _) =>
                  match rest2 with
                  | _ :: _ :: _ :: _ :: [] =>
                      (* the scanner wants a character after the escape *)
                      Failed "Invalid \uXXXX escape" (S idx)
                  | _ :: _ :: _ :: _ :: rest6 =>
                      let single := scanstring begin (uni :: acc) rest6 (idx + 6) in
                      match rest6 with
                      | b2 :: u2 :: ((_ :: _ :: _ :: _ :: ((_ :: _) as rest12))
                                     as rest8) =>
                          match decode_uXXXX rest8 with
                          | Some (uni2, _) =>
                              (* a surrogate pair is one character *)
                              if ((55296 <=? uni) && (uni <=? 56319)
                                  && (b2 =? backslash) && (u2 =? 117)
                                  && (56320 <=? uni2) && (uni2 <=? 57343))%N
                              then
                                scanstring begin
                                  ((65536 + ((uni - 55296) * 1024
                                             + (uni2 - 56320)))%N :: acc)
                                  rest12 (idx + 12)
                              else single
                          | None => single
                          end
                      | _ => single
                      end
                  | _ => Failed "Invalid \uXXXX escape" (S idx)
                  end
              end
            else
              match simple_escape esc with
              | Some ch => scanstring begin (ch :: acc) rest2 (idx + 2)
              | None => Failed "Invalid \escape" idx
              end
        end
      else if (c <? 32)%N then Failed "Invalid control character at" idx
      else scanstring begin (c :: acc) rest1 (S idx)
  end.

(** ** Numbers *)

Fixpoint take_digits (rest : str) : str * str :=
  match rest with
  | c :: rest' =>
      if is_digit c then
        let '(ds, r) := take_digits rest' in (c :: ds, r)
      else ([], rest)
  | [] => ([], [])
  end.

Definition int_of_digits (ds : str) : Z :=
  fold_left (fun a c => (a * 10 + Z.of_N (c - 48))%Z) ds 0%Z.

(** [float(text)] for the decimal [(-1)^neg * d * 10^e]: the nearest
    double. *)
Definition float_of_decimal (neg : bool) (d : Z) (e : Z) : float :=
  match (d * 10 ^ Z.max e 0)%Z, (10 ^ Z.max (- e) 0)%Z with
  | Zpos p, Zpos q => nearest_ratio neg p q
  | _, _ => S754_zero neg
  end.

(** The integer part: a single [0], or a non-zero digit and the digits
    after it. *)
Definition int_part (rest : str) : option (str * str) :=
  match rest with
  | c :: rest' =>
      if (c =? 48)%N then Some ([c], rest')
      else if is_digit c then Some (take_digits rest)
      else None
  | [] => None
  end.

(** The fraction: a point followed by at least one digit. *)
Definition frac_part (rest : str) : str * str :=
  match rest with
  | c :: ((d :: _) as rest') =>
      if (c =? 46)%N && is_digit d then take_digits rest' else ([], rest)
  | _ => ([], rest)
  end.

(** The exponent: [e] or [E], an optional sign, at least one digit. *)
Definition exp_part (rest : str) : option (Z * str) :=
  match rest with
  | c :: rest' =>
      if ((c =? 101) || (c =? 69))%N then
        let '(neg, rest'') :=
          match rest' with
          | sg :: r =>
              if (sg =? 45)%N then (true, r)
              else if (sg =? 43)%N then (false, r)
              else (false, rest')
          | [] => (false, rest')
          end in
        match take_digits rest'' with
        | ([], _) => None
        | (ds, r) =>
            Some (if neg then (- int_of_digits ds)%Z else int_of_digits ds, r)
        end
      else None
  | [] => None
  end.

Definition match_number (rest : str) (idx : nat) : option (value * str * nat) :=
  let '(neg, rest1) :=
    match rest with
    | c :: r => if (c =? 45)%N then (true, r) else (false, rest)
    | [] => (false, rest)
    end in
  match int_part rest1 with
  | None => None
  | Some (ds, rest2) =>
      let '(fs, rest3) := frac_part rest2 in
      let finish (v : value) (r : str) :=
        Some (v, r, idx + (List.length rest - List.length r)) in
      match exp_part rest3 with
      | Some (e, rest4) =>
          finish
            (VFloat (float_of_decimal neg (int_of_digits (ds ++ fs))
                       (e - Z.of_nat (List.length fs))))
            rest4
      | None =>
          match fs with
          | [] => finish (VInt (if neg then - int_of_digits ds
                                else int_of_digits ds)) rest3
          | _ => finish
                   (VFloat (float_of_decimal neg (int_of_digits (ds ++ fs))
                              (- Z.of_nat (List.length fs))))
                   rest3
          end
      end
  end.

(** ** Values *)

Definition lbracket : char := 91%N.
Definition rbracket : char := 93%N.
Definition comma : char := 44%N.
Definition colon : char := 58%N.

Definition keyword (name : string) (v : value) (rest : str) (idx : nat)
  : option (value * str * nat) :=
  if startswith rest (lit name)
  then Some (v, skipn (String.length name) rest, idx + String.length name)
  else None.

Definition constant (rest : str) (idx : nat) : option (value * str * nat) :=
  match keyword "null" VNone rest idx with Some r => Some r | None =>
  match keyword "true" (VBool true) rest idx with Some r => Some r | None =>
  match keyword "false" (VBool false) rest idx with Some r => Some r | None =>
  match keyword "NaN" (VFloat S754_nan) rest idx with Some r => Some r | None =>
  match keyword "Infinity" (VFloat (S754_infinity false)) rest idx with
  | Some r => Some r
  | None => keyword "-Infinity" (VFloat (S754_infinity true)) rest idx
  end end end end end.

Fixpoint scan_once (fuel : nat) (rest : str) (idx : nat) {struct fuel}
  : scan value :=
  match fuel with
  | O => TooDeep
  | S fuel =>
      match rest with
      | [] => Failed "Expecting value" idx
      | c :: rest1 =>
          if (c =? quote)%N then
            match scanstring idx [] rest1 (S idx) with
            | Scanned s r i => Scanned (VStr s) r i
            | Failed m p => Failed m p
            | TooDeep => TooDeep
            end
          else if (c =? AIEvaluator.lbrace)%N then
            let '(r, i) := skip_ws rest1 (S idx) in
            match r with
            | c' :: r' =>
                if (c' =? AIEvaluator.rbrace)%N then Scanned (VDict []) r' (S i)
                else object_loop fuel r i []
            | [] => object_loop fuel r i []
            end
          else if (c =? lbracket)%N then
            let '(r, i) := skip_ws rest1 (S idx) in
            match r with
            | c' :: r' =>
                if (c' =? rbracket)%N then Scanned (VList []) r' (S i)
                else array_loop fuel r i []
            | [] => array_loop fuel r i []
            end
          else
            match constant rest idx with
            | Some (v, r, i) => Scanned v r i
            | None =>
                match match_number rest idx with
                | Some (v, r, i) => Scanned v r i
                | None => Failed "Expecting value" idx
                end
            end
      end
  end

(** The members of an object, from the opening quote of a key on. *)
with object_loop (fuel : nat) (rest : str) (idx : nat) (pairs : dict value)
  {struct fuel} : scan value :=
  match fuel with
  | O => TooDeep
  | S fuel =>
      match rest with
      | [] => Failed "Expecting property name enclosed in double quotes" idx
      | c :: rest1 =>
          if negb (c =? quote)%N then
            Failed "Expecting property name enclosed in double quotes" idx
          else
            match scanstring idx [] rest1 (S idx) with
            | Failed m p => Failed m p
            | TooDeep => TooDeep
            | Scanned key r i =>
                let '(r, i) := skip_ws r i in
                match r with
                | [] => Failed "Expecting ':' delimiter" i
                | c1 :: r1 =>
                    if negb (c1 =? colon)%N then Failed "Expecting ':' delimiter" i
                    else
                      let '(r, i) := skip_ws r1 (S i) in
                      match scan_once fuel r i with
                      | Failed m p => Failed m p
                      | TooDeep => TooDeep
                      | Scanned val r i =>
                          let pairs := dict_set pairs key val in
                          let '(r, i) := skip_ws r i in
                          match r with
                          | [] => Failed "Expecting ',' delimiter" i
                          | c2 :: r2 =>
                              if (c2 =? AIEvaluator.rbrace)%N then
                                Scanned (VDict pairs) r2 (S i)
                              else if (c2 =? comma)%N then
                                let '(r, i) := skip_ws r2 (S i) in
                                object_loop fuel r i pairs
                              else Failed "Expecting ',' delimiter" i
                          end
                      end
                end
            end
      end
  end

(** The elements of an array, [items] in reverse. *)
with array_loop (fuel : nat) (rest : str) (idx : nat) (items : list value)
  {struct fuel} : scan value :=
  match fuel with
  | O => TooDeep
  | S fuel =>
      match scan_once fuel rest idx with
      | Failed m p => Failed m p
      | TooDeep => TooDeep
      | Scanned val r i =>
          let '(r, i) := skip_ws r i in
          match r with
          | [] => Failed "Expecting ',' delimiter" i
          | c :: r1 =>
              if (c =? rbracket)%N then Scanned (VList (rev (val :: items))) r1 (S i)
              else if (c =? comma)%N then
                let '(r, i) := skip_ws r1 (S i) in
                array_loop fuel r i (val :: items)
              else Failed "Expecting ',' delimiter" i
          end
      end
  end.

(** ** [json.loads] *)

(** The last line of [s], after its last line feed. *)
Definition last_line (s : str) : str :=
  match AIEvaluator.from_first 10%N (rev s) with
  | Some r => rev (firstn (List.length s - List.length r) (rev s))
  | None => s
  end.

(** [str(JSONDecodeError(msg, doc, pos))] *)
Definition errmsg (msg : string) (doc : str) (pos : nat) : str :=
  let before := firstn pos doc in
  let lineno := List.length (List.filter (N.eqb 10) before) + 1 in
  let colno := List.length (last_line before) + 1 in
  lit msg ++ lit ": line " ++ str_of_nat lineno ++ lit " column "
  ++ str_of_nat colno ++ lit " (char " ++ str_of_nat pos ++ lit ")".

Definition decode_error (msg : string) (doc : str) (pos : nat) : exn :=
  Exn JSONDecodeError (errmsg msg doc pos).

Definition loads (s : str) : result value :=
  if startswith s [65279%N] then
    Raise (decode_error "Unexpected UTF-8 BOM (decode using utf-8-sig)" s 0)
  else
    let '(r, i) := skip_ws s 0 in
    match scan_once (2 * List.length s + 2) r i with
    | Scanned obj r i =>
        let '(r, i) := skip_ws r i in
        match r with
        | [] => Ok obj
        | _ => Raise (decode_error "Extra data" s i)
        end
    | Failed msg pos => Raise (decode_error msg s pos)
    | TooDeep =>
        Raise (Exn RecursionError (lit "maximum recursion depth exceeded"))
    end.

(** A scan that did not run out of the counter, and left strictly less
    (no more) of the text than it was given. *)
Definition scan_ok {A} (rest : str) (res : scan A) : Prop :=
  match res with
  | Scanned _ r _ => List.length r < List.length rest
  | Failed _ _ => True
  | TooDeep => False
  end.

Definition scan_le {A} (rest : str) (res : scan A) : Prop :=
  match res with
  | Scanned _ r _ => List.length r <= List.length rest
  | Failed _ _ => True
  | TooDeep => False
  end.

(** Example documents are written with an apostrophe for each double
    quote of the text. *)
Definition text (s : string) : str :=
  List.map (fun c => if (c =? 39)%N then quote else c) (lit s).

End JsonDecoder.

(* ================================================================== *)
(** * [api/routes/organization.py]: [get_project_evaluations] *)
(* ================================================================== *)

Module Organization.
Import Py Json.
Local Open Scope py_scope.

(** [a < b] on floats; false when either is NaN. *)
Definition flt : float -> float -> bool := SFltb.

(** ** [list.sort(key=key, reverse=True)]

    The sort is stable also in reverse: elements whose keys compare
    equal keep their order.  For keys without NaN the outcome of a stable
    sort is determined by the list, so it is given here by insertion:
    an element goes after those with a greater key and before the rest.
    With a NaN among the keys, on which every comparison is false, the
    order CPython's sort returns depends on its runs and merges and is
    not the one given here: what is proved of this sort is proved for
    keys without NaN. *)

Section Sort.
Variable A : Type.
Variable key : A -> float.

Fixpoint insert_reverse (x : A) (l : list A) : list A :=
  match l with
  | [] => [x]
  | y :: l' =>
      if flt (key x) (key y) then y :: insert_reverse x l' else x :: l
  end.

Definition sort_reverse (l : list A) : list A :=
  fold_right insert_reverse [] l.

End Sort.

(** ** The rows the route reads *)

Record Project := {
  project_id_ : Z;
  organization_id : Z;
  title : str
}.

Record Bid := {
  bid_id_ : Z;
  company_name : str;          (* bid.bidder.company_name *)
  bid_amount : float
}.

(** [rank] is a nullable integer column without default.  The score
    columns are floats with default 0.0; a null score is not modelled. *)
Record Evaluation := {
  technical_score : float;
  financial_score : float;
  overall_score : float;
  is_qualified : Z;
  rank : option Z;
  ai_analysis : value
}.

(** An element of [evaluations_data]. *)
Record evaluation_data := {
  r_bid_id : Z;
  r_bidder_name : str;
  r_bid_amount : float;
  r_technical_score : float;
  r_financial_score : float;
  r_overall_score : float;
  r_is_qualified : Z;
  r_rank : option Z;
  r_ai_analysis : value
}.

Record response := {
  resp_project_id : Z;
  resp_project_title : str;
  resp_total_bids : nat;
  resp_evaluations : list evaluation_data
}.

Section WithDatabase.

(** The three queries, answered by the persistence layer:
    the project with this id owned by this user, if any; the bids of a
    project, newest first; the evaluation of a bid, if any ([bid_id] is
    unique in the table). *)
Variable select_project : Z -> Z -> option Project.
Variable select_bids : Z -> list Bid.
Variable select_evaluation : Z -> option Evaluation.

(** The dict appended for a bid that has an evaluation. *)
Definition row_of (bid : Bid) (evaluation : Evaluation) : evaluation_data :=
  {| r_bid_id := bid_id_ bid;
     r_bidder_name := company_name bid;
     r_bid_amount := bid_amount bid;
     r_technical_score := technical_score evaluation;
     r_financial_score := financial_score evaluation;
     r_overall_score := overall_score evaluation;
     r_is_qualified := is_qualified evaluation;
     r_rank := rank evaluation;
     r_ai_analysis := ai_analysis evaluation |}.

(** The loop over [bids]. *)
Fixpoint collect (bids : list Bid) : list evaluation_data :=
  match bids with
  | [] => []
  | bid :: bids' =>
      match select_evaluation (bid_id_ bid) with
      | Some evaluation => row_of bid evaluation :: collect bids'
      | None => collect bids'
      end
  end.

Definition get_project_evaluations (project_id : Z) (current_user_id : Z)
  : result response :=
  match select_project project_id current_user_id with
  | None => Raise (Exn HTTPException (lit "Project not found"))
  | Some project =>
      let bids := select_bids project_id in
      let evaluations_data := collect bids in
      let evaluations_data := sort_reverse r_overall_score evaluations_data in
      Ok {| resp_project_id := project_id;
            resp_project_title := title project;
            resp_total_bids := List.length bids;
            resp_evaluations := evaluations_data |}
  end.

End WithDatabase.

End Organization.

(* ================================================================== *)
(** * The notions the statements use, and the example inputs *)
(* ================================================================== *)

Module Reading.
Import Py Json AIEvaluator.

(** [r[k]] when [r] is a dict that has the key. *)
Definition field (r : value) (k : str) : option value :=
  match r with
  | VDict d => dict_get d k
  | _ => None
  end.

(** [r[k1][k2]] *)
Definition field2 (r : value) (k1 k2 : str) : option value :=
  match field r k1 with
  | Some v => field v k2
  | None => None
  end.

(** The overall score a record carries, if any. *)
Definition overall_of (r : value) : option value :=
  field2 r k_overall_assessment k_overall_score.

(** A score as the operand of the weighted average: a float, or an
    [int] or [bool] that converts to one. *)
Definition as_float (v : value) : option float :=
  match v with
  | VFloat x => Some x
  | VInt z => float_of_int z
  | VBool b => float_of_int (if b then 1 else 0)
  | _ => None
  end.

(** [0.5 * t + 0.3 * f + 0.2 * c] in double arithmetic, as the source
    parenthesises it. *)
Definition weighted_sum (t f c : float) : float :=
  fadd (fadd (fmul t f0_5) (fmul f f0_3)) (fmul c f0_2).

(** A section that is absent from the answer, or is an object without
    a [score]. *)
Definition section_missing (d : dict value) (section : str) : Prop :=
  dict_get d section = None
  \/ exists sec, dict_get d section = Some (VDict sec) /\ dict_get sec k_score = None.

Definition zero : float := S754_zero false.

(** Row [a] may stand before row [b] in a descending order: its overall
    score is not below that of [b]. *)
Definition not_below (a b : Organization.evaluation_data) : Prop :=
  Organization.flt (Organization.r_overall_score a)
    (Organization.r_overall_score b) = false.

(** Equality of doubles as data: same sign, mantissa and exponent. *)
Definition float_eqb (a b : float) : bool :=
  match a, b with
  | S754_zero s, S754_zero t => Bool.eqb s t
  | S754_infinity s, S754_infinity t => Bool.eqb s t
  | S754_nan, S754_nan => true
  | S754_finite s m e, S754_finite t n f =>
      Bool.eqb s t && Pos.eqb m n && Z.eqb e f
  | _, _ => false
  end.

(** [y] is [x] rounded to two decimal places: for [x] = [+-m / 2^k], the
    double nearest to [+-n / 100] for an integer [n] nearest to
    [100 m / 2^k], that is with [|100 m / 2^k - n| <= 1/2]; a double
    that is an integer for its exponent, an infinity or NaN is its own
    rounding. *)
Definition two_decimals (x y : float) : Prop :=
  match x with
  | S754_finite s m (Zneg k) =>
      exists n : Z,
        (0 <= n)%Z /\
        (2 * Z.abs (Zpos m * 100 - n * Z.pow_pos 2 k) <= Z.pow_pos 2 k)%Z /\
        y = match n with
            | Zpos n' => nearest_ratio s n' 100
            | _ => S754_zero s
            end
  | _ => y = x
  end.

(** The double nearest to the real number [k / 10], for [k >= 0]. *)
Definition tenths (k : Z) : float :=
  match k with
  | Zpos p => nearest_ratio false p 10
  | _ => zero
  end.

(** [5 * t + 3 * f + 2 * c], ten times the weighted average, exactly. *)
Definition weighted_tenths (t f c : Z) : Z := (5 * t + 3 * f + 2 * c)%Z.

(** On integer scores the double computation gives the double nearest
    to the exact average. *)
Definition exact_at (t f c : Z) : bool :=
  float_eqb
    (round2 (weighted_sum (nearest_int t) (nearest_int f) (nearest_int c)))
    (tenths (weighted_tenths t f c)).

(** [p] holds at [step * k] for every [k] from 0 to [n]. *)
Fixpoint on_grid (step : Z) (n : nat) (p : Z -> bool) : bool :=
  match n with
  | O => p 0%Z
  | S n' => p (step * Z.of_nat n)%Z && on_grid step n' p
  end.

(** The ranks 1 to [n], as a ranking by position would assign them. *)
Definition ranks_1_to (n : nat) : list (option Z) :=
  List.map (fun k => Some (Z.of_nat k)) (seq 1 n).

(** A computation that returns, whatever has been logged. *)
Definition total {A : Type} (m : M A) : Prop :=
  forall l, exists a l', m l = (Ok a, l').

(** The strings [ms] occur in [s] one after the other, without
    overlap, in the order of the list. *)
Fixpoint occurs_in_order (ms : list str) (s : str) : Prop :=
  match ms with
  | [] => True
  | m :: ms' => exists pre post, s = pre ++ m ++ post /\ occurs_in_order ms' post
  end.

(** The texts of the pages with their [page_num], from 0. *)
Definition numbered (texts : list str) : list (nat * str) :=
  combine (seq 0 (List.length texts)) texts.

(** The blocks of the pages that yield some text. *)
Definition emitted_blocks (texts : list str) : list str :=
  List.map (fun nt => DocumentProcessor.page_block (fst nt) (snd nt))
    (List.filter (fun nt => DocumentProcessor.truthy (snd nt)) (numbered texts)).

(** A document is filed under [t] when [t] is its [document_type], or
    when it has none and [t] is "unknown". *)
Definition filed_under (t : str) (d : document) : bool :=
  match document_type d with
  | Some t' => str_eqb t' t
  | None => str_eqb (lit "unknown") t
  end.

(** The documents of type [t], in upload order. *)
Definition of_type (t : str) (documents : list document) : list document :=
  List.filter (filed_under t) documents.

(** The operand a section brings to the weighted average: [0] when the
    section is missing, its score when it has a numeric one. *)
Definition section_operand (d : dict value) (section : str) (x : float) : Prop :=
  (section_missing d section /\ x = zero)
  \/ exists sec v,
       dict_get d section = Some (VDict sec) /\ dict_get sec k_score = Some v
       /\ as_float v = Some x.

(** The answer [d] after the block has inserted [overall] in its
    assessment object [oa]. *)
Definition with_overall (d oa : dict value) (overall : float) : value :=
  VDict (dict_set d k_overall_assessment
           (VDict (dict_set oa k_overall_score (VFloat overall)))).

End Reading.

Module Examples.
Import Py Json AIEvaluator JsonDecoder.

(** The oracle answer of the specification's fourth testable property. *)
Definition answer_80_70_90 : str :=
  text "{'technical_evaluation':{'score':80},'financial_evaluation':{'score':70},'compliance_evaluation':{'score':90},'overall_assessment':{'recommendation':'award'}}".

(** An answer that scores the three sections and has no
    [overall_assessment]. *)
Definition answer_without_assessment : str :=
  text "{'technical_evaluation':{'score':80},'financial_evaluation':{'score':70},'compliance_evaluation':{'score':90}}".

(** An answer with nothing but an [overall_assessment]. *)
Definition answer_only_assessment : str :=
  text "{'overall_assessment':{'recommendation':'reject'}}".

(** An answer whose technical score is the string "80". *)
Definition answer_string_score : str :=
  text "{'technical_evaluation':{'score':'80'},'financial_evaluation':{'score':70},'compliance_evaluation':{'score':90},'overall_assessment':{'recommendation':'award'}}".

(** An answer in plain prose. *)
Definition answer_prose : str :=
  lit "  The bid is strong, I would award it.  ".

Definition f79 : float := nearest_int 79.

(** An answer whose weighted sum, 82.19999999999999 in doubles, is no
    number of two decimals. *)
Definition answer_81_77_93 : str :=
  text "{'technical_evaluation':{'score':81},'financial_evaluation':{'score':77},'compliance_evaluation':{'score':93},'overall_assessment':{'recommendation':'award'}}".

(** The double nearest to 82.2. *)
Definition f82_2 : float := nearest_ratio false 822 10.

(** What [json.loads] makes of [answer_80_70_90]. *)
Definition assessment_award : dict value :=
  [ (lit "recommendation", VStr (lit "award")) ].

Definition parsed_80_70_90 : dict value :=
  [ (k_technical_evaluation, VDict [ (k_score, VInt 80) ]);
    (k_financial_evaluation, VDict [ (k_score, VInt 70) ]);
    (k_compliance_evaluation, VDict [ (k_score, VInt 90) ]);
    (k_overall_assessment, VDict assessment_award) ].

Definition parsed_81_77_93 : dict value :=
  [ (k_technical_evaluation, VDict [ (k_score, VInt 81) ]);
    (k_financial_evaluation, VDict [ (k_score, VInt 77) ]);
    (k_compliance_evaluation, VDict [ (k_score, VInt 93) ]);
    (k_overall_assessment, VDict assessment_award) ].

(** What [json.loads] makes of [answer_only_assessment]. *)
Definition assessment_reject : dict value :=
  [ (lit "recommendation", VStr (lit "reject")) ].

Definition parsed_only_assessment : dict value :=
  [ (k_overall_assessment, VDict assessment_reject) ].

(** The decoder's complaint about [answer_prose]. *)
Definition prose_error : exn :=
  Exn JSONDecodeError (lit "Expecting value: line 1 column 1 (char 0)").

(** Documents of a bid, in upload order. *)
Definition doc (type name content : string) : document :=
  {| document_type := Some (lit type);
     extracted_text := Some (lit content);
     filename := Some (lit name);
     metadata := None |}.

Definition bid_documents : list document :=
  [ doc "technical" "approach.pdf" "We propose a phased delivery.";
    doc "financial" "prices.xlsx" "Total: 120000 USD";
    doc "technical" "team.docx" "" ].

(** The same documents, followed by one without a type and by one of
    6000 characters. *)
Definition untyped_document : document :=
  {| document_type := None;
     extracted_text := Some (lit "Minutes of the site visit");
     filename := Some (lit "notes.txt");
     metadata := None |}.

(** A document of 6000 characters. *)
Definition long_document : document :=
  {| document_type := Some (lit "technical");
     extracted_text := Some (repeat 120%N (60 * 100));
     filename := Some (lit "long.pdf");
     metadata := None |}.

Definition mixed_documents : list document :=
  bid_documents ++ [untyped_document; long_document].

(** A stand-in for the decoding libraries, which knows one PDF file of
    three pages and rejects every other stream. *)
Definition three_page_pdf : DocumentProcessor.bytes :=
  [Byte.x25; Byte.x50; Byte.x44; Byte.x46; Byte.x2d; Byte.x31; Byte.x2e; Byte.x37].

Definition corrupted_pdf : DocumentProcessor.bytes :=
  [Byte.x25; Byte.x50; Byte.x44; Byte.x00].

Definition three_pages : list str :=
  [ lit "Scope of work"; lit "Pricing schedule"; lit "References" ].

Definition bytes_eqb (a b : DocumentProcessor.bytes) : bool :=
  if list_eq_dec Byte.byte_eq_dec a b then true else false.

Definition reject {A : Type} (cls msg : string) : result A :=
  Raise (Exn (LibraryError (lit cls)) (lit msg)).

Definition stub_PdfReader (file_content : DocumentProcessor.bytes)
  : result (list str) :=
  if bytes_eqb file_content three_page_pdf then Ok three_pages
  else reject "PdfReadError" "EOF marker not found".

Definition stub_page_extract_text (page : str) : result str := Ok page.

Definition stub_Document (file_content : DocumentProcessor.bytes)
  : result DocumentProcessor.docx_document :=
  reject "BadZipFile" "File is not a zip file".

Definition stub_read_excel (file_content : DocumentProcessor.bytes)
  : result (dict unit) :=
  reject "ValueError" "Excel file format cannot be determined".

Definition stub_load_workbook (file_content : DocumentProcessor.bytes)
  : result DocumentProcessor.workbook :=
  reject "BadZipFile" "File is not a zip file".

Definition stub_extract_text : DocumentProcessor.bytes -> str -> M str :=
  DocumentProcessor.extract_text stub_PdfReader stub_page_extract_text
    stub_Document stub_read_excel
    (fun _ : unit => Ok []) (fun _ : unit => Ok []) (fun (_ : unit) _ => Ok [])
    stub_load_workbook.

(** A project with three evaluated bids, overall scores 70, 95 and 82,
    whose evaluations were stored without a rank. *)
Definition tender : Organization.Project :=
  {| Organization.project_id_ := 1;
     Organization.organization_id := 10;
     Organization.title := lit "Road maintenance" |}.

Definition bid_of (id : Z) (name : string) : Organization.Bid :=
  {| Organization.bid_id_ := id;
     Organization.company_name := lit name;
     Organization.bid_amount := nearest_int 100000 |}.

Definition evaluation_of (overall : Z) : Organization.Evaluation :=
  {| Organization.technical_score := nearest_int overall;
     Organization.financial_score := nearest_int overall;
     Organization.overall_score := nearest_int overall;
     Organization.is_qualified := 1;
     Organization.rank := None;
     Organization.ai_analysis := VDict [] |}.

Definition db_project (project_id user_id : Z) : option Organization.Project :=
  if ((project_id =? 1) && (user_id =? 10))%Z then Some tender else None.

Definition db_bids (project_id : Z) : list Organization.Bid :=
  if (project_id =? 1)%Z
  then [ bid_of 101 "Alpha"; bid_of 102 "Beta"; bid_of 103 "Gamma" ]
  else [].

Definition db_evaluation (bid_id : Z) : option Organization.Evaluation :=
  if (bid_id =? 101)%Z then Some (evaluation_of 70)
  else if (bid_id =? 102)%Z then Some (evaluation_of 95)
  else if (bid_id =? 103)%Z then Some (evaluation_of 82)
  else None.

(** A summary with no content at all. *)
Definition empty_summary : summary :=
  {| s_filename := Some (lit "team.docx"); s_content := []; s_metadata := VDict [] |}.

End Examples.

(* ================================================================== *)
(** * [services/ai_evaluator.py]: the methods that call the model *)
(* ================================================================== *)

Module AIEvaluatorCalls.
Import Py Json AIEvaluator.
Local Open Scope py_scope.

Section WithModel.

Variable json_loads : str -> result value.
Variable str_upper : str -> str.

(** [json.dumps(obj, indent=2)] *)
Variable json_dumps : value -> result str.

(** [f"{v}"], the text an f-string puts for a value. *)
Variable format_value : value -> str.

(** [self.model.generate_content(prompt)] and the [text] property of
    what it returns; either may raise. *)
Variable response : Type.
Variable generate_content : str -> result response.
Variable response_text : response -> result str.

(** ** [_create_evaluation_prompt]

    The f-string, line by line; its fields are evaluated from left to
    right, [json.dumps] first. *)
Definition _create_evaluation_prompt (bid_data criteria : dict value)
  (documents : dict (list summary)) : result str :=
  criteria_json <~ json_dumps (VDict criteria) ;;
  Ok (join nl [
      lit "You are an expert procurement evaluator analyzing a bid submission for a tender/project. Your task is to thoroughly evaluate the bid against the specified criteria and provide detailed scoring.";
      [];
      lit "## PROJECT CRITERIA";
      criteria_json;
      [];
      lit "## BID INFORMATION";
      lit "- Bidder: " ++ format_value (dict_get_default bid_data (lit "company_name") (VStr (lit "N/A")));
      lit "- Bid Amount: " ++ format_value (dict_get_default bid_data (lit "bid_amount") (VStr (lit "N/A"))) ++ lit " " ++ format_value (dict_get_default bid_data (lit "currency") (VStr (lit "USD")));
      lit "- Submission Date: " ++ format_value (dict_get_default bid_data (lit "submitted_at") (VStr (lit "N/A")));
      [];
      lit "## SUBMITTED DOCUMENTS";
      _format_documents str_upper documents;
      [];
      lit "## EVALUATION TASK";
      [];
      lit "Please evaluate this bid comprehensively and provide your analysis in the following JSON format:";
      [];
      lit "{";
      JsonDecoder.text "  'technical_evaluation': {";
      JsonDecoder.text "    'score': <0-100>,";
      JsonDecoder.text "    'strengths': [<list of technical strengths>],";
      JsonDecoder.text "    'weaknesses': [<list of technical weaknesses>],";
      JsonDecoder.text "    'key_findings': '<detailed technical assessment>'";
      lit "  },";
      JsonDecoder.text "  'financial_evaluation': {";
      JsonDecoder.text "    'score': <0-100>,";
      JsonDecoder.text "    'competitiveness': '<assessment of pricing>',";
      JsonDecoder.text "    'financial_stability': '<assessment from financial docs>',";
      JsonDecoder.text "    'key_findings': '<detailed financial assessment>'";
      lit "  },";
      JsonDecoder.text "  'compliance_evaluation': {";
      JsonDecoder.text "    'score': <0-100>,";
      JsonDecoder.text "    'status': 'pass' or 'fail',";
      JsonDecoder.text "    'missing_requirements': [<list any missing required items>],";
      JsonDecoder.text "    'compliance_issues': [<list any compliance concerns>]";
      lit "  },";
      JsonDecoder.text "  'overall_assessment': {";
      JsonDecoder.text "    'overall_score': <weighted average based on criteria weights>,";
      JsonDecoder.text "    'recommendation': 'award' or 'shortlist' or 'reject',";
      JsonDecoder.text "    'ranking_justification': '<why this bid should be ranked as it is>',";
      JsonDecoder.text "    'risk_factors': [<list any risk factors>],";
      JsonDecoder.text "    'summary': '<executive summary of the bid evaluation>'";
      lit "  }";
      lit "}";
      [];
      lit "IMPORTANT GUIDELINES:";
      lit "- Be objective and thorough";
      lit "- Base scores on evidence from documents";
      lit "- Consider the project criteria weights: Technical (" ++ format_value (dict_get_default criteria (lit "technical_weight") (VInt 60)) ++ lit "%), Financial (" ++ format_value (dict_get_default criteria (lit "financial_weight") (VInt 40)) ++ lit "%)";
      lit "- Flag any red flags or concerns";
      lit "- Provide actionable insights";
      lit "- Ensure scores are realistic and justified";
      [];
      lit "Return ONLY the JSON object, no additional text or markdown formatting." ]).

(** ** [evaluate_bid] *)

Definition evaluate_bid (bid_data project_criteria : dict value)
  (documents : list document) : M value :=
  try_except
    (let doc_summaries := _prepare_documents documents in
     prompt <- lift (_create_evaluation_prompt bid_data project_criteria
                       doc_summaries) ;;
     logger INFO (lit "Sending evaluation request to Gemini...") ;;;
     response <- lift (generate_content prompt) ;;
     evaluation_text <- lift (response_text response) ;;
     evaluation_result <- _parse_evaluation json_loads evaluation_text ;;
     logger INFO (lit "Bid evaluation completed successfully") ;;;
     ret evaluation_result)
    any_Exception
    (fun e =>
       logger ERROR (lit "Error in AI evaluation: " ++ exn_msg e) ;;;
       raise e).

(** ** [compare_bids]

    The prompt is built before the [try]. *)
Definition comparison_prompt (evaluations : list value) : result str :=
  evaluations_json <~ json_dumps (VList evaluations) ;;
  Ok (join nl [
      lit "You are comparing multiple bids for a tender project. Analyze the evaluations and provide a comprehensive comparison and ranking.";
      [];
      lit "## BID EVALUATIONS";
      evaluations_json;
      [];
      lit "Provide a comparison analysis in JSON format:";
      [];
      lit "{";
      JsonDecoder.text "  'ranking': [";
      lit "    {";
      JsonDecoder.text "      'bid_id': <id>,";
      JsonDecoder.text "      'rank': <1, 2, 3...>,";
      JsonDecoder.text "      'score': <overall_score>,";
      JsonDecoder.text "      'justification': '<why this ranking>'";
      lit "    }";
      lit "  ],";
      JsonDecoder.text "  'key_insights': [<list of insights from comparison>],";
      JsonDecoder.text "  'recommendation': '<final recommendation for contract award>',";
      JsonDecoder.text "  'value_for_money_analysis': '<which bid offers best value>'";
      lit "}";
      [];
      lit "Return ONLY the JSON object, no additional text." ]).

Definition compare_bids (evaluations : list value) : M value :=
  prompt <- lift (comparison_prompt evaluations) ;;
  try_except
    (response <- lift (generate_content prompt) ;;
     comparison_text <- lift (response_text response) ;;
     _parse_evaluation json_loads comparison_text)
    any_Exception
    (fun e =>
       logger ERROR (lit "Error in bid comparison: " ++ exn_msg e) ;;;
       raise e).

(** ** [extract_key_information] *)

Definition extraction_prompt (document_text document_type : str) : str :=
  join nl [
      lit "Extract key information from this " ++ document_type ++ lit " document.";
      [];
      lit "DOCUMENT TEXT:";
      slice_to 4000 document_text;
      [];
      lit "Please extract and structure the following information as JSON:";
      [];
      lit "For FINANCIAL documents:";
      lit "{";
      JsonDecoder.text "  'revenue': '<amount and currency>',";
      JsonDecoder.text "  'profit': '<amount and currency>',";
      JsonDecoder.text "  'assets': '<amount and currency>',";
      JsonDecoder.text "  'key_metrics': [<list of important financial metrics>],";
      JsonDecoder.text "  'financial_health': '<brief assessment>'";
      lit "}";
      [];
      lit "For TECHNICAL documents:";
      lit "{";
      JsonDecoder.text "  'technologies': [<list of technologies mentioned>],";
      JsonDecoder.text "  'experience_years': '<years of experience>',";
      JsonDecoder.text "  'team_size': '<number of team members>',";
      JsonDecoder.text "  'certifications': [<list of certifications>],";
      JsonDecoder.text "  'key_capabilities': [<list of capabilities>]";
      lit "}";
      [];
      lit "For OTHER document types:";
      lit "{";
      JsonDecoder.text "  'key_points': [<list of important points>],";
      JsonDecoder.text "  'summary': '<brief summary>'";
      lit "}";
      [];
      lit "Return ONLY the JSON object." ].

(** The record returned when anything fails. *)
Definition extraction_failed (e : exn) : value :=
  VDict [ (lit "error", VStr (exn_msg e));
          (lit "summary", VStr (lit "Could not extract structured information")) ].

(** The cleaning steps are those of [_parse_evaluation], repeated in
    this method. *)
Definition extract_key_information (document_text document_type : str)
  : M value :=
  let prompt := extraction_prompt document_text document_type in
  try_except
    (response <- lift (generate_content prompt) ;;
     result_text <- lift (response_text response) ;;
     lift (json_loads (clean result_text)))
    any_Exception
    (fun e =>
       logger ERROR (lit "Error extracting information: " ++ exn_msg e) ;;;
       ret (extraction_failed e)).

End WithModel.

End AIEvaluatorCalls.

(* ================================================================== *)
(** * [services/document_processor.py]: the keyword scans *)
(* ================================================================== *)

Module DocumentScans.
Import Py.

(** The dicts the two methods return have fixed keys. *)
Record financial_data := {
  currency_mentions : list str;
  numeric_values : list str;
  keywords_found : list str
}.

Record technical_data := {
  technologies_mentioned : list str;
  certifications : list str;
  experience_indicators : list str
}.

Definition keywords : list str :=
  List.map lit
    [ "revenue"; "profit"; "loss"; "assets"; "liabilities";
      "turnover"; "balance"; "equity"; "cash flow"; "budget" ]%string.

Definition tech_keywords : list str :=
  List.map lit
    [ "python"; "java"; "javascript"; "react"; "angular"; "vue";
      "docker"; "kubernetes"; "aws"; "azure"; "gcp";
      "microservices"; "api"; "database"; "postgresql"; "mongodb";
      "machine learning"; "ai"; "devops"; "ci/cd" ]%string.

Definition cert_keywords : list str :=
  List.map lit
    [ "iso"; "cmmi"; "pci"; "hipaa"; "soc 2"; "gdpr";
      "certified"; "certification"; "accreditation" ]%string.

(** [for keyword in keywords: if keyword in text_lower: found.append(keyword)] *)
Definition scan (keywords : list str) (text_lower : str) : list str :=
  fold_left
    (fun found keyword =>
       if str_contains text_lower keyword then found ++ [keyword] else found)
    keywords [].

Section WithLibraries.

(** [str.lower] *)
Variable str_lower : str -> str.

(** [re.findall(pattern, text, re.IGNORECASE)] for the currency and the
    number pattern, and [re.findall] for the experience pattern, which
    returns the text of its one group for each match. *)
Variable findall_currency : str -> list str.
Variable findall_number : str -> list str.
Variable findall_experience : str -> list str.

(** [list(set(xs))]: the distinct elements, in the order of the hash
    table. *)
Variable list_set : list str -> list str.

Definition extract_financial_data (text : str) : financial_data :=
  let text_lower := str_lower text in
  let keywords_found := scan keywords text_lower in
  let currencies := findall_currency text in
  let currency_mentions := list_set currencies in
  let numbers := findall_number text in
  {| currency_mentions := currency_mentions;
     numeric_values := firstn 20 numbers;
     keywords_found := keywords_found |}.

Definition extract_technical_capabilities (text : str) : technical_data :=
  let text_lower := str_lower text in
  let technologies_mentioned := scan tech_keywords text_lower in
  let certifications := scan cert_keywords text_lower in
  let experiences := findall_experience text_lower in
  {| technologies_mentioned := technologies_mentioned;
     certifications := certifications;
     experience_indicators :=
       match experiences with
       | [] => []
       | _ => List.map (fun exp => exp ++ lit " years") experiences
       end |}.

End WithLibraries.

End DocumentScans.

(* ================================================================== *)
(** * [api/routes/bidder.py], [api/routes/organization.py]: the routes
      that change a bid

    The tables are lists of rows; a row holds the columns these routes
    read or assign (the timestamps [created_at] and [updated_at], which
    the ORM maintains by itself, are left out).  A query filters a
    table; [db.commit()] writes the rows the route has assigned to,
    found by their primary key.  Status columns have a default; a null
    status is not modelled. *)
(* ================================================================== *)

Module Routes.
Import Py.

(** ** [db/models.py] *)

Module ProjectStatus.
Inductive t := DRAFT | ACTIVE | CLOSED | AWARDED.
End ProjectStatus.

Module BidStatus.
Inductive t :=
| DRAFT | SUBMITTED | UNDER_EVALUATION | EVALUATED | SHORTLISTED | REJECTED
| AWARDED.

Definition eqb (a b : t) : bool :=
  match a, b with
  | DRAFT, DRAFT | SUBMITTED, SUBMITTED
  | UNDER_EVALUATION, UNDER_EVALUATION | EVALUATED, EVALUATED
  | SHORTLISTED, SHORTLISTED | REJECTED, REJECTED | AWARDED, AWARDED => true
  | _, _ => false
  end.
End BidStatus.

Inductive DocumentType := FINANCIAL | RFP | EOI | SBD | SPQ | TECHNICAL | OTHER.

(** [document_type.value] *)
Definition value_of (t : DocumentType) : str :=
  lit match t with
      | FINANCIAL => "financial"
      | RFP => "rfp"
      | EOI => "eoi"
      | SBD => "sbd"
      | SPQ => "spq"
      | TECHNICAL => "technical"
      | OTHER => "other"
      end.

Definition datetime := Z.

Record project_row := {
  p_id : Z;
  p_organization_id : Z;
  p_status : ProjectStatus.t
}.

Record bid_row := {
  b_id : Z;
  b_project_id : Z;
  b_bidder_id : Z;
  b_status : BidStatus.t;
  b_submitted_at : option datetime
}.

Record document_row := {
  d_id : Z;
  d_bid_id : Z;
  d_document_type : DocumentType;
  d_filename : str;
  d_file_path : str;
  d_file_size : option Z;
  d_mime_type : option str;
  d_extracted_text : str
}.

Record database := {
  projects : list project_row;
  bids : list bid_row;
  documents : list document_row
}.

(** ** Requests

    A request runs on the database and the log of the services; it
    returns, or is answered with an HTTP error, or fails with an
    exception of a library. *)

Record state := State { db : database; lg : log }.

Inductive reply (A : Type) :=
| Returns (a : A)
| HTTPError (status_code : Z) (detail : str)
| Fails (e : exn).
Arguments Returns {A} a.
Arguments HTTPError {A} status_code detail.
Arguments Fails {A} e.

Definition R (A : Type) := state -> reply A * state.

Definition ret {A} (a : A) : R A := fun s => (Returns a, s).

Definition bind {A B} (m : R A) (k : A -> R B) : R B :=
  fun s => match m s with
           | (Returns a, s') => k a s'
           | (HTTPError c d, s') => (HTTPError c d, s')
           | (Fails e, s') => (Fails e, s')
           end.

(** [raise HTTPException(status_code=..., detail=...)] *)
Definition http_exception {A} (status_code : Z) (detail : str) : R A :=
  fun s => (HTTPError status_code detail, s).

(** [db.execute(select(table).where(condition))] *)
Definition execute {A} (table : database -> list A) (condition : A -> bool)
  : R (list A) :=
  fun s => (Returns (List.filter condition (table (db s))), s).

(** [result.scalar_one_or_none()] *)
Definition scalar_one_or_none {A} (rows : list A) : R (option A) :=
  fun s =>
    match rows with
    | [] => (Returns None, s)
    | [row] => (Returns (Some row), s)
    | _ => (Fails (Exn (LibraryError (lit "MultipleResultsFound"))
                     (lit "Multiple rows were found when one or none was required")),
            s)
    end.

(** [db.commit()], for the rows [write] stands for. *)
Definition commit (write : database -> database) : R unit :=
  fun s => (Returns tt, {| db := write (db s); lg := lg s |}).

(** A call of a library, which returns or raises. *)
Definition call {A} (r : result A) : R A :=
  fun s => match r with
           | Ok a => (Returns a, s)
           | Raise e => (Fails e, s)
           end.

(** A call of a service, which logs. *)
Definition run {A} (m : M A) : R A :=
  fun s => match m (lg s) with
           | (Ok a, l) => (Returns a, {| db := db s; lg := l |})
           | (Raise e, l) => (Fails e, {| db := db s; lg := l |})
           end.

(** The row with the primary key of [bid] is replaced by [bid]. *)
Definition update_bid (bid : bid_row) (d : database) : database :=
  {| projects := projects d;
     bids := List.map (fun b => if (b_id b =? b_id bid)%Z then bid else b)
               (bids d);
     documents := documents d |}.

Definition update_project (project : project_row) (d : database) : database :=
  {| projects := List.map (fun p => if (p_id p =? p_id project)%Z
                                    then project else p) (projects d);
     bids := bids d;
     documents := documents d |}.

(** [db.add(document)] *)
Definition insert_document (document : document_row) (d : database) : database :=
  {| projects := projects d;
     bids := bids d;
     documents := documents d ++ [document] |}.

End Routes.

Declare Scope route_scope.
Delimit Scope route_scope with route.
Notation "x <- m ;; k" := (Routes.bind m (fun x => k))
  (at level 61, m at next level, right associativity) : route_scope.
Notation "m ;;; k" := (Routes.bind m (fun _ => k))
  (at level 61, right associativity) : route_scope.

(** ** [organization.py]: [award_contract] *)

Module OrganizationRoutes.
Import Py Routes.
Local Open Scope route_scope.

Record award_response := {
  aw_message : str;
  aw_project_id : Z;
  aw_bid_id : Z;
  aw_bidder : str
}.

Section WithDatabase.

(** [bid.bidder.company_name]: the relationship is loaded when the
    attribute is read, which may fail. *)
Variable bidder_company_name : bid_row -> result str.

Definition award_contract (project_id bid_id current_user_id : Z)
  : R award_response :=
  result <- execute projects
              (fun p => (p_id p =? project_id)%Z
                        && (p_organization_id p =? current_user_id)%Z) ;;
  project <- scalar_one_or_none result ;;
  match project with
  | None => http_exception 404 (lit "Project not found")
  | Some project =>
      bid_result <- execute bids
                      (fun b => (b_id b =? bid_id)%Z
                                && (b_project_id b =? project_id)%Z) ;;
      bid <- scalar_one_or_none bid_result ;;
      match bid with
      | None => http_exception 404 (lit "Bid not found")
      | Some bid =>
          let bid :=
            {| b_id := b_id bid; b_project_id := b_project_id bid;
               b_bidder_id := b_bidder_id bid;
               b_status := BidStatus.AWARDED;
               b_submitted_at := b_submitted_at bid |} in
          let project :=
            {| p_id := p_id project;
               p_organization_id := p_organization_id project;
               p_status := ProjectStatus.AWARDED |} in
          commit (fun d => update_project project (update_bid bid d)) ;;;
          bidder <- call (bidder_company_name bid) ;;
          ret {| aw_message := lit "Contract awarded successfully";
                 aw_project_id := project_id;
                 aw_bid_id := bid_id;
                 aw_bidder := bidder |}
      end
  end.

End WithDatabase.

End OrganizationRoutes.

(** ** [bidder.py]: [submit_bid] and [upload_bid_document] *)

Module BidderRoutes.
Import Py Routes.
Local Open Scope route_scope.

Record submit_response := {
  sb_message : str;
  sb_bid_id : Z;
  sb_submitted_at : option datetime
}.

(** [utcnow] is what [datetime.utcnow()] returns in the request. *)
Definition submit_bid (bid_id current_user_id : Z) (utcnow : datetime)
  : R submit_response :=
  bid_result <- execute bids
                  (fun b => (b_id b =? bid_id)%Z
                            && (b_bidder_id b =? current_user_id)%Z) ;;
  bid <- scalar_one_or_none bid_result ;;
  match bid with
  | None => http_exception 404 (lit "Bid not found")
  | Some bid =>
      if BidStatus.eqb (b_status bid) BidStatus.SUBMITTED then
        http_exception 400 (lit "Bid already submitted")
      else
        documents <- execute documents (fun d => (d_bid_id d =? bid_id)%Z) ;;
        if Nat.eqb (List.length documents) 0 then
          http_exception 400
            (lit "Please upload at least one document before submitting")
        else
          let bid :=
            {| b_id := b_id bid; b_project_id := b_project_id bid;
               b_bidder_id := b_bidder_id bid;
               b_status := BidStatus.SUBMITTED;
               b_submitted_at := Some utcnow |} in
          commit (update_bid bid) ;;;
          ret {| sb_message := lit "Bid submitted successfully";
                 sb_bid_id := bid_id;
                 sb_submitted_at := b_submitted_at bid |}
  end.

(** *** [os.path.splitext(p)[1]], on POSIX

    The extension starts at the last dot, provided that dot stands
    after the last slash and after a character of the file name that is
    no dot. *)

(** [p.rfind(c)], [-1] when [c] does not occur. *)
Fixpoint rfind_from (c : char) (p : str) (i : Z) (last : Z) : Z :=
  match p with
  | [] => last
  | d :: p' => rfind_from c p' (i + 1) (if N.eqb d c then i else last)
  end.

Definition rfind (c : char) (p : str) : Z := rfind_from c p 0 (-1).

Definition splitext_ext (p : str) : str :=
  let sepIndex := rfind 47%N p in
  let dotIndex := rfind 46%N p in
  if (sepIndex <? dotIndex)%Z then
    let filenameIndex := (sepIndex + 1)%Z in
    if existsb (fun c => negb (N.eqb c 46%N))
         (firstn (Z.to_nat (dotIndex - filenameIndex))
            (skipn (Z.to_nat filenameIndex) p))
    then skipn (Z.to_nat dotIndex) p
    else []
  else [].

(** [str(n)] for an [int]. *)
Definition str_of_Z (z : Z) : str :=
  match z with
  | Zneg p => lit "-" ++ str_of_N (Npos p)
  | _ => str_of_N (Z.to_N z)
  end.

(** [settings.ALLOWED_EXTENSIONS], from [core/config.py]. *)
Definition ALLOWED_EXTENSIONS : list str :=
  List.map lit [ ".pdf"; ".docx"; ".xlsx"; ".xls"; ".doc" ]%string.

(** What the route reads of the uploaded file. *)
Record UploadFile := {
  filename : option str;
  size : option Z;
  content_type : option str
}.

Record upload_response := {
  up_message : str;
  up_document_id : Z;
  up_filename : str
}.

Section WithServices.

Variable str_lower : str -> str.

(** [storage_service.upload_file(file, object_name)], which returns
    the path of the stored object, and [file.read()] followed by
    [file.seek(0)] after it. *)
Variable upload_file : UploadFile -> str -> result str.
Variable file_read : UploadFile -> result DocumentProcessor.bytes.

(** The primary key the insertion gives the new row. *)
Variable new_document_id : database -> Z.

(** The libraries of the document processor. *)
Variable page : Type.
Variable PdfReader : DocumentProcessor.bytes -> result (list page).
Variable page_extract_text : page -> result str.
Variable Document : DocumentProcessor.bytes
                    -> result DocumentProcessor.docx_document.
Variable dataframe : Type.
Variable read_excel : DocumentProcessor.bytes -> result (dict dataframe).
Variable head100_to_string : dataframe -> result str.
Variable numeric_cols : dataframe -> result (list str).
Variable describe_to_string : dataframe -> list str -> result str.
Variable load_workbook : DocumentProcessor.bytes
                         -> result DocumentProcessor.workbook.

Definition doc_processor_extract_text
  : DocumentProcessor.bytes -> str -> M str :=
  DocumentProcessor.extract_text PdfReader page_extract_text Document
    read_excel head100_to_string numeric_cols describe_to_string
    load_workbook.

(** The keyword [metadata={}] of the new row names no column (the
    column is [document_metadata], left to its default), so nothing
    stands for it here; the row gets its primary key when it is
    inserted. *)
Definition upload_bid_document (bid_id : Z) (document_type : DocumentType)
  (file : UploadFile) (current_user_id : Z) : R upload_response :=
  bid_result <- execute bids
                  (fun b => (b_id b =? bid_id)%Z
                            && (b_bidder_id b =? current_user_id)%Z) ;;
  bid <- scalar_one_or_none bid_result ;;
  match bid with
  | None => http_exception 404 (lit "Bid not found")
  | Some bid =>
      if BidStatus.eqb (b_status bid) BidStatus.SUBMITTED then
        http_exception 400 (lit "Cannot modify submitted bid")
      else
        match filename file with
        | None | Some [] => http_exception 400 (lit "No file provided")
        | Some file_name =>
            let file_ext := str_lower (splitext_ext file_name) in
            if negb (existsb (str_eqb file_ext) ALLOWED_EXTENSIONS) then
              http_exception 400
                (lit "File type " ++ file_ext ++ lit " not allowed")
            else
              file_path <- call (upload_file file
                                   (lit "bids/" ++ str_of_Z bid_id ++ lit "/"
                                    ++ value_of document_type ++ lit "/"
                                    ++ file_name)) ;;
              file_content <- call (file_read file) ;;
              extracted_text <-
                run (doc_processor_extract_text file_content file_ext) ;;
              new_id <- (fun s => (Returns (new_document_id (db s)), s)) ;;
              let document :=
                {| d_id := new_id;
                   d_bid_id := bid_id;
                   d_document_type := document_type;
                   d_filename := file_name;
                   d_file_path := file_path;
                   d_file_size := size file;
                   d_mime_type := content_type file;
                   d_extracted_text := slice_to (100 * 100) extracted_text |} in
              commit (insert_document document) ;;;
              ret {| up_message := lit "Document uploaded successfully";
                     up_document_id := d_id document;
                     up_filename := d_filename document |}
        end
  end.

End WithServices.

End BidderRoutes.

(* ================================================================== *)
(** * Further notions used in the statements *)
(* ================================================================== *)

Module Notions.
Import Py Json AIEvaluator.

(** The character [c] occurs in [s]. *)
Definition has (c : char) (s : str) : bool := existsb (N.eqb c) s.

(** The text of an object: an opening brace, anything, a closing brace. *)
Definition braces (mid : str) : str := lbrace :: mid ++ [rbrace].

(** [s] is the object text [braces mid] with something before it that
    has no opening brace and something after it that has no closing
    brace. *)
Definition wrapped (mid : str) (s : str) : Prop :=
  exists pre post,
    s = pre ++ braces mid ++ post /\ has lbrace pre = false
    /\ has rbrace post = false.

(** The three sections all bring an operand to the weighted average. *)
Definition operands_ok (d : dict value) : Prop :=
  exists tf ff cf,
    Reading.section_operand d k_technical_evaluation tf
    /\ Reading.section_operand d k_financial_evaluation ff
    /\ Reading.section_operand d k_compliance_evaluation cf.

(** A decoded answer that is none of the containers: [None], a bool or
    a number. *)
Definition scalar (v : value) : bool :=
  match v with
  | VNone | VBool _ | VInt _ | VFloat _ => true
  | _ => false
  end.

(** The classes of the exceptions the fallback block can raise. *)
Definition block_error (c : exn_class) : bool :=
  match c with
  | TypeError | AttributeError | OverflowError => true
  | _ => false
  end.

Definition is_dict (v : value) : bool :=
  match v with VDict _ => true | _ => false end.

(** What the prompt shows of a document: its type, its file name and
    the first 2000 characters of its text. *)
Definition seen (d : document) : str * option str * str :=
  (doc_type_of d, filename d, firstn 2000 (text_of d)).

(** What the prompt shows of a summary. *)
Definition shown (s : summary) : option str * str :=
  (s_filename s, firstn 2000 (s_content s)).

(** A function applied to each value of a dict. *)
Definition dict_map {A B : Type} (f : A -> B) (d : dict A) : dict B :=
  List.map (fun kv => (fst kv, f (snd kv))) d.

(** The block of a table of a Word document. *)
Definition table_block (table : list (list str)) : str :=
  nl ++ lit "[TABLE]" ++ nl
  ++ join nl (List.map DocumentProcessor.docx_row_text table)
  ++ nl ++ lit "[/TABLE]".

Definition has_rows (table : list (list str)) : bool :=
  match table with [] => false | _ => true end.

(** The parts of the text of a Word document: the paragraphs that are
    not blank, then the blocks of the tables that have rows. *)
Definition docx_parts (doc : DocumentProcessor.docx_document) : list str :=
  List.filter (fun text => DocumentProcessor.truthy (strip text))
    (DocumentProcessor.paragraphs doc)
  ++ List.map table_block
       (List.filter has_rows (DocumentProcessor.tables doc)).

(** The lines of a sheet in the fallback reader: the header, then the
    rows among the first 100 that have a cell. *)
Definition sheet_lines (sheet : str * DocumentProcessor.worksheet_rows)
  : list str :=
  (lit "--- Sheet: " ++ fst sheet ++ lit " ---")
  :: List.map DocumentProcessor.openpyxl_row_text
       (List.filter DocumentProcessor.any_cell (firstn 100 (snd sheet))).

(** The score [x] is neither below nor above [k]: for the sort the two
    are equal. *)
Definition ties (k x : float) : bool :=
  negb (Organization.flt x k) && negb (Organization.flt k x).

(** The two lines [evaluate_bid] logs at level INFO. *)
Definition sending : level * str :=
  (INFO, lit "Sending evaluation request to Gemini...").
Definition completed : level * str :=
  (INFO, lit "Bid evaluation completed successfully").

End Notions.

Module RouteNotions.
Import Py Routes.

(** The rows of [d] with this primary key; the key is unique when
    there is at most one. *)
Definition bid_with (bid_id : Z) (d : database) : list bid_row :=
  List.filter (fun b => (b_id b =? bid_id)%Z) (bids d).

Definition project_with (project_id : Z) (d : database) : list project_row :=
  List.filter (fun p => (p_id p =? project_id)%Z) (projects d).

(** A bid after [submit_bid], after [award_contract]. *)
Definition submitted (utcnow : datetime) (bid : bid_row) : bid_row :=
  {| b_id := b_id bid; b_project_id := b_project_id bid;
     b_bidder_id := b_bidder_id bid;
     b_status := BidStatus.SUBMITTED;
     b_submitted_at := Some utcnow |}.

Definition awarded (bid : bid_row) : bid_row :=
  {| b_id := b_id bid; b_project_id := b_project_id bid;
     b_bidder_id := b_bidder_id bid;
     b_status := BidStatus.AWARDED;
     b_submitted_at := b_submitted_at bid |}.

Definition awarded_project (project : project_row) : project_row :=
  {| p_id := p_id project;
     p_organization_id := p_organization_id project;
     p_status := ProjectStatus.AWARDED |}.

(** The table in which the row with key [bid_id] has become [bid]. *)
Definition bids_with (bid_id : Z) (bid : bid_row) (d : database)
  : list bid_row :=
  List.map (fun b => if (b_id b =? bid_id)%Z then bid else b) (bids d).

Definition projects_with (project_id : Z) (project : project_row)
  (d : database) : list project_row :=
  List.map (fun p => if (p_id p =? project_id)%Z then project else p)
    (projects d).

End RouteNotions.

Module RouteExamples.
Import Py Routes RouteNotions.

(** A project with two bids: the first, of bidder 20, has been awarded
    and has a document; the second, of bidder 21, is a draft. *)
Definition road_works : project_row :=
  {| p_id := 1; p_organization_id := 10; p_status := ProjectStatus.AWARDED |}.

Definition winning_bid : bid_row :=
  {| b_id := 7; b_project_id := 1; b_bidder_id := 20;
     b_status := BidStatus.AWARDED; b_submitted_at := Some 1000%Z |}.

Definition draft_bid : bid_row :=
  {| b_id := 8; b_project_id := 1; b_bidder_id := 21;
     b_status := BidStatus.DRAFT; b_submitted_at := None |}.

Definition offer_pdf : document_row :=
  {| d_id := 1; d_bid_id := 7; d_document_type := TECHNICAL;
     d_filename := lit "offer.pdf";
     d_file_path := lit "bids/7/technical/offer.pdf";
     d_file_size := Some 2048%Z; d_mime_type := Some (lit "application/pdf");
     d_extracted_text := lit "We propose a phased delivery." |}.

Definition store : state :=
  {| db := {| projects := [road_works];
              bids := [winning_bid; draft_bid];
              documents := [offer_pdf] |};
     lg := [] |}.

(** An open tender with two submitted bids. *)
Definition open_tender : project_row :=
  {| p_id := 2; p_organization_id := 10; p_status := ProjectStatus.ACTIVE |}.

Definition bid_alpha : bid_row :=
  {| b_id := 11; b_project_id := 2; b_bidder_id := 20;
     b_status := BidStatus.SUBMITTED; b_submitted_at := Some 1000%Z |}.

Definition bid_beta : bid_row :=
  {| b_id := 12; b_project_id := 2; b_bidder_id := 21;
     b_status := BidStatus.SUBMITTED; b_submitted_at := Some 1100%Z |}.

Definition open_store : state :=
  {| db := {| projects := [open_tender];
              bids := [bid_alpha; bid_beta];
              documents := [] |};
     lg := [] |}.

(** The bidder of a bid cannot be loaded. *)
Definition not_loaded (bid : bid_row) : result str :=
  Raise (Exn (LibraryError (lit "MissingGreenlet"))
           (lit "greenlet_spawn has not been called")).

Definition loaded (bid : bid_row) : result str := Ok (lit "Alpha Ltd").

End RouteExamples.

Module MoreExamples.
Import Py Json AIEvaluator AIEvaluatorCalls JsonDecoder Examples.

(** A model that answers every prompt with the same text; its
    responses are their text. *)
Definition answering (answer : str) (prompt : str) : result str := Ok answer.

(** A model that is out of service. *)
Definition unavailable (prompt : str) : result str :=
  Raise (Exn (LibraryError (lit "ServiceUnavailable"))
           (lit "503 The model is overloaded"))%string.

Definition response_text (response : str) : result str := Ok response.

(** Stand-ins for [json.dumps] and for the formatting of f-strings:
    enough for bids whose data are strings. *)
Definition stub_json_dumps (v : value) : result str := Ok (lit "{}").

Definition stub_format_value (v : value) : str :=
  match v with VStr s => s | _ => lit "?" end.

Definition stub_evaluate_bid (generate_content : str -> result str) :=
  evaluate_bid loads (fun s => s) stub_json_dumps stub_format_value
    generate_content response_text.

(** The first 2000 characters of [long_document], under the same name
    and type, with some metadata. *)
Definition cut_document : document :=
  {| document_type := Some (lit "technical");
     extracted_text := Some (repeat 120%N (20 * 100));
     filename := Some (lit "long.pdf");
     metadata := Some (VDict [ (lit "pages", VInt 3) ]) |}.

(** A Word document: a heading, a blank paragraph, a table of two rows,
    a closing paragraph, a table without rows. *)
Definition offer : DocumentProcessor.docx_document :=
  {| DocumentProcessor.paragraphs :=
       [ lit "Offer"; lit "   "; lit " Valid for 90 days " ];
     DocumentProcessor.tables :=
       [ [ [ lit " Item "; lit "Price" ]; [ lit "Licence"; lit " 100 " ] ];
         [] ] |}.

(** A workbook of one sheet with a header row, an empty row and a row
    with an empty cell. *)
Definition price_book : DocumentProcessor.workbook :=
  [ (lit "Prices",
     [ [ Some (lit "Item"); Some (lit "Price") ];
       [ None; None ];
       [ Some (lit "Licence"); None ] ]) ].

(** Pages of a PDF of which some cannot be decoded. *)
Definition page_text (p : option str) : result str :=
  match p with
  | Some text => Ok text
  | None => reject "PdfReadError" "Invalid object stream"
  end.

Definition extract_with (PdfReader : DocumentProcessor.bytes
                                     -> result (list (option str)))
  (Document : DocumentProcessor.bytes -> result DocumentProcessor.docx_document)
  (load_workbook : DocumentProcessor.bytes -> result DocumentProcessor.workbook)
  : DocumentProcessor.bytes -> str -> M str :=
  DocumentProcessor.extract_text PdfReader page_text Document stub_read_excel
    (fun _ : unit => Ok []) (fun _ : unit => Ok []) (fun (_ : unit) _ => Ok [])
    load_workbook.

(** A stand-in for [str.lower] that is right on ASCII text. *)
Definition ascii_lower (s : str) : str :=
  List.map (fun c => if ((65 <=? c) && (c <=? 90))%N then (c + 32)%N else c) s.

Definition stub_technical_capabilities
  : str -> DocumentScans.technical_data :=
  DocumentScans.extract_technical_capabilities ascii_lower (fun _ => []).

(** A project with three evaluated bids of which the first and the last
    score the same. *)
Definition tied_bids (project_id : Z) : list Organization.Bid :=
  if (project_id =? 1)%Z
  then [ bid_of 201 "Delta"; bid_of 202 "Epsilon"; bid_of 203 "Zeta" ]
  else [].

Definition tied_evaluation (bid_id : Z) : option Organization.Evaluation :=
  if (bid_id =? 201)%Z then Some (evaluation_of 80)
  else if (bid_id =? 202)%Z then Some (evaluation_of 90)
  else if (bid_id =? 203)%Z then Some (evaluation_of 80)
  else None.

End MoreExamples.

Module UploadExamples.
Import Py Routes BidderRoutes Examples MoreExamples.

(** A corrupted PDF uploaded under an upper-case extension. *)
Definition offer_upload : UploadFile :=
  {| filename := Some (lit "Offer.PDF");
     size := Some 4%Z;
     content_type := Some (lit "application/pdf") |}.

(** A storage that keeps every object under its name, and a database
    that numbers the documents from 1. *)
Definition keep (file : UploadFile) (object_name : str) : result str :=
  Ok object_name.

Definition next_id (d : database) : Z :=
  Z.of_nat (List.length (documents d)) + 1.

Definition stub_upload_bid_document
  : Z -> DocumentType -> UploadFile -> Z -> R upload_response :=
  upload_bid_document ascii_lower keep (fun _ => Ok corrupted_pdf) next_id
    stub_PdfReader stub_page_extract_text stub_Document stub_read_excel
    (fun _ : unit => Ok []) (fun _ : unit => Ok []) (fun (_ : unit) _ => Ok [])
    stub_load_workbook.

End UploadExamples.

(* ================================================================== *)
(** * Facts about the runtime *)
(* ================================================================== *)

Import Py Json.

Unset Implicit Arguments.

Lemma str_eqb_refl (a : str) : str_eqb a a = true.
Proof.
  induction a as [|c a IH]; simpl; [reflexivity|].
  now rewrite N.eqb_refl, IH.
Qed.

Lemma str_eqb_eq (a b : str) : str_eqb a b = true <-> a = b.
Proof.
  split.
  - revert b; induction a as [|c a IH]; intros [|d b] H; simpl in H;
      try discriminate; [reflexivity|].
    apply andb_true_iff in H as [Hc Hab].
    apply N.eqb_eq in Hc. apply IH in Hab. now subst.
  - intros ->. apply str_eqb_refl.
Qed.

Lemma str_eqb_neq (a b : str) : str_eqb a b = false <-> a <> b.
Proof.
  rewrite <- str_eqb_eq. destruct (str_eqb a b); split; congruence.
Qed.

Section DictFacts.
Variable V : Type.
Implicit Types (d : dict V) (k : str) (v : V).

Lemma dict_get_set_same d k v : dict_get (dict_set d k v) k = Some v.
Proof.
  induction d as [|[k' v'] d IH]; simpl.
  - now rewrite str_eqb_refl.
  - destruct (str_eqb k' k) eqn:E; simpl; rewrite E; [reflexivity|exact IH].
Qed.

Lemma dict_get_set_other d k k' v :
  k <> k' -> dict_get (dict_set d k v) k' = dict_get d k'.
Proof.
  intros Hne. induction d as [|[k0 v0] d IH]; simpl.
  - destruct (str_eqb k k') eqn:E; [|reflexivity].
    apply str_eqb_eq in E. contradiction.
  - destruct (str_eqb k0 k) eqn:E; simpl.
    + apply str_eqb_eq in E; subst k0.
      destruct (str_eqb k k') eqn:E'; [|reflexivity].
      apply str_eqb_eq in E'. contradiction.
    + now rewrite IH.
Qed.

Lemma dict_has_set_same d k v : dict_has (dict_set d k v) k = true.
Proof. unfold dict_has. now rewrite dict_get_set_same. Qed.

Lemma dict_has_true d k : dict_has d k = true <-> exists v, dict_get d k = Some v.
Proof.
  unfold dict_has. destruct (dict_get d k) as [v|]; split; intros H;
    try discriminate; eauto. now destruct H.
Qed.

Lemma dict_has_false d k : dict_has d k = false <-> dict_get d k = None.
Proof. unfold dict_has. destruct (dict_get d k); split; congruence. Qed.

End DictFacts.

(* ================================================================== *)
(** * The reference decoder never runs out of its counter *)
(* ================================================================== *)

Import JsonDecoder.

Lemma scan_le_mono {A} (rest rest' : str) (res : scan A) :
  scan_le rest' res -> List.length rest' <= List.length rest -> scan_le rest res.
Proof. destruct res; simpl; intros; try lia; auto. Qed.

Lemma skip_ws_le (rest : str) (idx : nat) :
  List.length (fst (skip_ws rest idx)) <= List.length rest.
Proof.
  revert idx. induction rest as [|c rest IH]; intros idx; simpl; [lia|].
  destruct (is_ws c); simpl; [|lia]. specialize (IH (S idx)). lia.
Qed.

Lemma scanstring_le (rest : str) :
  forall begin acc idx, scan_le rest (scanstring begin acc rest idx).
Proof.
  induction rest as [rest IH] using (induction_ltof1 _ (@List.length char)).
  unfold ltof in IH.
  assert (IH' : forall rest' begin acc idx,
             List.length rest' < List.length rest ->
             scan_le rest (scanstring begin acc rest' idx)).
  { intros. eapply scan_le_mono; [apply IH; assumption|lia]. }
  clear IH. intros begin acc idx.
  destruct rest as [|c rest1]; [exact I|].
  cbn [scanstring].
  repeat match goal with
         | |- scan_le _ (scanstring _ _ _ _) => apply IH'; simpl; lia
         | |- scan_le _ (Scanned _ _ _) => simpl; lia
         | |- scan_le _ (Failed _ _) => exact I
         | |- scan_le _ (if ?b then _ else _) => destruct b
         | |- scan_le _ (match ?x with _ => _ end) => destruct x eqn:?
         | |- scan_le _ (let _ := _ in _) => cbv zeta
         end.
Qed.

Lemma take_digits_le (rest : str) :
  List.length (snd (take_digits rest)) <= List.length rest.
Proof.
  induction rest as [|c rest IH]; simpl; [lia|].
  destruct (is_digit c); simpl; [|lia].
  destruct (take_digits rest) as [ds r]. simpl in *. lia.
Qed.

Lemma int_part_lt (rest ds r : str) :
  int_part rest = Some (ds, r) -> List.length r < List.length rest.
Proof.
  destruct rest as [|c rest']; simpl; [discriminate|].
  destruct (c =? 48)%N.
  - intros [= <- <-]. simpl. lia.
  - destruct (is_digit c) eqn:E; [|discriminate].
    pose proof (take_digits_le rest') as H.
    destruct (take_digits rest') as [ds' r']. intros [= <- <-]. simpl in *. lia.
Qed.

Lemma frac_part_le (rest : str) :
  List.length (snd (frac_part rest)) <= List.length rest.
Proof.
  destruct rest as [|c [|d rest']]; simpl; try lia.
  destruct ((c =? 46)%N && is_digit d); simpl; [|lia].
  pose proof (take_digits_le (d :: rest')) as H. simpl in H. lia.
Qed.

Lemma exp_part_le (rest : str) (e : Z) (r : str) :
  exp_part rest = Some (e, r) -> List.length r <= List.length rest.
Proof.
  destruct rest as [|c rest']; simpl; [discriminate|].
  destruct ((c =? 101) || (c =? 69))%N; [|discriminate].
  set (p := match rest' with
            | [] => (false, rest')
            | sg :: r0 =>
                if (sg =? 45)%N then (true, r0)
                else if (sg =? 43)%N then (false, r0) else (false, rest')
            end).
  assert (Hp : List.length (snd p) <= List.length rest').
  { subst p. destruct rest' as [|sg r0]; simpl; [lia|].
    destruct (sg =? 45)%N; simpl; [lia|]. destruct (sg =? 43)%N; simpl; lia. }
  destruct p as [neg rest'']. simpl in Hp.
  pose proof (take_digits_le rest'') as Ht.
  destruct (take_digits rest'') as [[|d ds] r']; [discriminate|].
  intros [= _ <-]. simpl in *. lia.
Qed.

Lemma match_number_lt (rest : str) (idx : nat) (v : value) (r : str) (i : nat) :
  match_number rest idx = Some (v, r, i) -> List.length r < List.length rest.
Proof.
  unfold match_number.
  set (p := match rest with
            | [] => (false, rest)
            | c :: r0 => if (c =? 45)%N then (true, r0) else (false, rest)
            end).
  assert (Hp : List.length (snd p) <= List.length rest).
  { subst p. destruct rest as [|c r0]; simpl; [lia|].
    destruct (c =? 45)%N; simpl; lia. }
  destruct p as [neg rest1]. simpl in Hp.
  destruct (int_part rest1) as [[ds rest2]|] eqn:Hi; [|discriminate].
  apply int_part_lt in Hi.
  pose proof (frac_part_le rest2) as Hf.
  destruct (frac_part rest2) as [fs rest3]. simpl in Hf.
  destruct (exp_part rest3) as [[e rest4]|] eqn:He.
  - apply exp_part_le in He. intros [= _ <- _]. lia.
  - destruct fs; intros [= _ <- _]; lia.
Qed.

Lemma startswith_length (s p : str) :
  startswith s p = true -> List.length p <= List.length s.
Proof.
  revert s; induction p as [|c p IH]; intros s; simpl; [lia|].
  destruct s as [|d s]; [discriminate|].
  intros H. apply andb_true_iff in H as [_ H]. apply IH in H. simpl. lia.
Qed.

Lemma keyword_lt (name : string) (w : value) (rest : str) (idx : nat)
  (v : value) (r : str) (i : nat) :
  0 < String.length name ->
  keyword name w rest idx = Some (v, r, i) -> List.length r < List.length rest.
Proof.
  unfold keyword. intros Hn.
  destruct (startswith rest (lit name)) eqn:E; [|discriminate].
  apply startswith_length in E. intros [= _ <- _].
  rewrite length_skipn.
  assert (List.length (lit name) = String.length name).
  { unfold lit. rewrite length_map. clear. induction name; simpl; auto. }
  lia.
Qed.

Lemma constant_lt (rest : str) (idx : nat) (v : value) (r : str) (i : nat) :
  constant rest idx = Some (v, r, i) -> List.length r < List.length rest.
Proof.
  unfold constant.
  repeat match goal with
         | |- match keyword ?n ?w rest idx with _ => _ end = _ -> _ =>
             let E := fresh "E" in
             destruct (keyword n w rest idx) as [[[? ?] ?]|] eqn:E;
             [intros [= <- <- <-]; apply keyword_lt in E; [exact E|simpl; lia]|]
         end.
  intros Hlast. apply keyword_lt in Hlast; [exact Hlast|simpl; lia].
Qed.

Lemma scan_ok_le {A} (rest : str) (res : scan A) : scan_ok rest res -> scan_le rest res.
Proof. destruct res; simpl; auto; lia. Qed.

Ltac fuel_step IHs IHo IHa :=
  match goal with
  | |- _ _ (Scanned _ _ _) => simpl in *; lia
  | |- _ _ (Failed _ _) => exact I
  | |- _ _ TooDeep => exfalso; simpl in *; lia
  | |- scan_le ?rest (object_loop _ ?r _ _) =>
      apply (scan_le_mono rest r); [apply IHo; simpl in *; lia|simpl in *; lia]
  | |- scan_le ?rest (array_loop _ ?r _ _) =>
      apply (scan_le_mono rest r); [apply IHa; simpl in *; lia|simpl in *; lia]
  | |- scan_ok ?rest (object_loop ?f ?r ?i ?p) =>
      let H := fresh "H" in
      assert (H : scan_le r (object_loop f r i p)) by (apply IHo; simpl in *; lia);
      destruct (object_loop f r i p); simpl in *; auto; lia
  | |- scan_ok ?rest (array_loop ?f ?r ?i ?p) =>
      let H := fresh "H" in
      assert (H : scan_le r (array_loop f r i p)) by (apply IHa; simpl in *; lia);
      destruct (array_loop f r i p); simpl in *; auto; lia
  | |- _ _ (if ?b then _ else _) => destruct b
  | |- _ _ (match ?x with _ => _ end) =>
      lazymatch x with
      | skip_ws ?a ?b =>
          let H := fresh "Hws" in
          pose proof (skip_ws_le a b) as H; destruct (skip_ws a b); simpl in H
      | scanstring ?b ?a ?r ?i =>
          let H := fresh "Hstr" in
          pose proof (scanstring_le r b a i) as H;
          destruct (scanstring b a r i); simpl in H
      | scan_once ?f ?r ?i =>
          let H := fresh "Hval" in
          assert (H : scan_ok r (scan_once f r i)) by (apply IHs; simpl in *; lia);
          destruct (scan_once f r i); simpl in H
      | constant ?r ?i =>
          let E := fresh "Ec" in
          destruct (constant r i) as [[[? ?] ?]|] eqn:E;
          [apply constant_lt in E|]
      | match_number ?r ?i =>
          let E := fresh "En" in
          destruct (match_number r i) as [[[? ?] ?]|] eqn:E;
          [apply match_number_lt in E|]
      | _ => destruct x
      end
  end.

Lemma scan_fuel (fuel : nat) :
  (forall rest idx, 2 * List.length rest + 1 <= fuel ->
                    scan_ok rest (scan_once fuel rest idx)) /\
  (forall rest idx pairs, 2 * List.length rest + 2 <= fuel ->
                          scan_le rest (object_loop fuel rest idx pairs)) /\
  (forall rest idx items, 2 * List.length rest + 2 <= fuel ->
                          scan_le rest (array_loop fuel rest idx items)).
Proof.
  induction fuel as [|fuel (IHs & IHo & IHa)].
  - repeat split; intros; lia.
  - split; [|split].
    + intros rest idx Hf. cbn [scan_once].
      repeat fuel_step IHs IHo IHa.
    + intros rest idx pairs Hf. cbn [object_loop].
      repeat fuel_step IHs IHo IHa.
    + intros rest idx items Hf. cbn [array_loop].
      repeat fuel_step IHs IHo IHa.
Qed.

(** So [loads] returns an object or raises [JSONDecodeError]. *)
Lemma loads_raises_decode_errors (s : str) (e : exn) :
  loads s = Raise e -> exn_cls e = JSONDecodeError.
Proof.
  unfold loads.
  destruct (startswith s [65279%N]); [now intros [= <-]|].
  pose proof (skip_ws_le s 0) as Hws.
  destruct (skip_ws s 0) as [r i]. simpl in Hws.
  assert (H : scan_ok r (scan_once (2 * List.length s + 2) r i))
    by (apply scan_fuel; lia).
  destruct (scan_once (2 * List.length s + 2) r i) as [obj r' i'|msg pos|];
    simpl in H; [| now intros [= <-] | contradiction].
  destruct (skip_ws r' i') as [[|c r''] i'']; [discriminate|now intros [= <-]].
Qed.

(* ================================================================== *)
(** * The Response Normalizer *)
(* ================================================================== *)

Import AIEvaluator Reading.

(** Destructs the scrutinee of the first [match] of the goal. *)
Ltac case_head :=
  match goal with
  | |- context [match ?x with _ => _ end] =>
      lazymatch x with
      | context [match _ with _ => _ end] => fail
      | _ => destruct x eqn:?
      end
  end.

(** ** What the fallback block does to a parsed answer *)

(** The block leaves the answer as it is, or inserts the rounded
    weighted score in the assessment object; it never returns anything
    else. *)
Lemma fill_overall_inv (data r : value) :
  fill_overall data = Ok r ->
  (r = data /\
   (forall d oa, data = VDict d ->
      dict_get d k_overall_assessment = Some (VDict oa) ->
      dict_has oa k_overall_score = true))
  \/
  (exists d oa t f c w,
      data = VDict d /\
      dict_get d k_overall_assessment = Some (VDict oa) /\
      dict_get oa k_overall_score = None /\
      section_score data k_technical_evaluation = Ok t /\
      section_score data k_financial_evaluation = Ok f /\
      section_score data k_compliance_evaluation = Ok c /\
      weighted t f c = Ok w /\
      r = VDict (dict_set d k_overall_assessment
                   (VDict (dict_set oa k_overall_score (VFloat (round2 w)))))).
Proof.
  unfold fill_overall. intros H.
  destruct data as [| b | z | x | s | l | d]; cbn [contains rbind] in H;
    try discriminate.
  - (* a string *)
    destruct (str_contains s k_overall_assessment); cbn [getitem rbind] in H;
      [discriminate|].
    left. split; [congruence|]. intros; discriminate.
  - (* a list *)
    destruct (existsb (is_str k_overall_assessment) l); cbn [getitem rbind] in H;
      [discriminate|].
    left. split; [congruence|]. intros; discriminate.
  - (* a dict *)
    unfold dict_has in H.
    destruct (dict_get d k_overall_assessment) as [a|] eqn:Ha;
      cbn [getitem rbind] in H.
    2:{ left. split; [congruence|]. intros d' oa [= <-]. congruence. }
    rewrite Ha in H. cbn [rbind] in H.
    destruct (contains a k_overall_score) as [has|] eqn:Hc; cbn [rbind] in H;
      [|discriminate].
    destruct has; cbn [negb] in H.
    { left. split; [congruence|].
      intros d' oa [= <-] Hd. rewrite Ha in Hd. injection Hd as ->.
      cbn [contains] in Hc. congruence. }
    destruct (section_score (VDict d) k_technical_evaluation) as [t|] eqn:Ht;
      cbn [rbind] in H; [|discriminate].
    destruct (section_score (VDict d) k_financial_evaluation) as [f|] eqn:Hf;
      cbn [rbind] in H; [|discriminate].
    destruct (section_score (VDict d) k_compliance_evaluation) as [c|] eqn:Hcs;
      cbn [rbind] in H; [|discriminate].
    destruct (weighted t f c) as [w|] eqn:Hw; cbn [rbind] in H; [|discriminate].
    destruct a as [| b | z | x | s | l | oa]; cbn [setitem rbind] in H;
      try discriminate.
    right. exists d, oa, t, f, c, w. cbn [contains] in Hc.
    injection Hc as Hc. apply dict_has_false in Hc.
    injection H as <-. repeat split; auto.
Qed.

Lemma float_of_int_0 : float_of_int 0 = Some zero.
Proof. reflexivity. Qed.

Lemma mul_float_as_float (v : value) (x w : float) :
  as_float v = Some x -> mul_float v w = Ok (fmul x w).
Proof.
  destruct v; simpl; intros H; try discriminate.
  - now rewrite H.
  - now rewrite H.
  - now injection H as ->.
Qed.

Lemma weighted_numeric (t f c : value) (tf ff cf : float) :
  as_float t = Some tf -> as_float f = Some ff -> as_float c = Some cf ->
  weighted t f c = Ok (weighted_sum tf ff cf).
Proof.
  intros Ht Hf Hc. unfold weighted.
  rewrite (mul_float_as_float t tf f0_5 Ht), (mul_float_as_float f ff f0_3 Hf),
    (mul_float_as_float c cf f0_2 Hc).
  reflexivity.
Qed.

(** A missing section scores the integer [0]. *)
Lemma section_score_missing (d : dict value) (k : str) :
  section_missing d k -> section_score (VDict d) k = Ok (VInt 0).
Proof.
  unfold section_score, get, dict_get_default.
  intros [Habs | (sec & Hsec & Hsc)].
  - rewrite Habs. reflexivity.
  - rewrite Hsec. cbn [rbind]. now rewrite Hsc.
Qed.

(** The score of a section, as an operand. *)
Lemma section_score_operand (d : dict value) (k : str) (x : float) :
  section_operand d k x ->
  exists v, section_score (VDict d) k = Ok v /\ as_float v = Some x.
Proof.
  intros [[Hmiss ->] | (sec & v & Hsec & Hv & Hx)].
  - exists (VInt 0). split; [now apply section_score_missing|reflexivity].
  - exists v. split; [|exact Hx].
    unfold section_score, get, dict_get_default.
    rewrite Hsec. cbn [rbind]. now rewrite Hv.
Qed.

(** The block on an answer whose assessment object lacks the score. *)
Lemma fill_overall_inserts (d oa : dict value) (tf ff cf : float) :
  dict_get d k_overall_assessment = Some (VDict oa) ->
  dict_get oa k_overall_score = None ->
  section_operand d k_technical_evaluation tf ->
  section_operand d k_financial_evaluation ff ->
  section_operand d k_compliance_evaluation cf ->
  fill_overall (VDict d)
  = Ok (with_overall d oa (round2 (weighted_sum tf ff cf))).
Proof.
  intros Hoa Hnone Ht Hf Hc.
  apply section_score_operand in Ht as (t & Ht & Htf).
  apply section_score_operand in Hf as (f & Hf & Hff).
  apply section_score_operand in Hc as (c & Hc & Hcf).
  unfold fill_overall. cbn [contains rbind getitem]. unfold dict_has.
  rewrite Hoa. cbn [contains rbind]. unfold dict_has. rewrite Hnone.
  cbn [negb]. rewrite Ht, Hf, Hc. cbn [rbind].
  rewrite (weighted_numeric t f c tf ff cf Htf Hff Hcf). cbn [rbind setitem].
  reflexivity.
Qed.

(** ** [round(x, 2)] rounds to two decimal places *)

Lemma div_half_even_near (p q : Z) :
  (0 <= p)%Z -> (0 < q)%Z ->
  (0 <= div_half_even p q)%Z /\
  (2 * Z.abs (p - div_half_even p q * q) <= q)%Z.
Proof.
  intros Hp Hq. unfold div_half_even.
  pose proof (Z.div_mod p q ltac:(lia)) as Hdm.
  pose proof (Z.mod_pos_bound p q Hq) as Hr.
  pose proof (Z.div_pos p q Hp Hq) as Hd.
  destruct (Z.compare_spec (2 * (p mod q)) q) as [E|E|E];
    [destruct (Z.even (p / q))| |]; split; try lia.
Qed.

Lemma round2_two_decimals (x : float) : two_decimals x (round2 x).
Proof.
  destruct x as [s|s| |s m e]; try reflexivity.
  destruct e as [|e|k]; try reflexivity.
  cbn [two_decimals round2].
  destruct (div_half_even_near (Zpos m * 100) (Z.pow_pos 2 k)) as [H0 H1];
    [lia| |].
  - rewrite Z.pow_pos_fold. apply Z.pow_pos_nonneg; lia.
  - exists (div_half_even (Zpos m * 100) (Z.pow_pos 2 k)). auto.
Qed.

Lemma overall_of_with_overall (d oa : dict value) (x : float) :
  overall_of (with_overall d oa x) = Some (VFloat x).
Proof.
  unfold overall_of, field2, with_overall, field.
  rewrite dict_get_set_same. apply dict_get_set_same.
Qed.

(** ** The block raises no [JSONDecodeError]

    so the handler of [_parse_evaluation] only ever sees the decoder's
    failures. *)

Ltac raise_cases H :=
  repeat match type of H with
         | rbind ?r _ = Raise _ =>
             let E := fresh "E" in destruct r eqn:E; cbn [rbind] in H
         | (if ?b then _ else _) = Raise _ => destruct b
         | Ok _ = Raise _ => discriminate H
         end.

Lemma contains_raise (v : value) (k : str) (e : exn) :
  contains v k = Raise e -> is_JSONDecodeError e = false.
Proof. destruct v; simpl; intros [= <-]; reflexivity. Qed.

Lemma getitem_raise (v : value) (k : str) (e : exn) :
  getitem v k = Raise e -> is_JSONDecodeError e = false.
Proof.
  destruct v; simpl; try (intros [= <-]; reflexivity).
  destruct (dict_get d k); intros [= <-]; reflexivity.
Qed.

Lemma get_raise (v : value) (k : str) (dflt : value) (e : exn) :
  get v k dflt = Raise e -> is_JSONDecodeError e = false.
Proof. destruct v; simpl; intros [= <-]; reflexivity. Qed.

Lemma setitem_raise (v : value) (k : str) (w : value) (e : exn) :
  setitem v k w = Raise e -> is_JSONDecodeError e = false.
Proof. destruct v; simpl; intros [= <-]; reflexivity. Qed.

Lemma mul_float_raise (v : value) (x : float) (e : exn) :
  mul_float v x = Raise e -> is_JSONDecodeError e = false.
Proof.
  destruct v; simpl; try (intros [= <-]; reflexivity).
  - destruct (float_of_int _); intros [= <-]; reflexivity.
  - destruct (float_of_int z); intros [= <-]; reflexivity.
Qed.

Lemma section_score_raise (data : value) (k : str) (e : exn) :
  section_score data k = Raise e -> is_JSONDecodeError e = false.
Proof.
  unfold section_score. intros H. raise_cases H.
  - eauto using get_raise.
  - injection H as <-. eauto using get_raise.
Qed.

Lemma weighted_raise (t f c : value) (e : exn) :
  weighted t f c = Raise e -> is_JSONDecodeError e = false.
Proof.
  unfold weighted. intros H. raise_cases H;
    try (injection H as <-); eauto using mul_float_raise.
Qed.

Lemma fill_overall_raise (data : value) (e : exn) :
  fill_overall data = Raise e -> is_JSONDecodeError e = false.
Proof.
  unfold fill_overall. intros H. cbn [negb] in H. raise_cases H;
    try (injection H as <-);
    eauto using contains_raise, getitem_raise, setitem_raise,
      section_score_raise, weighted_raise.
Qed.

Section Normalizer.

Variable json_loads : str -> result value.

#[local] Abbreviation parse := (_parse_evaluation json_loads).

(** The normaliser on a text that [json.loads] accepts: the block's
    outcome, and nothing logged. *)
Lemma parse_loaded (evaluation_text : str) (data : value) (l : log) :
  json_loads (clean evaluation_text) = Ok data ->
  parse evaluation_text l = (fill_overall data, l).
Proof.
  intros H. unfold _parse_evaluation, try_except, bind, lift. rewrite H.
  destruct (fill_overall data) as [r|e] eqn:E; [reflexivity|].
  now rewrite (fill_overall_raise data e E).
Qed.

(** The normaliser on a text that [json.loads] rejects. *)
Lemma parse_rejected (evaluation_text : str) (e : exn) (l : log) :
  json_loads (clean evaluation_text) = Raise e ->
  exn_cls e = JSONDecodeError ->
  parse evaluation_text l
  = (Ok (degraded evaluation_text e),
     l ++ [(ERROR, lit "Failed to parse evaluation JSON: " ++ exn_msg e)]
       ++ [(ERROR, lit "Raw response: " ++ evaluation_text)]).
Proof.
  intros H Hcls.
  unfold _parse_evaluation, try_except, bind, lift, logger, ret. rewrite H.
  unfold is_JSONDecodeError. rewrite Hcls. now rewrite <- app_assoc.
Qed.

(** An exception of [json.loads] that is no [JSONDecodeError] reaches
    the caller. *)
Lemma parse_propagates (evaluation_text : str) (e : exn) (l : log) :
  json_loads (clean evaluation_text) = Raise e ->
  is_JSONDecodeError e = false ->
  parse evaluation_text l = (Raise e, l).
Proof.
  intros H Hcls.
  unfold _parse_evaluation, try_except, bind, lift. rewrite H. now rewrite Hcls.
Qed.



(** C5.  When the parsed answer has an [overall_assessment] object
    without [overall_score] and the three sections carry numeric
    scores, the normaliser returns the answer with [overall_score]
    inserted: the sum [0.5 * technical + 0.3 * financial
    + 0.2 * compliance], computed in double arithmetic and then rounded
    to two decimal places (the double nearest to [n / 100] for an
    integer [n] within 1/2 of a hundred times the sum).  The weights are
    the literals of the block: the normaliser receives the text alone,
    no criteria weights reach it. *)
Theorem fallback_overall_is_weighted
  (evaluation_text : str) (l : log) (d oa tech fin comp : dict value)
  (t f c : value) (tf ff cf : float)
  (Hload : json_loads (clean evaluation_text) = Ok (VDict d))
  (Hoa : dict_get d k_overall_assessment = Some (VDict oa))
  (Hnone : dict_get oa k_overall_score = None)
  (Htech : dict_get d k_technical_evaluation = Some (VDict tech))
  (Hfin : dict_get d k_financial_evaluation = Some (VDict fin))
  (Hcomp : dict_get d k_compliance_evaluation = Some (VDict comp))
  (Ht : dict_get tech k_score = Some t) (Htf : as_float t = Some tf)
  (Hf : dict_get fin k_score = Some f) (Hff : as_float f = Some ff)
  (Hc : dict_get comp k_score = Some c) (Hcf : as_float c = Some cf) :
  exists r overall,
    parse evaluation_text l = (Ok r, l) /\
    r = with_overall d oa overall /\
    overall_of r = Some (VFloat overall) /\
    overall = round2 (weighted_sum tf ff cf) /\
    two_decimals
      (fadd (fadd (fmul tf f0_5) (fmul ff f0_3)) (fmul cf f0_2)) overall.
Proof.
  exists (with_overall d oa (round2 (weighted_sum tf ff cf))),
    (round2 (weighted_sum tf ff cf)).
  split; [|split; [reflexivity|split; [apply overall_of_with_overall|split;
    [reflexivity|apply round2_two_decimals]]]].
  rewrite (parse_loaded _ _ l Hload). f_equal.
  apply fill_overall_inserts; auto; right; eauto 6.
Qed.

(** C10.  In the fallback computation a section that is absent from the
    answer, or that is an object without [score], brings the operand 0:
    nothing fails, and the inserted score is the rounded weighted sum
    of the operands.  In particular an answer in which all three are
    missing receives [overall_score = 0.0]. *)
Theorem missing_sections_count_as_zero
  (evaluation_text : str) (l : log) (d oa : dict value) (tf ff cf : float)
  (Hload : json_loads (clean evaluation_text) = Ok (VDict d))
  (Hoa : dict_get d k_overall_assessment = Some (VDict oa))
  (Hnone : dict_get oa k_overall_score = None)
  (Ht : section_operand d k_technical_evaluation tf)
  (Hf : section_operand d k_financial_evaluation ff)
  (Hc : section_operand d k_compliance_evaluation cf) :
  (forall k, section_missing d k -> section_score (VDict d) k = Ok (VInt 0)) /\
  (exists r,
     parse evaluation_text l = (Ok r, l) /\
     overall_of r = Some (VFloat (round2 (weighted_sum tf ff cf)))) /\
  round2 (weighted_sum zero zero zero) = zero.
Proof.
  split; [exact (section_score_missing d)|]. split; [|reflexivity].
  exists (with_overall d oa (round2 (weighted_sum tf ff cf))).
  split; [|apply overall_of_with_overall].
  rewrite (parse_loaded _ _ l Hload).
  now rewrite (fill_overall_inserts d oa tf ff cf Hoa Hnone Ht Hf Hc).
Qed.

(** C8.  A run of the normaliser is a function of the text: its outcome
    is fixed by the text, and all it does besides is append to the log
    lines that the text fixes too (none unless parsing fails).  So the
    outcome does not depend on what was logged before, and running the
    normaliser again on the same text returns the identical outcome. *)
Theorem normalizer_deterministic (evaluation_text : str) :
  (exists outcome emitted, forall l : log,
     parse evaluation_text l = (outcome, l ++ emitted)) /\
  (forall l1 l2 : log,
     fst (parse evaluation_text l1) = fst (parse evaluation_text l2)) /\
  (forall l : log,
     fst (parse evaluation_text (snd (parse evaluation_text l)))
     = fst (parse evaluation_text l)).
Proof.
  assert (H : exists outcome emitted, forall l : log,
             parse evaluation_text l = (outcome, l ++ emitted)).
  { destruct (json_loads (clean evaluation_text)) as [data|e] eqn:Hload.
    - exists (fill_overall data), []. intros l.
      now rewrite (parse_loaded _ data l Hload), app_nil_r.
    - destruct (is_JSONDecodeError e) eqn:Hcls.
      + assert (Hc : exn_cls e = JSONDecodeError).
        { unfold is_JSONDecodeError in Hcls. now destruct (exn_cls e). }
        eexists. eexists. intros l. apply (parse_rejected _ e l Hload Hc).
      + exists (Raise e), []. intros l.
        now rewrite (parse_propagates _ e l Hload Hcls), app_nil_r. }
  split; [exact H|]. destruct H as (outcome & emitted & H).
  split; intros; now rewrite !H.
Qed.

End Normalizer.

(** ** The normaliser on the example answers *)

Import JsonDecoder Examples.


(** C2, at the failing input: an answer that scores the three sections
    and has no [overall_assessment] is returned as it is, without an
    overall score, although the block is there to calculate the overall
    score when it is not provided and the three scores it needs are
    given. *)
Lemma answer_without_assessment_has_no_overall :
  exists r,
    _parse_evaluation loads answer_without_assessment [] = (Ok r, []) /\
    field r k_overall_assessment = None /\
    overall_of r = None.
Proof.
  eexists. split; [vm_compute; reflexivity|]. split; reflexivity.
Qed.


(** C5, on the answer of the fourth testable property, whose scores 80,
    70 and 90 give the overall score 79.0, and on the scores 81, 77 and
    93, whose sum in doubles, 82.19999999999999, is rounded to 82.2. *)
Lemma fallback_overall_is_weighted_witness :
  (exists r,
     _parse_evaluation loads answer_80_70_90 [] = (Ok r, []) /\
     r = with_overall parsed_80_70_90 assessment_award f79 /\
     overall_of r = Some (VFloat f79)) /\
  (exists r,
     _parse_evaluation loads answer_81_77_93 [] = (Ok r, []) /\
     overall_of r = Some (VFloat f82_2) /\
     float_eqb
       (weighted_sum (nearest_int 81) (nearest_int 77) (nearest_int 93))
       f82_2 = false).
Proof.
  split.
  - destruct (fallback_overall_is_weighted loads answer_80_70_90 []
                parsed_80_70_90 assessment_award
                [(k_score, VInt 80)] [(k_score, VInt 70)] [(k_score, VInt 90)]
                (VInt 80) (VInt 70) (VInt 90)
                (nearest_int 80) (nearest_int 70) (nearest_int 90))
      as (r & overall & Hr & Heq & Ho & Hov & _); try (vm_compute; reflexivity).
    assert (H79 : round2 (weighted_sum (nearest_int 80) (nearest_int 70)
                            (nearest_int 90)) = f79)
      by (vm_compute; reflexivity).
    rewrite Hov, H79 in Heq, Ho. exists r. auto.
  - destruct (fallback_overall_is_weighted loads answer_81_77_93 []
                parsed_81_77_93 assessment_award
                [(k_score, VInt 81)] [(k_score, VInt 77)] [(k_score, VInt 93)]
                (VInt 81) (VInt 77) (VInt 93)
                (nearest_int 81) (nearest_int 77) (nearest_int 93))
      as (r & overall & Hr & _ & Ho & Hov & _); try (vm_compute; reflexivity).
    assert (H82 : round2 (weighted_sum (nearest_int 81) (nearest_int 77)
                            (nearest_int 93)) = f82_2)
      by (vm_compute; reflexivity).
    rewrite Hov, H82 in Ho. exists r.
    split; [exact Hr|]. split; [exact Ho|]. vm_compute. reflexivity.
Defined.

(** C10, on an answer with nothing but an assessment: the overall score
    is 0.0. *)
Lemma missing_sections_count_as_zero_witness :
  exists r,
    _parse_evaluation loads answer_only_assessment [] = (Ok r, []) /\
    overall_of r = Some (VFloat zero).
Proof.
  assert (Hload : loads (clean answer_only_assessment)
                  = Ok (VDict parsed_only_assessment))
    by (vm_compute; reflexivity).
  assert (Hmiss : forall k, dict_get parsed_only_assessment k = None ->
                            section_operand parsed_only_assessment k zero)
    by (intros k Hk; left; split; [left; exact Hk | reflexivity]).
  destruct (missing_sections_count_as_zero loads answer_only_assessment []
              parsed_only_assessment assessment_reject zero zero zero
              Hload eq_refl eq_refl
              (Hmiss k_technical_evaluation eq_refl)
              (Hmiss k_financial_evaluation eq_refl)
              (Hmiss k_compliance_evaluation eq_refl))
    as (_ & (r & Hr & Ho) & Hz).
  rewrite Hz in Ho. exists r. auto.
Defined.

(** A fenced answer is cleaned to the answer itself. *)
Lemma clean_fenced_answer :
  clean (fence_json ++ nl ++ answer_80_70_90 ++ nl ++ fence) = answer_80_70_90
  /\ clean (lit "Here is my evaluation: " ++ answer_80_70_90 ++ lit " Regards.")
     = answer_80_70_90.
Proof. split; vm_compute; reflexivity. Qed.

(** An answer that decodes to something else than an object is no parse
    failure: a number makes the block raise [TypeError], which the
    handler of [_parse_evaluation] does not catch. *)
Lemma number_answer_raises :
  _parse_evaluation loads (lit "123") []
  = (Raise (Exn TypeError (lit "argument of type 'int' is not iterable")), []).
Proof. vm_compute. reflexivity. Qed.

(** C3, at failing inputs.  An answer that cannot be read as an
    evaluation is not always turned into the degraded record: the
    handler catches [JSONDecodeError] alone.  On the answer whose
    technical score is the string "80" the normaliser raises
    [TypeError] to its caller; and whatever else than
    [JSONDecodeError] [json.loads] raises on a text ([RecursionError]
    on deeply nested brackets, [ValueError] on an integer of too many
    digits) the normaliser raises too, with nothing logged. *)
Lemma unparsable_answer_can_raise :
  _parse_evaluation loads answer_string_score []
  = (Raise (Exn TypeError
              (lit "can't multiply sequence by non-int of type 'float'")), [])
  /\ (forall (json_loads : str -> result value) (evaluation_text : str)
             (e : exn) (l : log),
        json_loads (clean evaluation_text) = Raise e ->
        is_JSONDecodeError e = false ->
        _parse_evaluation json_loads evaluation_text l = (Raise e, l)).
Proof.
  split; [vm_compute; reflexivity|]. exact parse_propagates.
Qed.

(** ** The weighted average against exact arithmetic *)

Lemma float_eqb_eq (a b : float) : float_eqb a b = true -> a = b.
Proof.
  destruct a as [s|s| |s m e], b as [t|t| |t n f]; simpl; try discriminate;
    try reflexivity.
  - now intros ->%eqb_prop.
  - now intros ->%eqb_prop.
  - intros H. apply andb_true_iff in H as [H He].
    apply andb_true_iff in H as [Hs Hm].
    apply eqb_prop in Hs. apply Pos.eqb_eq in Hm. apply Z.eqb_eq in He.
    now subst.
Qed.

Lemma on_grid_spec (step : Z) (n : nat) (p : Z -> bool) :
  on_grid step n p = true ->
  forall k : nat, k <= n -> p (step * Z.of_nat k)%Z = true.
Proof.
  induction n as [|n IH]; simpl; intros H k Hk.
  - assert (k = 0) as -> by lia. now rewrite Z.mul_0_r.
  - apply andb_true_iff in H as [Hn Hrest].
    destruct (Nat.eq_dec k (S n)) as [->|Hne]; [exact Hn|].
    apply IH; [exact Hrest|lia].
Qed.

(** For scores that are multiples of 5 between 0 and 100, the score the
    block inserts is the double nearest to the real number
    [0.5 t + 0.3 f + 0.2 c]: the roundings of the three products and of
    the two sums do not show after [round(_, 2)]. *)
Lemma weighted_exact_on_fives (t f c : nat) :
  t <= 20 -> f <= 20 -> c <= 20 ->
  round2 (weighted_sum (nearest_int (5 * Z.of_nat t))
            (nearest_int (5 * Z.of_nat f)) (nearest_int (5 * Z.of_nat c)))
  = tenths (weighted_tenths (5 * Z.of_nat t) (5 * Z.of_nat f) (5 * Z.of_nat c)).
Proof.
  intros Ht Hf Hc. apply float_eqb_eq.
  assert (H : on_grid 5 20 (fun t => on_grid 5 20 (fun f =>
                on_grid 5 20 (fun c => exact_at t f c))) = true)
    by (vm_compute; reflexivity).
  apply (on_grid_spec _ _ _ H t) in Ht.
  apply (on_grid_spec _ _ _ Ht f) in Hf.
  apply (on_grid_spec _ _ _ Hf c) in Hc.
  exact Hc.
Qed.

(* ================================================================== *)
(** * The Evaluation Request Builder *)
(* ================================================================== *)

Lemma startswith_app (p s : str) : startswith (p ++ s) p = true.
Proof.
  induction p as [|c p IH]; simpl; [reflexivity|].
  now rewrite N.eqb_refl, IH.
Qed.

Lemma endswith_app (s p : str) : endswith (s ++ p) p = true.
Proof. unfold endswith. rewrite rev_app_distr. apply startswith_app. Qed.

Lemma prepare_snoc (documents : list document) (d : document) :
  _prepare_documents (documents ++ [d])
  = add_document (_prepare_documents documents) d.
Proof. unfold _prepare_documents. now rewrite fold_left_app. Qed.

Lemma dict_get_add_document (acc : dict (list summary)) (d : document) (t : str) :
  dict_get (add_document acc d) t
  = if str_eqb (doc_type_of d) t
    then Some (dict_get_default acc t [] ++ [summarise d])
    else dict_get acc t.
Proof.
  unfold add_document.
  destruct (str_eqb (doc_type_of d) t) eqn:E.
  - apply str_eqb_eq in E. subst t. rewrite dict_get_set_same. f_equal. f_equal.
    unfold dict_get_default, dict_has.
    destruct (dict_get acc (doc_type_of d)) eqn:G; cbn [negb].
    + now rewrite G.
    + now rewrite dict_get_set_same.
  - apply str_eqb_neq in E. rewrite dict_get_set_other by exact E.
    destruct (negb (dict_has acc (doc_type_of d))); [|reflexivity].
    now apply dict_get_set_other.
Qed.

(** The group of a type is the summaries of its documents, in upload
    order; a type without documents has no group. *)
Lemma dict_get_prepare (documents : list document) (t : str) :
  dict_get (_prepare_documents documents) t
  = match of_type t documents with
    | [] => None
    | g => Some (List.map summarise g)
    end.
Proof.
  induction documents as [|d documents IH] using rev_ind; [reflexivity|].
  rewrite prepare_snoc, dict_get_add_document.
  unfold of_type in *. rewrite filter_app. cbn [List.filter].
  unfold dict_get_default. rewrite IH.
  replace (filed_under t d) with (str_eqb (doc_type_of d) t)
    by (unfold filed_under, doc_type_of; now destruct (document_type d)).
  destruct (str_eqb (doc_type_of d) t).
  - destruct (List.filter _ documents) as [|d0 g]; [reflexivity|].
    cbn [app List.map]. now rewrite map_app.
  - now rewrite app_nil_r.
Qed.

Lemma dict_get_none_keys {V : Type} (d : dict V) (k : str) :
  dict_get d k = None -> ~ In k (List.map fst d).
Proof.
  induction d as [|[k' v] d IH]; cbn; [tauto|].
  destruct (str_eqb k' k) eqn:E; [discriminate|].
  intros H [Hk | Hin]; [|now apply IH].
  apply str_eqb_neq in E. contradiction.
Qed.

Lemma keys_dict_set_old {V : Type} (d : dict V) (k : str) (v : V) :
  dict_has d k = true -> List.map fst (dict_set d k v) = List.map fst d.
Proof.
  unfold dict_has. induction d as [|[k' v'] d IH]; cbn; [discriminate|].
  destruct (str_eqb k' k); cbn; [reflexivity|].
  intros H. now rewrite IH.
Qed.

Lemma keys_dict_set_fresh {V : Type} (d : dict V) (k : str) (v : V) :
  dict_get d k = None -> List.map fst (dict_set d k v) = List.map fst d ++ [k].
Proof.
  induction d as [|[k' v'] d IH]; cbn; [reflexivity|].
  destruct (str_eqb k' k); cbn; [discriminate|].
  intros H. now rewrite IH.
Qed.

(** A document opens a group when its type has none yet, and no group
    otherwise: no type has two groups. *)
Lemma keys_add_document (acc : dict (list summary)) (d : document) :
  List.map fst (add_document acc d)
  = if dict_has acc (doc_type_of d) then List.map fst acc
    else List.map fst acc ++ [doc_type_of d].
Proof.
  unfold add_document.
  destruct (dict_has acc (doc_type_of d)) eqn:E; cbn [negb].
  - now apply keys_dict_set_old.
  - rewrite keys_dict_set_old by apply dict_has_set_same.
    apply keys_dict_set_fresh. unfold dict_has in E.
    now destruct (dict_get acc (doc_type_of d)).
Qed.

Lemma prepare_keys_nodup (documents : list document) :
  NoDup (List.map fst (_prepare_documents documents)).
Proof.
  induction documents as [|d documents IH] using rev_ind; [constructor|].
  rewrite prepare_snoc, keys_add_document.
  destruct (dict_has (_prepare_documents documents) (doc_type_of d)) eqn:E;
    [exact IH|].
  apply NoDup_app; [exact IH|repeat constructor; tauto|].
  intros k Hk [<- | []]. revert Hk. apply dict_get_none_keys.
  unfold dict_has in E.
  now destruct (dict_get (_prepare_documents documents) (doc_type_of d)).
Qed.

Lemma format_documents_acc (str_upper : str -> str)
  (groups : dict (list summary)) (acc : str) :
  fold_left (fun formatted g => formatted ++ format_group str_upper g) groups acc
  = acc ++ List.concat (List.map (format_group str_upper) groups).
Proof.
  revert acc. induction groups as [|g groups IH]; intros acc;
    cbn [fold_left List.map List.concat].
  - now rewrite app_nil_r.
  - now rewrite IH, <- app_assoc.
Qed.

Lemma length_marker : List.length marker = 3.
Proof. reflexivity. Qed.

Section RequestBuilder.

Variable str_upper : str -> str.

(** C7.  The builder keeps the first 5000 characters of each document's
    text (the empty text when it has none) with its file name; it files
    each document under its [document_type] ("unknown" when it has
    none): the group of a type holds the summaries of the documents of
    that type in upload order, a type without documents has no group,
    and no type has two groups.  The prompt is the concatenation of the
    rendered groups, each the heading of its type followed by its
    documents, each document rendered as its file line followed by its
    excerpt; and the excerpt is the first 2000 characters of the kept
    content followed by the marker, so it is never longer than 2000
    characters plus the marker and exactly that long for a document of
    more than 2000 characters. *)
Theorem request_builder_is_bounded (documents : list document) :
  (forall d : document,
     s_content (summarise d)
     = firstn 5000 (match extracted_text d with Some t => t | None => [] end) /\
     s_filename (summarise d) = filename d /\
     List.length (s_content (summarise d)) <= 5000) /\
  (forall t : str,
     dict_get (_prepare_documents documents) t
     = match List.filter (filed_under t) documents with
       | [] => None
       | g => Some (List.map summarise g)
       end) /\
  NoDup (List.map fst (_prepare_documents documents)) /\
  _format_documents str_upper (_prepare_documents documents)
  = List.concat (List.map (format_group str_upper) (_prepare_documents documents)) /\
  (forall (t : str) (g : list summary),
     format_group str_upper (t, g)
     = (nl ++ lit "### " ++ str_upper t ++ lit " DOCUMENTS" ++ nl)
       ++ List.concat (List.map format_doc g)) /\
  (forall s : summary,
     format_doc s
     = (nl ++ lit "**File: " ++ show_filename (s_filename s) ++ lit "**" ++ nl)
       ++ (excerpt s ++ nl)) /\
  (forall s : summary,
     excerpt s = firstn 2000 (s_content s) ++ marker /\
     List.length (excerpt s) = Nat.min 2000 (List.length (s_content s)) + 3 /\
     List.length (excerpt s) <= 2000 + List.length marker /\
     (2000 < List.length (s_content s) ->
      List.length (excerpt s) = 2000 + List.length marker)).
Proof.
  split; [|split; [|split; [|split; [|split; [|split]]]]].
  - intros d. split; [reflexivity|]. split; [reflexivity|].
    cbn [summarise s_content]. unfold slice_to. rewrite length_firstn. lia.
  - intros t. apply dict_get_prepare.
  - apply prepare_keys_nodup.
  - unfold _format_documents. now rewrite format_documents_acc.
  - reflexivity.
  - reflexivity.
  - intros s. unfold excerpt, slice_to.
    rewrite length_app, length_firstn, length_marker. repeat split; lia.
Qed.

End RequestBuilder.

(** C9.  The excerpt of every document ends with the three characters
    "...", whether or not anything was cut: for a content of 2000
    characters or fewer, the empty one included, the excerpt is the
    whole content followed by the marker. *)
Theorem marker_is_unconditional (s : summary) :
  marker = lit "..." /\
  endswith (excerpt s) marker = true /\
  (List.length (s_content s) <= 2000 -> excerpt s = s_content s ++ marker).
Proof.
  split; [reflexivity|]. split.
  - apply endswith_app.
  - intros H. unfold excerpt, slice_to. now rewrite firstn_all2.
Qed.

(** The documents of the example bid, grouped: two types, in the order
    of their first document, each with its files in upload order. *)
Lemma prepare_bid_documents :
  List.map (fun g => (fst g, List.map s_filename (snd g)))
    (_prepare_documents bid_documents)
  = [ (lit "technical", [Some (lit "approach.pdf"); Some (lit "team.docx")]);
      (lit "financial", [Some (lit "prices.xlsx")]) ].
Proof. vm_compute. reflexivity. Qed.

(** C9, on a document without content: the excerpt is the marker alone. *)
Lemma marker_is_unconditional_witness :
  endswith (excerpt empty_summary) marker = true /\
  excerpt empty_summary = lit "...".
Proof.
  destruct (marker_is_unconditional empty_summary) as (_ & He & Hshort).
  split; [exact He|]. apply Hshort. simpl. lia.
Defined.

(** C7, on five documents, two types and one document without type:
    three groups, each with its files in upload order; of the document
    of 6000 characters 5000 are kept, and its excerpt has 2003. *)
Lemma request_builder_is_bounded_witness :
  option_map (List.map s_filename)
    (dict_get (_prepare_documents mixed_documents) (lit "technical"))
  = Some [ Some (lit "approach.pdf"); Some (lit "team.docx");
           Some (lit "long.pdf") ] /\
  option_map (List.map s_filename)
    (dict_get (_prepare_documents mixed_documents) (lit "financial"))
  = Some [ Some (lit "prices.xlsx") ] /\
  option_map (List.map s_filename)
    (dict_get (_prepare_documents mixed_documents) (lit "unknown"))
  = Some [ Some (lit "notes.txt") ] /\
  dict_get (_prepare_documents mixed_documents) (lit "rfp") = None /\
  List.length (s_content (summarise long_document)) <= 5000 /\
  List.length (excerpt (summarise long_document)) = 2000 + List.length marker.
Proof.
  destruct (request_builder_is_bounded (fun s => s) mixed_documents)
    as (H5000 & Hgroup & _ & _ & _ & _ & H2000).
  rewrite !Hgroup.
  split; [reflexivity|]. split; [reflexivity|]. split; [reflexivity|].
  split; [reflexivity|]. split; [apply H5000|].
  apply H2000. vm_compute. apply Nat.leb_le. vm_compute. reflexivity.
Defined.

(* ================================================================== *)
(** * The Format Extractors *)
(* ================================================================== *)

Import DocumentProcessor.

(** A [try] whose handler catches every exception and returns: the
    outcome is the body's value, or the handler's after the body's
    logging. *)
Lemma try_except_any {A : Type} (body : M A) (handler : exn -> M A) (l : log) :
  try_except body any_Exception handler l
  = match body l with
    | (Ok a, l') => (Ok a, l')
    | (Raise e, l') => handler e l'
    end.
Proof. unfold try_except. now destruct (body l) as [[a|e] l']. Qed.

Lemma total_try_except {A : Type} (body : M A) (handler : exn -> M A) :
  (forall e, total (handler e)) -> total (try_except body any_Exception handler).
Proof.
  intros Hh l. rewrite try_except_any.
  destruct (body l) as [[a|e] l']; [eauto|apply Hh].
Qed.

Lemma total_log_ret {A : Type} (lv : level) (msg : str) (a : A) :
  total (Py.bind (logger lv msg) (fun _ => ret a)).
Proof. intros l. unfold Py.bind, logger, ret. eauto. Qed.

Lemma occurs_in_order_prefix (ms : list str) (p s : str) :
  occurs_in_order ms s -> occurs_in_order ms (p ++ s).
Proof.
  destruct ms as [|m ms]; [easy|].
  intros (pre & post & -> & H). exists (p ++ pre), post.
  split; [now rewrite <- app_assoc|exact H].
Qed.

Lemma digits_of_uint_inj (u v : Decimal.uint) :
  digits_of_uint u = digits_of_uint v -> u = v.
Proof.
  revert v; induction u; intros v H; destruct v; simpl in H;
    try discriminate; try reflexivity;
    injection H as H; f_equal; now apply IHu.
Qed.

Lemma str_of_nat_inj (j k : nat) : str_of_nat j = str_of_nat k -> j = k.
Proof.
  unfold str_of_nat, str_of_N. intros H.
  apply digits_of_uint_inj, DecimalN.Unsigned.to_uint_inj in H. lia.
Qed.

(** Different pages have different markers. *)
Lemma page_marker_inj (j k : nat) : page_marker j = page_marker k -> j = k.
Proof.
  unfold page_marker. intros H.
  apply app_inv_head, app_inv_tail in H. now apply str_of_nat_inj.
Qed.

Section Extraction.

Variable page : Type.
Variable PdfReader : bytes -> result (list page).
Variable page_extract_text : page -> result str.
Variable Document : bytes -> result docx_document.
Variable dataframe : Type.
Variable read_excel : bytes -> result (dict dataframe).
Variable head100_to_string : dataframe -> result str.
Variable numeric_cols : dataframe -> result (list str).
Variable describe_to_string : dataframe -> list str -> result str.
Variable load_workbook : bytes -> result workbook.

#[local] Abbreviation from_pdf := (_extract_from_pdf PdfReader page_extract_text).
#[local] Abbreviation from_docx := (_extract_from_docx Document).
#[local] Abbreviation from_excel :=
  (_extract_from_excel read_excel head100_to_string numeric_cols
     describe_to_string load_workbook).
#[local] Abbreviation extract :=
  (extract_text PdfReader page_extract_text Document read_excel
     head100_to_string numeric_cols describe_to_string load_workbook).
#[local] Abbreviation pandas :=
  (pandas_body read_excel head100_to_string numeric_cols describe_to_string).

Lemma total_from_pdf (fc : bytes) : total (from_pdf fc).
Proof. apply total_try_except. intros e. apply total_log_ret. Qed.

Lemma total_from_docx (fc : bytes) : total (from_docx fc).
Proof. apply total_try_except. intros e. apply total_log_ret. Qed.

Lemma total_from_excel (fc : bytes) : total (from_excel fc).
Proof. apply total_try_except. intros e. apply total_log_ret. Qed.

Lemma total_extract (fc : bytes) (ext : str) : total (extract fc ext).
Proof. apply total_try_except. intros e. apply total_log_ret. Qed.

(** The outer handler of [extract_text] never runs: the extractors
    return. *)
Lemma extract_pdf (fc : bytes) (l : log) :
  extract fc (lit ".pdf") l = from_pdf fc l.
Proof.
  unfold extract_text. rewrite try_except_any.
  change (str_eqb (lit ".pdf") (lit ".pdf")) with true. cbv iota.
  now destruct (total_from_pdf fc l) as (a & l' & ->).
Qed.

Lemma extract_docx (fc : bytes) (ext : str) (l : log) :
  In ext [lit ".docx"; lit ".doc"] -> extract fc ext l = from_docx fc l.
Proof.
  intros Hext. unfold extract_text. rewrite try_except_any.
  assert (E : str_eqb ext (lit ".pdf") = false
              /\ str_eqb ext (lit ".docx") || str_eqb ext (lit ".doc") = true).
  { destruct Hext as [<- | [<- | []]]; split; reflexivity. }
  destruct E as [-> ->].
  now destruct (total_from_docx fc l) as (a & l' & ->).
Qed.

Lemma extract_excel (fc : bytes) (ext : str) (l : log) :
  In ext [lit ".xlsx"; lit ".xls"] -> extract fc ext l = from_excel fc l.
Proof.
  intros Hext. unfold extract_text. rewrite try_except_any.
  assert (E : str_eqb ext (lit ".pdf") = false
              /\ str_eqb ext (lit ".docx") || str_eqb ext (lit ".doc") = false
              /\ str_eqb ext (lit ".xlsx") || str_eqb ext (lit ".xls") = true).
  { destruct Hext as [<- | [<- | []]]; repeat split; reflexivity. }
  destruct E as (-> & -> & ->).
  now destruct (total_from_excel fc l) as (a & l' & ->).
Qed.

(** C4.  [extract_text] returns a string on every input, whatever the
    decoding libraries do; and when decoding fails, the string is
    "Error reading PDF: ", "Error reading Word document: " or
    "Error reading Excel file: " followed by the message of the
    exception (for a spreadsheet, the exception of the second reader,
    which is tried when the first fails). *)
Theorem extract_text_never_raises
  (file_content : bytes) (file_extension : str) (l : log) :
  (exists text l', extract file_content file_extension l = (Ok text, l')) /\
  (forall e l1,
     pdf_body PdfReader page_extract_text file_content l = (Raise e, l1) ->
     fst (extract file_content (lit ".pdf") l)
     = Ok (lit "Error reading PDF: " ++ exn_msg e)) /\
  (forall e l1 ext,
     docx_body Document file_content l = (Raise e, l1) ->
     In ext [lit ".docx"; lit ".doc"] ->
     fst (extract file_content ext l)
     = Ok (lit "Error reading Word document: " ++ exn_msg e)) /\
  (forall e1 l1 e2 l2 ext,
     pandas file_content l = (Raise e1, l1) ->
     openpyxl_body load_workbook file_content
       (l1 ++ [(ERROR, lit "Pandas Excel extraction failed: " ++ exn_msg e1)])
     = (Raise e2, l2) ->
     In ext [lit ".xlsx"; lit ".xls"] ->
     fst (extract file_content ext l)
     = Ok (lit "Error reading Excel file: " ++ exn_msg e2)).
Proof.
  split; [apply total_extract|]. split; [|split].
  - intros e l1 H. rewrite extract_pdf.
    unfold _extract_from_pdf. rewrite try_except_any, H. reflexivity.
  - intros e l1 ext H Hext. rewrite (extract_docx _ _ _ Hext).
    unfold _extract_from_docx. rewrite try_except_any, H. reflexivity.
  - intros e1 l1 e2 l2 ext H1 H2 Hext. rewrite (extract_excel _ _ _ Hext).
    unfold _extract_from_excel. rewrite !try_except_any, H1.
    unfold Py.bind, logger. cbv beta iota. rewrite try_except_any.
    match goal with
    | |- context [openpyxl_body ?w ?c ?l0] =>
        replace (openpyxl_body w c l0) with (@Raise str e2, l2)
          by (symmetry; exact H2)
    end.
    reflexivity.
Qed.

(** When the first spreadsheet reader fails and the second one returns,
    the extraction has not failed: the text of the second is returned. *)
Lemma excel_fallback_recovers
  (file_content : bytes) (l l1 l2 : log) (e1 : exn) (text : str) (ext : str) :
  pandas file_content l = (Raise e1, l1) ->
  openpyxl_body load_workbook file_content
    (l1 ++ [(ERROR, lit "Pandas Excel extraction failed: " ++ exn_msg e1)])
  = (Ok text, l2) ->
  In ext [lit ".xlsx"; lit ".xls"] ->
  extract file_content ext l = (Ok text, l2).
Proof.
  intros H1 H2 Hext. rewrite (extract_excel _ _ _ Hext).
  unfold _extract_from_excel. rewrite !try_except_any, H1.
  unfold Py.bind, logger. cbv beta iota. rewrite try_except_any.
  match goal with
  | |- context [openpyxl_body ?w ?c ?l0] =>
      replace (openpyxl_body w c l0) with (@Ok str text, l2)
        by (symmetry; exact H2)
  end.
  reflexivity.
Qed.

(** A format that is not supported gives the empty string, and a
    warning in the log. *)
Lemma extract_unsupported (file_content : bytes) (ext : str) (l : log) :
  ~ In ext [lit ".pdf"; lit ".docx"; lit ".doc"; lit ".xlsx"; lit ".xls"] ->
  extract file_content ext l
  = (Ok [], l ++ [(WARNING, lit "Unsupported file extension: " ++ ext)]).
Proof.
  intros Hext. unfold extract_text. rewrite try_except_any.
  assert (E : forall known, In known [lit ".pdf"; lit ".docx"; lit ".doc";
                                       lit ".xlsx"; lit ".xls"] ->
                            str_eqb ext known = false).
  { intros known Hk. apply str_eqb_neq. intros ->. contradiction. }
  rewrite !E by (simpl; tauto). reflexivity.
Qed.

(** ** Pages *)

Lemma pdf_pages_spec (page_num : nat) (pages : list page) (texts acc : list str) :
  Forall2 (fun p t => page_extract_text p = Ok t) pages texts ->
  pdf_pages page_extract_text page_num pages acc
  = Ok (acc ++ List.map (fun nt => page_block (fst nt) (snd nt))
                 (List.filter (fun nt => truthy (snd nt))
                    (combine (seq page_num (List.length texts)) texts))).
Proof.
  intros H. revert page_num acc.
  induction H as [|p t pages texts Hp _ IH]; intros page_num acc.
  - cbn. now rewrite app_nil_r.
  - cbn [pdf_pages]. rewrite Hp. cbn [rbind]. rewrite IH.
    cbn [List.length seq combine List.filter snd fst].
    destruct (truthy t); [|reflexivity].
    cbn [List.map fst snd]. now rewrite <- app_assoc.
Qed.

Lemma emitted_all (texts : list str) :
  Forall (fun t => truthy t = true) texts ->
  emitted_blocks texts
  = List.map (fun nt => page_block (fst nt) (snd nt)) (numbered texts).
Proof.
  unfold emitted_blocks, numbered. generalize 0 as n.
  induction texts as [|t texts IH]; intros n H; [reflexivity|].
  inversion H as [|? ? Ht Hts]; subst.
  cbn [List.length seq combine List.filter snd]. rewrite Ht.
  cbn [List.map]. f_equal. now apply IH.
Qed.

Lemma markers_in_order (n : nat) (texts : list str) :
  occurs_in_order (List.map page_marker (seq (n + 1) (List.length texts)))
    (join blank_line
       (List.map (fun nt => page_block (fst nt) (snd nt))
          (combine (seq n (List.length texts)) texts))).
Proof.
  revert n. induction texts as [|t texts IH]; intros n; [exact I|].
  cbn [List.length seq combine List.map fst snd occurs_in_order].
  specialize (IH (S n)). rewrite Nat.add_1_r in IH.
  destruct texts as [|t' texts].
  - exists [], (nl ++ t). split; [|exact I].
    cbn [join]. unfold page_block. now rewrite <- app_assoc.
  - remember (t' :: texts) as ts eqn:Ets.
    assert (Hj : forall b, join blank_line
                   (b :: List.map (fun nt => page_block (fst nt) (snd nt))
                           (combine (seq (S n) (List.length ts)) ts))
                 = b ++ blank_line
                     ++ join blank_line
                          (List.map (fun nt => page_block (fst nt) (snd nt))
                             (combine (seq (S n) (List.length ts)) ts))).
    { intros b. subst ts. reflexivity. }
    rewrite Hj. unfold page_block at 1.
    exists [], (nl ++ t ++ blank_line
                ++ join blank_line
                     (List.map (fun nt => page_block (fst nt) (snd nt))
                        (combine (seq (S n) (List.length ts)) ts))).
    split.
    + cbn [app]. now rewrite <- !app_assoc.
    + rewrite Nat.add_1_r.
      apply (occurs_in_order_prefix _ nl), (occurs_in_order_prefix _ t),
        (occurs_in_order_prefix _ blank_line).
      exact IH.
Qed.

(** C6.  When the reader decodes the file into pages and each page
    yields a text, the extractor returns the blocks of the pages whose
    text is not empty, each the marker "--- Page k ---" (k counted from
    1), a line feed and the text, joined by blank lines.  When every
    page yields some text there is a block for every page, so the
    markers of pages 1 to N occur in the output in ascending order; and
    different pages have different markers. *)
Theorem pdf_pages_are_marked
  (file_content : bytes) (pages : list page) (texts : list str) (l : log)
  (Hread : PdfReader file_content = Ok pages)
  (Htexts : Forall2 (fun p t => page_extract_text p = Ok t) pages texts) :
  (exists l',
     from_pdf file_content l = (Ok (join blank_line (emitted_blocks texts)), l')) /\
  (Forall (fun t => truthy t = true) texts ->
     emitted_blocks texts
     = List.map (fun nt => page_marker (fst nt + 1) ++ nl ++ snd nt)
         (numbered texts) /\
     occurs_in_order (List.map page_marker (seq 1 (List.length texts)))
       (join blank_line (emitted_blocks texts))) /\
  (forall j k, page_marker j = page_marker k -> j = k).
Proof.
  split; [|split].
  - unfold _extract_from_pdf. rewrite try_except_any.
    unfold pdf_body, Py.bind, lift, logger, ret. rewrite Hread.
    rewrite (pdf_pages_spec 0 pages texts [] Htexts). cbn [app]. eauto.
  - intros Hall. rewrite (emitted_all texts Hall). split; [reflexivity|].
    apply (markers_in_order 0).
  - apply page_marker_inj.
Qed.

End Extraction.

(** ** The extractor on the example files *)

(** C4, on a corrupted PDF stream. *)
Lemma extract_text_never_raises_witness :
  fst (stub_extract_text corrupted_pdf (lit ".pdf") [])
  = Ok (lit "Error reading PDF: EOF marker not found").
Proof.
  destruct (extract_text_never_raises str stub_PdfReader stub_page_extract_text
              stub_Document unit stub_read_excel
              (fun _ : unit => Ok []) (fun _ : unit => Ok [])
              (fun (_ : unit) _ => Ok []) stub_load_workbook
              corrupted_pdf (lit ".pdf") []) as (_ & Hpdf & _).
  apply (Hpdf (Exn (LibraryError (lit "PdfReadError")) (lit "EOF marker not found")) []).
  reflexivity.
Defined.

(** C6, on a PDF of three pages. *)
Lemma pdf_pages_are_marked_witness :
  fst (_extract_from_pdf stub_PdfReader stub_page_extract_text three_page_pdf [])
  = Ok (lit "--- Page 1 ---" ++ nl ++ lit "Scope of work" ++ nl ++ nl
        ++ lit "--- Page 2 ---" ++ nl ++ lit "Pricing schedule" ++ nl ++ nl
        ++ lit "--- Page 3 ---" ++ nl ++ lit "References") /\
  occurs_in_order [page_marker 1; page_marker 2; page_marker 3]
    (join blank_line (emitted_blocks three_pages)).
Proof.
  destruct (pdf_pages_are_marked str stub_PdfReader stub_page_extract_text
              three_page_pdf three_pages three_pages [] eq_refl)
    as ((l' & Hrun) & Hall & _).
  - repeat constructor.
  - split; [now rewrite Hrun|].
    apply Hall. repeat constructor.
Defined.

(* ================================================================== *)
(** * The Aggregator: [get_project_evaluations] *)
(* ================================================================== *)

Import Organization.

(** Case analysis on the comparisons inside a float comparison. *)
Ltac cmp_cases :=
  repeat match goal with
         | |- context [Z.compare ?a ?b] => destruct (Z.compare_spec a b)
         | |- context [Pos.compare_cont Eq ?a ?b] =>
             change (Pos.compare_cont Eq a b) with (Pos.compare a b);
             destruct (Pos.compare_spec a b)
         end.

Lemma flt_asym (a b : float) : flt a b = true -> flt b a = false.
Proof.
  unfold flt, SFltb, SFcompare.
  destruct a as [sa|sa| |sa ma ea], b as [sb|sb| |sb mb eb];
    try destruct sa; try destruct sb; simpl; try congruence;
    cmp_cases; simpl; try congruence; try lia.
Qed.

(** Without NaN, "not below" is transitive. *)
Lemma not_flt_trans (a b c : float) :
  is_nan a = false -> is_nan b = false -> is_nan c = false ->
  flt a b = false -> flt b c = false -> flt a c = false.
Proof.
  unfold flt, SFltb, SFcompare.
  destruct a as [sa|sa| |sa ma ea], b as [sb|sb| |sb mb eb],
    c as [sc|sc| |sc mc ec];
    try destruct sa; try destruct sb; try destruct sc; simpl; try congruence;
    intros _ _ _; cmp_cases; simpl; try congruence; try lia.
Qed.

Section SortFacts.

Variable A : Type.
Variable key : A -> float.

#[local] Abbreviation before := (fun a b : A => flt (key a) (key b) = false).

Lemma insert_reverse_perm (x : A) (l : list A) :
  Permutation (x :: l) (insert_reverse key x l).
Proof.
  induction l as [|y l IH]; simpl; [apply Permutation_refl|].
  destruct (flt (key x) (key y)); [|apply Permutation_refl].
  eapply perm_trans; [apply perm_swap|]. now apply perm_skip.
Qed.

Lemma sort_reverse_perm (l : list A) : Permutation l (sort_reverse key l).
Proof.
  induction l as [|x l IH]; simpl; [constructor|].
  eapply perm_trans; [apply perm_skip, IH|apply insert_reverse_perm].
Qed.

Lemma insert_reverse_sorted (x : A) (l : list A) :
  Sorted before l -> Sorted before (insert_reverse key x l).
Proof.
  induction 1 as [|y l Hs IH Hhd]; simpl; [repeat constructor|].
  destruct (flt (key x) (key y)) eqn:E.
  - constructor; [exact IH|].
    destruct Hhd as [|z l Hyz]; simpl.
    + constructor. now apply flt_asym.
    + destruct (flt (key x) (key z)); constructor;
        [exact Hyz|now apply flt_asym].
  - repeat constructor; auto.
Qed.

Lemma sort_reverse_sorted (l : list A) : Sorted before (sort_reverse key l).
Proof.
  induction l as [|x l IH]; simpl; [constructor|].
  now apply insert_reverse_sorted.
Qed.

(** Without NaN among the keys, no element stands before one with a
    greater key. *)
Lemma sorted_strongly (l : list A) :
  Forall (fun a => is_nan (key a) = false) l ->
  Sorted before l -> StronglySorted before l.
Proof.
  intros Hn Hs. induction Hs as [|x l Hs IH Hhd]; [constructor|].
  inversion Hn as [|? ? Hx Hl]; subst. specialize (IH Hl).
  constructor; [exact IH|].
  destruct Hhd as [|y l Hxy]; [constructor|].
  inversion IH as [|? ? _ Hall]; subst.
  inversion Hl as [|? ? Hy Hl']; subst.
  constructor; [exact Hxy|].
  rewrite Forall_forall in *. intros z Hz.
  apply (not_flt_trans (key x) (key y) (key z)); auto.
Qed.

End SortFacts.

Section Ranking.

Variable select_project : Z -> Z -> option Project.
Variable select_bids : Z -> list Bid.
Variable select_evaluation : Z -> option Evaluation.

#[local] Abbreviation evaluations :=
  (get_project_evaluations select_project select_bids select_evaluation).

(** Every collected row is an evaluated bid with its stored values. *)
Lemma collect_rows (bids : list Bid) (row : evaluation_data) :
  In row (collect select_evaluation bids) ->
  exists bid evaluation,
    In bid bids /\ select_evaluation (bid_id_ bid) = Some evaluation /\
    row = row_of bid evaluation.
Proof.
  induction bids as [|bid bids IH]; simpl; [easy|].
  destruct (select_evaluation (bid_id_ bid)) as [evaluation|] eqn:E.
  - intros [<- | Hin].
    + exists bid, evaluation. auto.
    + destruct (IH Hin) as (b & ev & Hb & Hev & Hrow). exists b, ev. auto.
  - intros Hin. destruct (IH Hin) as (b & ev & Hb & Hev & Hrow).
    exists b, ev. auto.
Qed.

(** C1, as the code has it.  For a project of the caller whose
    evaluated bids have numbers for overall scores (none is NaN, on
    which the order of [list.sort] is not the one given here), the
    route returns the rows of the evaluated bids ordered by overall
    score, highest first: no row stands anywhere before one with a
    greater score.  And each row carries the rank that is stored with
    its evaluation: the route reads [rank], it does not assign it. *)
Theorem evaluations_sorted_with_stored_rank
  (project_id current_user_id : Z) (project : Project)
  (Hfound : select_project project_id current_user_id = Some project)
  (Hnan : Forall (fun row => is_nan (r_overall_score row) = false)
            (collect select_evaluation (select_bids project_id))) :
  exists resp,
    evaluations project_id current_user_id = Ok resp /\
    Permutation (collect select_evaluation (select_bids project_id))
      (resp_evaluations resp) /\
    Sorted not_below (resp_evaluations resp) /\
    StronglySorted not_below (resp_evaluations resp) /\
    (forall row, In row (resp_evaluations resp) ->
       exists bid evaluation,
         In bid (select_bids project_id) /\
         select_evaluation (bid_id_ bid) = Some evaluation /\
         row = row_of bid evaluation /\
         r_rank row = rank evaluation).
Proof.
  unfold get_project_evaluations. rewrite Hfound.
  eexists. split; [reflexivity|]. cbn [resp_evaluations].
  split; [apply sort_reverse_perm|].
  split; [apply sort_reverse_sorted|].
  split.
  - apply sorted_strongly; [|apply sort_reverse_sorted].
    apply (Permutation_Forall (sort_reverse_perm _ r_overall_score _) Hnan).
  - intros row Hin.
    apply (Permutation_in _ (Permutation_sym (sort_reverse_perm _ _ _))) in Hin.
    destruct (collect_rows _ _ Hin) as (bid & evaluation & Hb & Hev & ->).
    exists bid, evaluation. auto.
Qed.

End Ranking.

(** C1 fails as stated: for bids scoring 70, 95 and 82 whose evaluations
    are stored without a rank, the route orders them 95, 82, 70 and
    returns no rank for any of them. *)
Lemma scores_70_95_82_get_no_rank :
  exists resp,
    get_project_evaluations db_project db_bids db_evaluation 1 10 = Ok resp /\
    List.map r_overall_score (resp_evaluations resp)
    = [nearest_int 95; nearest_int 82; nearest_int 70] /\
    List.map r_rank (resp_evaluations resp) = [None; None; None] /\
    List.map r_rank (resp_evaluations resp) <> ranks_1_to 3.
Proof.
  eexists. split; [vm_compute; reflexivity|]. cbn [resp_evaluations].
  split; [vm_compute; reflexivity|].
  split; [vm_compute; reflexivity|]. vm_compute. discriminate.
Qed.

(** C1 as amended, on the same project. *)
Lemma evaluations_sorted_with_stored_rank_witness :
  exists resp,
    get_project_evaluations db_project db_bids db_evaluation 1 10 = Ok resp /\
    StronglySorted not_below (resp_evaluations resp) /\
    List.map r_bid_id (resp_evaluations resp) = [102; 103; 101]%Z /\
    List.map r_rank (resp_evaluations resp) = [None; None; None].
Proof.
  destruct (evaluations_sorted_with_stored_rank db_project db_bids db_evaluation
              1 10 tender eq_refl) as (resp & Hresp & _ & _ & Hsorted & _).
  - repeat constructor.
  - exists resp. split; [exact Hresp|]. split; [exact Hsorted|].
    vm_compute in Hresp. injection Hresp as <-. split; reflexivity.
Defined.

(* ================================================================== *)
(** * More on the cleaning steps of the normaliser *)
(* ================================================================== *)

Import Notions.

Lemma has_app (c : char) (a b : str) : has c (a ++ b) = has c a || has c b.
Proof. apply existsb_app. Qed.

Lemma has_rev (c : char) (s : str) : has c (rev s) = has c s.
Proof.
  induction s as [|d s IH]; [reflexivity|].
  cbn [rev]. rewrite has_app, IH. cbn. now rewrite orb_false_r, orb_comm.
Qed.

Lemma has_lstrip (c : char) (s : str) : has c s = false -> has c (lstrip s) = false.
Proof.
  induction s as [|d s IH]; [easy|]. cbn [lstrip].
  destruct (isspace d); [|easy].
  cbn. intros H. apply orb_false_iff in H as [_ H]. now apply IH.
Qed.

Lemma has_rstrip (c : char) (s : str) : has c s = false -> has c (rstrip s) = false.
Proof.
  intros H. unfold rstrip. rewrite has_rev. apply has_lstrip. now rewrite has_rev.
Qed.

Lemma has_skipn (c : char) (n : nat) (s : str) :
  has c s = false -> has c (skipn n s) = false.
Proof.
  revert s; induction n as [|n IH]; intros [|d s]; cbn; auto.
  intros H. apply orb_false_iff in H as [_ H]. now apply IH.
Qed.

Lemma has_firstn (c : char) (n : nat) (s : str) :
  has c s = false -> has c (firstn n s) = false.
Proof.
  revert s; induction n as [|n IH]; intros [|d s]; cbn; auto.
  intros H. apply orb_false_iff in H as [Hd H].
  apply orb_false_iff. split; [exact Hd|now apply IH].
Qed.

(** Stripping on the left stops at the first character that is no
    space. *)
Lemma lstrip_app (pre : str) (c : char) (t : str) :
  isspace c = false -> lstrip (pre ++ c :: t) = lstrip pre ++ c :: t.
Proof.
  intros Hc. induction pre as [|d pre IH]; cbn [app lstrip].
  - now rewrite Hc.
  - destruct (isspace d); [exact IH|reflexivity].
Qed.

Lemma rstrip_app (u : str) (c : char) (post : str) :
  isspace c = false -> rstrip (u ++ c :: post) = u ++ c :: rstrip post.
Proof.
  intros Hc. unfold rstrip.
  rewrite rev_app_distr. cbn [rev]. rewrite <- app_assoc. cbn [app].
  rewrite (lstrip_app (rev post) c (rev u) Hc).
  rewrite rev_app_distr. cbn [rev]. rewrite rev_involutive, <- app_assoc.
  reflexivity.
Qed.

(** A prefix without the character [c] ends before the first [c]. *)
Lemma startswith_before (c : char) (pre t p : str) :
  has c p = false -> startswith (pre ++ c :: t) p = true ->
  skipn (List.length p) (pre ++ c :: t) = skipn (List.length p) pre ++ c :: t.
Proof.
  revert pre. induction p as [|d p IH]; intros pre Hp Hs; [reflexivity|].
  cbn in Hp. apply orb_false_iff in Hp as [Hd Hp].
  destruct pre as [|e pre]; cbn [app startswith] in Hs.
  - apply andb_true_iff in Hs as [Hs _]. apply N.eqb_eq in Hs. subst d.
    now rewrite N.eqb_refl in Hd.
  - apply andb_true_iff in Hs as [_ Hs]. cbn. now apply IH.
Qed.

Lemma length_before (c : char) (pre t p : str) :
  has c p = false -> startswith (pre ++ c :: t) p = true ->
  List.length p <= List.length pre.
Proof.
  revert pre. induction p as [|d p IH]; intros pre Hp Hs; cbn; [lia|].
  cbn in Hp. apply orb_false_iff in Hp as [Hd Hp].
  destruct pre as [|e pre]; cbn [app startswith] in Hs.
  - apply andb_true_iff in Hs as [Hs _]. apply N.eqb_eq in Hs. subst d.
    now rewrite N.eqb_refl in Hd.
  - apply andb_true_iff in Hs as [_ Hs]. cbn. apply IH in Hs; [lia|exact Hp].
Qed.

Lemma wrapped_strip (mid s : str) : wrapped mid s -> wrapped mid (strip s).
Proof.
  intros (pre & post & -> & Hpre & Hpost).
  exists (lstrip pre), (rstrip post). split; [|split].
  - unfold strip, braces. cbn [app].
    rewrite (lstrip_app pre lbrace _ eq_refl).
    replace (lstrip pre ++ lbrace :: (mid ++ [rbrace]) ++ post)
      with ((lstrip pre ++ lbrace :: mid) ++ rbrace :: post)
      by (now rewrite <- !app_assoc).
    rewrite (rstrip_app _ rbrace post eq_refl). now rewrite <- !app_assoc.
  - now apply has_lstrip.
  - now apply has_rstrip.
Qed.

Lemma wrapped_slice_from (mid s p : str) :
  has lbrace p = false -> startswith s p = true ->
  wrapped mid s -> wrapped mid (slice_from (List.length p) s).
Proof.
  intros Hp Hs (pre & post & -> & Hpre & Hpost).
  exists (skipn (List.length p) pre), post. split; [|split].
  - unfold slice_from, braces in *. cbn [app] in *.
    now apply startswith_before.
  - now apply has_skipn.
  - exact Hpost.
Qed.

Lemma wrapped_slice_to_neg (mid s p : str) :
  has rbrace p = false -> endswith s p = true ->
  wrapped mid s -> wrapped mid (slice_to_neg (List.length p) s).
Proof.
  intros Hp Hs (pre & post & -> & Hpre & Hpost).
  exists pre, (firstn (List.length post - List.length p) post).
  split; [|split; [exact Hpre|now apply has_firstn]].
  unfold endswith, braces in Hs.
  replace (pre ++ (lbrace :: mid ++ [rbrace]) ++ post)
    with ((pre ++ lbrace :: mid) ++ rbrace :: post) in *
    by (cbn [app]; now rewrite <- !app_assoc).
  rewrite rev_app_distr in Hs. cbn [rev] in Hs. rewrite <- app_assoc in Hs.
  cbn [app] in Hs.
  assert (Hlen : List.length p <= List.length post).
  { rewrite <- (length_rev p), <- (length_rev post).
    assert (Hp' : has rbrace (rev p) = false) by now rewrite has_rev.
    apply (length_before rbrace _ _ _ Hp' Hs). }
  unfold slice_to_neg, braces.
  rewrite (app_assoc pre _ post), (app_assoc pre _ (firstn _ post)).
  set (x := pre ++ lbrace :: mid ++ [rbrace]).
  replace (List.length (x ++ post) - List.length p)
    with (List.length x + (List.length post - List.length p))
    by (rewrite (length_app x post); lia).
  now rewrite firstn_app_2.
Qed.

Lemma from_first_app (c : char) (pre t : str) :
  has c pre = false -> from_first c (pre ++ c :: t) = Some (c :: t).
Proof.
  induction pre as [|d pre IH]; cbn [app from_first].
  - now rewrite N.eqb_refl.
  - cbn. intros H. apply orb_false_iff in H as [Hd H].
    rewrite N.eqb_sym in Hd. rewrite Hd. now apply IH.
Qed.

(** The regular expression finds the object inside its wrapping. *)
Lemma search_braces_wrapped (mid s : str) :
  wrapped mid s -> search_braces s = Some (braces mid).
Proof.
  intros (pre & post & -> & Hpre & Hpost).
  unfold search_braces, braces. cbn [app].
  rewrite (from_first_app lbrace pre _ Hpre).
  unfold upto_last.
  replace (rev ((mid ++ [rbrace]) ++ post)) with (rev post ++ rbrace :: rev mid)
    by (now rewrite !rev_app_distr).
  assert (Hpost' : has rbrace (rev post) = false) by now rewrite has_rev.
  rewrite (from_first_app rbrace (rev post) _ Hpost').
  cbn [option_map rev]. now rewrite rev_involutive.
Qed.

Lemma strip_braces (mid : str) : strip (braces mid) = braces mid.
Proof.
  unfold strip, braces. cbn [lstrip].
  change (isspace lbrace) with false. cbv iota.
  change (lbrace :: mid ++ [rbrace]) with ((lbrace :: mid) ++ rbrace :: []).
  now rewrite (rstrip_app _ rbrace [] eq_refl).
Qed.

(** X1.  Whatever stands around the answer's object, as long as no
    opening brace comes before it and no closing brace after it (a
    Markdown fence, tagged or not, a sentence of prose, blank lines), the
    cleaning steps hand exactly the object text to [json.loads]. *)
Theorem clean_unwraps_object (pre mid post : str)
  (Hpre : has lbrace pre = false) (Hpost : has rbrace post = false) :
  clean (pre ++ braces mid ++ post) = braces mid.
Proof.
  assert (H0 : wrapped mid (pre ++ braces mid ++ post)) by (exists pre, post; auto).
  apply wrapped_strip in H0. unfold clean.
  set (s0 := strip (pre ++ braces mid ++ post)) in *.
  assert (H1 : wrapped mid
                 (if startswith s0 fence_json then slice_from 7 s0
                  else if startswith s0 fence then slice_from 3 s0 else s0)).
  { destruct (startswith s0 fence_json) eqn:E1.
    - apply (wrapped_slice_from mid s0 fence_json eq_refl E1 H0).
    - destruct (startswith s0 fence) eqn:E2; [|exact H0].
      apply (wrapped_slice_from mid s0 fence eq_refl E2 H0). }
  set (s1 := if startswith s0 fence_json then slice_from 7 s0
             else if startswith s0 fence then slice_from 3 s0 else s0) in *.
  assert (H2 : wrapped mid (if endswith s1 fence then slice_to_neg 3 s1 else s1)).
  { destruct (endswith s1 fence) eqn:E; [|exact H1].
    apply (wrapped_slice_to_neg mid s1 fence eq_refl E H1). }
  rewrite (search_braces_wrapped _ _ H2). apply strip_braces.
Qed.

(** X1, on an answer announced by a sentence and wrapped in a tagged
    fence. *)
Lemma clean_unwraps_object_witness :
  clean ((lit "Here is my evaluation:" ++ nl ++ fence_json ++ nl)
         ++ braces (lit " 'score': 80 ") ++ (nl ++ fence ++ nl))
  = braces (lit " 'score': 80 ").
Proof.
  apply (clean_unwraps_object
           (lit "Here is my evaluation:" ++ nl ++ fence_json ++ nl)
           (lit " 'score': 80 ") (nl ++ fence ++ nl)); reflexivity.
Defined.

(* ================================================================== *)
(** * More on the fallback block *)
(* ================================================================== *)

Section DictOrder.
Variable V : Type.

(** Assigning to a key the dict has keeps the keys and their order. *)
Lemma keys_dict_set (d : dict V) (k : str) (v : V) :
  dict_has d k = true -> List.map fst (dict_set d k v) = List.map fst d.
Proof.
  unfold dict_has. induction d as [|[k' v'] d IH]; cbn; [discriminate|].
  destruct (str_eqb k' k); cbn; [reflexivity|].
  intros H. now rewrite IH.
Qed.

(** Assigning to a new key appends it. *)
Lemma keys_dict_set_new (d : dict V) (k : str) (v : V) :
  dict_get d k = None -> List.map fst (dict_set d k v) = List.map fst d ++ [k].
Proof.
  induction d as [|[k' v'] d IH]; cbn; [reflexivity|].
  destruct (str_eqb k' k); cbn; [discriminate|].
  intros H. now rewrite IH.
Qed.

End DictOrder.

(** X2.  The fallback block changes nothing but the score it inserts:
    when it returns, the answer is either untouched or it is the answer
    with [overall_score] appended to the keys of its assessment object;
    every other member of the answer and of the assessment keeps its
    value, and the members of the answer keep their order. *)
Theorem fallback_touches_only_the_score (data r : value)
  (Hret : fill_overall data = Ok r) :
  r = data \/
  exists d oa x,
    data = VDict d /\ dict_get d k_overall_assessment = Some (VDict oa) /\
    r = with_overall d oa x /\
    (forall k, k <> k_overall_assessment -> field r k = dict_get d k) /\
    (forall k, k <> k_overall_score ->
       field2 r k_overall_assessment k = dict_get oa k) /\
    (exists d', r = VDict d' /\ List.map fst d' = List.map fst d) /\
    (exists oa', field r k_overall_assessment = Some (VDict oa') /\
                 List.map fst oa' = List.map fst oa ++ [k_overall_score]).
Proof.
  apply fill_overall_inv in Hret as [[Heq _] | Hins]; [now left|right].
  destruct Hins as (d & oa & t & f & c & w & -> & Hoa & Hnone & _ & _ & _ & _ & ->).
  exists d, oa, (round2 w). split; [reflexivity|]. split; [exact Hoa|].
  split; [reflexivity|]. split; [|split; [|split]].
  - intros k Hk. cbn [field]. apply dict_get_set_other. congruence.
  - intros k Hk. unfold field2, field. rewrite dict_get_set_same.
    apply dict_get_set_other. congruence.
  - eexists. split; [reflexivity|]. apply keys_dict_set.
    unfold dict_has. now rewrite Hoa.
  - eexists. split; [cbn [field]; apply dict_get_set_same|].
    now apply keys_dict_set_new.
Qed.

(** X2, on the answer with scores 80, 70 and 90: the recommendation
    stays, the keys of the answer stay in place. *)
Lemma fallback_touches_only_the_score_witness :
  field2 (with_overall parsed_80_70_90 assessment_award f79)
    k_overall_assessment (lit "recommendation")
  = dict_get assessment_award (lit "recommendation").
Proof.
  destruct (fallback_touches_only_the_score (VDict parsed_80_70_90)
              (with_overall parsed_80_70_90 assessment_award f79))
    as [Heq | (d & oa & x & Hd & Hoa & Hr & _ & Hkeep & _)].
  - vm_compute. reflexivity.
  - discriminate Heq.
  - injection Hd as <-. vm_compute in Hoa. injection Hoa as <-.
    apply Hkeep. discriminate.
Defined.

(** X3.  The block is idempotent: applied to what it returned, it
    returns the same record, so a record that went through the
    normaliser is never scored a second time. *)
Theorem fallback_is_idempotent (data r : value)
  (Hret : fill_overall data = Ok r) :
  fill_overall r = Ok r.
Proof.
  destruct (fill_overall_inv data r Hret) as [[-> _] | Hins]; [exact Hret|].
  destruct Hins as (d & oa & t & f & c & w & -> & Hoa & Hnone & _ & _ & _ & _ & ->).
  unfold fill_overall. cbn [contains rbind getitem]. unfold dict_has.
  rewrite !dict_get_set_same. cbn [contains rbind]. unfold dict_has.
  now rewrite dict_get_set_same.
Qed.

Lemma fallback_is_idempotent_witness :
  fill_overall (with_overall parsed_80_70_90 assessment_award f79)
  = Ok (with_overall parsed_80_70_90 assessment_award f79).
Proof.
  apply (fallback_is_idempotent (VDict parsed_80_70_90)).
  vm_compute. reflexivity.
Defined.

(** A product with a float succeeds on the numbers alone. *)
Lemma mul_float_ok (v : value) (x y : float) :
  mul_float v x = Ok y -> exists f, as_float v = Some f /\ y = fmul f x.
Proof.
  destruct v as [| b | z | f | s | l | d]; cbn; try discriminate.
  - destruct (float_of_int _) as [f|]; [|discriminate].
    intros [= <-]. eauto.
  - destruct (float_of_int z) as [f|]; [|discriminate].
    intros [= <-]. eauto.
  - intros [= <-]. eauto.
Qed.

Lemma weighted_ok (t f c : value) (w : float) :
  weighted t f c = Ok w ->
  exists tf ff cf,
    as_float t = Some tf /\ as_float f = Some ff /\ as_float c = Some cf /\
    w = weighted_sum tf ff cf.
Proof.
  unfold weighted. intros H.
  destruct (mul_float t f0_5) as [a|] eqn:Ea; cbn [rbind] in H; [|discriminate].
  destruct (mul_float f f0_3) as [b|] eqn:Eb; cbn [rbind] in H; [|discriminate].
  destruct (mul_float c f0_2) as [g|] eqn:Eg; cbn [rbind] in H; [|discriminate].
  apply mul_float_ok in Ea as (tf & Ht & ->).
  apply mul_float_ok in Eb as (ff & Hf & ->).
  apply mul_float_ok in Eg as (cf & Hc & ->).
  injection H as <-. exists tf, ff, cf. auto.
Qed.

(** A section whose score is read and is a number brings an operand. *)
Lemma section_operand_of_score (d : dict value) (k : str) (v : value) (x : float) :
  section_score (VDict d) k = Ok v -> as_float v = Some x ->
  section_operand d k x.
Proof.
  unfold section_score, get, dict_get_default. cbn [rbind].
  destruct (dict_get d k) as [sec|] eqn:Hsec.
  - destruct sec as [| b | z | f | s | l | sec]; try discriminate.
    destruct (dict_get sec k_score) as [sc|] eqn:Hsc.
    + intros [= <-] Hx. right. exists sec, sc. auto.
    + intros [= <-] [= <-]. left. split; [|reflexivity]. right. eauto.
  - cbn. intros [= <-] [= <-]. left. split; [now left|reflexivity].
Qed.

(** X4.  On an answer whose assessment object lacks the score, the block
    returns exactly when each of the three sections brings an operand
    (it is missing, or an object without score, or an object with a
    numeric score), and then what it inserts is the rounded weighted
    sum of these operands.  In every other case (a section that is no
    object, a score that is a string, a list, an object or null, an
    integer too large for a double) the block raises and the answer is
    lost. *)
Theorem fallback_returns_iff_operands (d oa : dict value)
  (Hoa : dict_get d k_overall_assessment = Some (VDict oa))
  (Hnone : dict_get oa k_overall_score = None) :
  ((exists r, fill_overall (VDict d) = Ok r) <-> operands_ok d) /\
  (forall r, fill_overall (VDict d) = Ok r ->
     exists tf ff cf,
       section_operand d k_technical_evaluation tf /\
       section_operand d k_financial_evaluation ff /\
       section_operand d k_compliance_evaluation cf /\
       r = with_overall d oa (round2 (weighted_sum tf ff cf))).
Proof.
  assert (Hinv : forall r, fill_overall (VDict d) = Ok r ->
            exists tf ff cf,
              section_operand d k_technical_evaluation tf /\
              section_operand d k_financial_evaluation ff /\
              section_operand d k_compliance_evaluation cf /\
              r = with_overall d oa (round2 (weighted_sum tf ff cf))).
  { intros r Hr.
    destruct (fill_overall_inv _ _ Hr) as [[_ Hhas] | Hins].
    - specialize (Hhas d oa eq_refl Hoa). unfold dict_has in Hhas.
      rewrite Hnone in Hhas. discriminate.
    - destruct Hins as (d0 & oa0 & t & f & c & w & Hd & Hoa0 & _ & Ht & Hf & Hc & Hw & ->).
      injection Hd as <-. rewrite Hoa in Hoa0. injection Hoa0 as <-.
      apply weighted_ok in Hw as (tf & ff & cf & Htf & Hff & Hcf & ->).
      exists tf, ff, cf.
      repeat split; eauto using section_operand_of_score. }
  split; [|exact Hinv]. split.
  - intros [r Hr]. destruct (Hinv r Hr) as (tf & ff & cf & Ht & Hf & Hc & _).
    exists tf, ff, cf. auto.
  - intros (tf & ff & cf & Ht & Hf & Hc). eexists.
    apply (fill_overall_inserts d oa tf ff cf Hoa Hnone Ht Hf Hc).
Qed.

(** X4, on the answer with scores 80, 70 and 90. *)
Lemma fallback_returns_iff_operands_witness : operands_ok parsed_80_70_90.
Proof.
  destruct (fallback_returns_iff_operands parsed_80_70_90 assessment_award
              eq_refl eq_refl) as [[Hto _] _].
  apply Hto. eexists. vm_compute. reflexivity.
Defined.

(** ** The exceptions of the block *)

Lemma contains_block (v : value) (k : str) (e : exn) :
  contains v k = Raise e -> exn_cls e = TypeError.
Proof. destruct v; cbn; intros [= <-]; reflexivity. Qed.

(** A subscript behind a successful membership test raises no
    [KeyError]. *)
Lemma getitem_guarded (v : value) (k : str) (e : exn) :
  contains v k = Ok true -> getitem v k = Raise e -> exn_cls e = TypeError.
Proof.
  destruct v as [| b | z | x | s | l | d]; cbn; try discriminate;
    try (intros _ [= <-]; reflexivity).
  unfold dict_has. destruct (dict_get d k); [discriminate|discriminate].
Qed.

Lemma get_block (v : value) (k : str) (dflt : value) (e : exn) :
  get v k dflt = Raise e -> exn_cls e = AttributeError.
Proof. destruct v; cbn; intros [= <-]; reflexivity. Qed.

Lemma setitem_block (v : value) (k : str) (w : value) (e : exn) :
  setitem v k w = Raise e -> exn_cls e = TypeError.
Proof. destruct v; cbn; intros [= <-]; reflexivity. Qed.

Lemma mul_float_block (v : value) (x : float) (e : exn) :
  mul_float v x = Raise e -> block_error (exn_cls e) = true.
Proof.
  destruct v; cbn; try (intros [= <-]; reflexivity).
  - destruct (float_of_int _); intros [= <-]; reflexivity.
  - destruct (float_of_int z); intros [= <-]; reflexivity.
Qed.

Lemma section_score_block (data : value) (k : str) (e : exn) :
  section_score data k = Raise e -> exn_cls e = AttributeError.
Proof.
  unfold section_score. intros H.
  destruct (get data k (VDict [])) as [sec|e'] eqn:E; cbn [rbind] in H.
  - eauto using get_block.
  - injection H as <-. eauto using get_block.
Qed.

Lemma weighted_block (t f c : value) (e : exn) :
  weighted t f c = Raise e -> block_error (exn_cls e) = true.
Proof.
  unfold weighted. intros H. raise_cases H;
    try (injection H as <-); eauto using mul_float_block.
Qed.

(** X5.  The block raises nothing but [TypeError], [AttributeError] and
    [OverflowError]: no [KeyError], since each subscript stands behind
    a membership test that succeeded, and no [JSONDecodeError], so none
    of its failures is taken for a parse failure. *)
Theorem fallback_raises_three_classes (data : value) (e : exn)
  (Hraise : fill_overall data = Raise e) :
  block_error (exn_cls e) = true /\ exn_cls e <> KeyError /\
  is_JSONDecodeError e = false.
Proof.
  assert (H : block_error (exn_cls e) = true).
  { unfold fill_overall in Hraise.
    destruct (contains data k_overall_assessment) as [[|]|e0] eqn:Ec;
      cbn [rbind] in Hraise; try discriminate.
    2:{ injection Hraise as <-. now rewrite (contains_block _ _ _ Ec). }
    destruct (getitem data k_overall_assessment) as [a|e0] eqn:Eg;
      cbn [rbind] in Hraise.
    2:{ injection Hraise as <-. now rewrite (getitem_guarded _ _ _ Ec Eg). }
    destruct (contains a k_overall_score) as [[|]|e0] eqn:Ea;
      cbn [rbind negb] in Hraise; try discriminate.
    2:{ injection Hraise as <-. now rewrite (contains_block _ _ _ Ea). }
    destruct (section_score data k_technical_evaluation) as [t|e0] eqn:Et;
      cbn [rbind] in Hraise.
    2:{ injection Hraise as <-. now rewrite (section_score_block _ _ _ Et). }
    destruct (section_score data k_financial_evaluation) as [f|e0] eqn:Ef;
      cbn [rbind] in Hraise.
    2:{ injection Hraise as <-. now rewrite (section_score_block _ _ _ Ef). }
    destruct (section_score data k_compliance_evaluation) as [c|e0] eqn:Ecs;
      cbn [rbind] in Hraise.
    2:{ injection Hraise as <-. now rewrite (section_score_block _ _ _ Ecs). }
    destruct (weighted t f c) as [w|e0] eqn:Ew; cbn [rbind] in Hraise.
    2:{ injection Hraise as <-. exact (weighted_block _ _ _ _ Ew). }
    destruct (setitem a k_overall_score (VFloat (round2 w))) as [a'|e0] eqn:Es;
      cbn [rbind] in Hraise.
    2:{ injection Hraise as <-. now rewrite (setitem_block _ _ _ _ Es). }
    now rewrite (setitem_block _ _ _ _ Hraise). }
  split; [exact H|]. split.
  - intros Hk. rewrite Hk in H. discriminate.
  - unfold is_JSONDecodeError. destruct (exn_cls e); auto; discriminate.
Qed.

(** X5, on an answer whose technical score is the string "80". *)
Lemma fallback_raises_three_classes_witness :
  block_error TypeError = true /\
  is_JSONDecodeError
    (Exn TypeError (lit "can't multiply sequence by non-int of type 'float'"))
  = false.
Proof.
  destruct (fallback_raises_three_classes
              (VDict [ (k_technical_evaluation,
                         VDict [ (k_score, VStr (lit "80")) ]);
                       (k_overall_assessment, VDict assessment_award) ])
              (Exn TypeError
                 (lit "can't multiply sequence by non-int of type 'float'")))
    as (Hb & _ & Hj).
  - vm_compute. reflexivity.
  - split; [exact Hb|exact Hj].
Defined.

(** ** Answers that are valid JSON but no object *)

Section NonObjects.

Variable json_loads : str -> result value.

(** X6.  An answer that [json.loads] decodes to something else than an
    object never becomes the degraded record and leaves no trace in the
    log: a list or a string is returned as it is unless it mentions
    [overall_assessment], and everything else ([null], a boolean, a
    number) makes the normaliser raise [TypeError]. *)
Theorem non_object_answer_is_not_degraded
  (evaluation_text : str) (v : value) (l : log)
  (Hload : json_loads (clean evaluation_text) = Ok v)
  (Hnd : is_dict v = false) :
  (_parse_evaluation json_loads evaluation_text l = (Ok v, l) \/
   exists msg,
     _parse_evaluation json_loads evaluation_text l
     = (Raise (Exn TypeError msg), l)) /\
  (scalar v = true ->
   _parse_evaluation json_loads evaluation_text l
   = (Raise (Exn TypeError
               (lit "argument of type '" ++ type_name v
                ++ lit "' is not iterable")), l)).
Proof.
  rewrite (parse_loaded json_loads _ v l Hload).
  destruct v as [| b | z | x | s | li | d]; try discriminate Hnd;
    unfold fill_overall; cbn [contains rbind scalar];
    (split; [|try discriminate; reflexivity]); try (right; eauto; fail).
  - destruct (str_contains s k_overall_assessment); cbn [getitem rbind];
      [right; eauto|now left].
  - destruct (existsb (is_str k_overall_assessment) li); cbn [getitem rbind];
      [right; eauto|now left].
Qed.

End NonObjects.

(** X6, on the answer [[1, 2]]: the list comes back. *)
Lemma non_object_answer_is_not_degraded_witness :
  _parse_evaluation loads (lit "[1, 2]") []
  = (Ok (VList [VInt 1; VInt 2]), [])
  \/ exists msg,
       _parse_evaluation loads (lit "[1, 2]") []
       = (Raise (Exn TypeError msg), []).
Proof.
  apply (non_object_answer_is_not_degraded loads (lit "[1, 2]")
           (VList [VInt 1; VInt 2]) []); reflexivity.
Defined.

(* ================================================================== *)
(** * The methods that call the model *)
(* ================================================================== *)

Import AIEvaluatorCalls MoreExamples.

Section ModelCalls.

Variable json_loads : str -> result value.
Variable str_upper : str -> str.
Variable json_dumps : value -> result str.
Variable format_value : value -> str.
Variable response : Type.
Variable generate_content : str -> result response.
Variable response_text : response -> result str.

#[local] Abbreviation prompt_of :=
  (_create_evaluation_prompt str_upper json_dumps format_value).
#[local] Abbreviation evaluate :=
  (evaluate_bid json_loads str_upper json_dumps format_value
     generate_content response_text).
#[local] Abbreviation compare :=
  (compare_bids json_loads json_dumps generate_content response_text).
#[local] Abbreviation extract_info :=
  (extract_key_information json_loads generate_content response_text).

(** The normaliser either returns, having logged nothing or the two
    lines of a parse failure, or raises, having logged nothing. *)
Lemma parse_outcomes (evaluation_text : str) (l : log) :
  (exists r emitted,
     _parse_evaluation json_loads evaluation_text l = (Ok r, l ++ emitted))
  \/ (exists e,
        _parse_evaluation json_loads evaluation_text l = (Raise e, l)).
Proof.
  destruct (json_loads (clean evaluation_text)) as [data|e] eqn:Hload.
  - rewrite (parse_loaded json_loads _ data l Hload).
    destruct (fill_overall data) as [r|e]; [left|right; eauto].
    exists r, []. now rewrite app_nil_r.
  - destruct (is_JSONDecodeError e) eqn:Hcls.
    + assert (Hc : exn_cls e = JSONDecodeError).
      { unfold is_JSONDecodeError in Hcls. now destruct (exn_cls e). }
      left. eexists. eexists. apply (parse_rejected json_loads _ e l Hload Hc).
    + right. exists e. apply (parse_propagates json_loads _ e l Hload Hcls).
Qed.

(** X7.  [evaluate_bid] logs every failure once and passes it on: when
    it raises, the last line of the log is the error line with the
    message of the very exception it raises, and that is the only line
    it logged above level INFO; when it returns, the last line is the
    completion line. *)
Theorem evaluate_bid_logs_every_failure
  (bid_data project_criteria : dict value) (documents : list document)
  (l : log) :
  match evaluate bid_data project_criteria documents l with
  | (Ok _, l') => exists emitted, l' = l ++ emitted ++ [completed]
  | (Raise e, l') =>
      exists emitted,
        l' = l ++ emitted ++ [(ERROR, lit "Error in AI evaluation: " ++ exn_msg e)]
        /\ Forall (fun line => fst line = INFO) emitted
  end.
Proof.
  unfold evaluate_bid. rewrite try_except_any.
  unfold Py.bind at 1, lift at 1.
  destruct (prompt_of bid_data project_criteria (_prepare_documents documents))
    as [prompt|e].
  2:{ unfold Py.bind, logger, raise. exists []. split; [reflexivity|constructor]. }
  unfold Py.bind at 1, logger at 1.
  unfold Py.bind at 1, lift at 1.
  destruct (generate_content prompt) as [resp|e].
  2:{ unfold Py.bind, logger, raise. exists [sending].
      split; [now rewrite <- app_assoc|repeat constructor]. }
  unfold Py.bind at 1, lift at 1.
  destruct (response_text resp) as [evaluation_text|e].
  2:{ unfold Py.bind, logger, raise. exists [sending].
      split; [now rewrite <- app_assoc|repeat constructor]. }
  unfold Py.bind at 1.
  pose proof (parse_outcomes evaluation_text (l ++ [sending])) as Hparse.
  unfold sending in Hparse. fold sending in Hparse |- *.
  destruct Hparse as [(r & emitted & ->) | (e & ->)].
  - unfold Py.bind, logger, ret. exists (sending :: emitted).
    now rewrite <- !app_assoc.
  - unfold Py.bind, logger, raise. exists [sending].
    split; [now rewrite <- app_assoc|repeat constructor].
Qed.

(** X8.  What [evaluate_bid] does with an answer of the model that
    [json.loads] rejects depends on the exception.  On
    [JSONDecodeError] the evaluation does not fail: [evaluate_bid]
    returns the degraded record (all scores 0, recommendation "reject")
    and its log ends with the completion line, after the two error
    lines of the normaliser.  On any other exception ([RecursionError],
    [ValueError]) it logs the error line and raises that exception. *)
Theorem malformed_answer_completes
  (bid_data project_criteria : dict value) (documents : list document)
  (l : log) (prompt : str) (resp : response) (evaluation_text : str) (e : exn)
  (Hprompt : prompt_of bid_data project_criteria (_prepare_documents documents)
             = Ok prompt)
  (Hcall : generate_content prompt = Ok resp)
  (Htext : response_text resp = Ok evaluation_text)
  (Hfail : json_loads (clean evaluation_text) = Raise e) :
  (exn_cls e = JSONDecodeError ->
   evaluate bid_data project_criteria documents l
   = (Ok (degraded evaluation_text e),
      l ++ [ sending;
             (ERROR, lit "Failed to parse evaluation JSON: " ++ exn_msg e);
             (ERROR, lit "Raw response: " ++ evaluation_text);
             completed ])
   /\ overall_of (degraded evaluation_text e) = Some (VInt 0)
   /\ field2 (degraded evaluation_text e) k_overall_assessment
        (lit "recommendation") = Some (VStr (lit "reject")))
  /\ (is_JSONDecodeError e = false ->
      evaluate bid_data project_criteria documents l
      = (Raise e,
         l ++ [ sending;
                (ERROR, lit "Error in AI evaluation: " ++ exn_msg e) ])).
Proof.
  assert (Hrun : evaluate bid_data project_criteria documents l
                 = match _parse_evaluation json_loads evaluation_text
                           (l ++ [sending]) with
                   | (Ok r, l') => (Ok r, l' ++ [completed])
                   | (Raise e', l') =>
                       (Raise e',
                        l' ++ [(ERROR, lit "Error in AI evaluation: "
                                       ++ exn_msg e')])
                   end).
  { unfold evaluate_bid. rewrite try_except_any.
    unfold Py.bind at 1, lift at 1. rewrite Hprompt.
    unfold Py.bind at 1, logger at 1.
    unfold Py.bind at 1, lift at 1. rewrite Hcall.
    unfold Py.bind at 1, lift at 1. rewrite Htext.
    unfold Py.bind at 1. fold sending.
    destruct (_parse_evaluation json_loads evaluation_text (l ++ [sending]))
      as [[r|e'] l']; reflexivity. }
  split.
  - intros Hcls. split; [|split; reflexivity].
    rewrite Hrun, (parse_rejected json_loads _ e _ Hfail Hcls).
    now rewrite <- !app_assoc.
  - intros Hcls.
    rewrite Hrun, (parse_propagates json_loads _ e _ Hfail Hcls).
    now rewrite <- app_assoc.
Qed.

End ModelCalls.

(** ** What reaches the model of a bid's documents *)

Section DictMap.
Variables A B : Type.
Variable f : A -> B.

Lemma dict_get_map (d : dict A) (k : str) :
  dict_get (dict_map f d) k = option_map f (dict_get d k).
Proof.
  induction d as [|[k' v] d IH]; cbn; [reflexivity|].
  now destruct (str_eqb k' k).
Qed.

Lemma dict_has_map (d : dict A) (k : str) :
  dict_has (dict_map f d) k = dict_has d k.
Proof. unfold dict_has. rewrite dict_get_map. now destruct (dict_get d k). Qed.

Lemma dict_map_set (d : dict A) (k : str) (v : A) :
  dict_map f (dict_set d k v) = dict_set (dict_map f d) k (f v).
Proof.
  unfold dict_map.
  induction d as [|[k' v'] d IH]; cbn [dict_set List.map fst snd];
    [reflexivity|].
  destruct (str_eqb k' k); cbn [List.map fst snd]; [reflexivity|].
  now rewrite IH.
Qed.

End DictMap.

Lemma shown_summarise (d1 d2 : document) :
  seen d1 = seen d2 -> shown (summarise d1) = shown (summarise d2).
Proof.
  intros H.
  assert (Hf : filename d1 = filename d2)
    by exact (f_equal (fun x => snd (fst x)) H).
  assert (Ht : firstn 2000 (text_of d1) = firstn 2000 (text_of d2))
    by exact (f_equal snd H).
  unfold shown, summarise, slice_to. cbn [s_filename s_content].
  rewrite !firstn_firstn. change (Nat.min 2000 5000) with 2000.
  now rewrite Hf, Ht.
Qed.

Lemma add_document_shown (acc1 acc2 : dict (list summary)) (d1 d2 : document) :
  dict_map (List.map shown) acc1 = dict_map (List.map shown) acc2 ->
  seen d1 = seen d2 ->
  dict_map (List.map shown) (add_document acc1 d1)
  = dict_map (List.map shown) (add_document acc2 d2).
Proof.
  intros Hacc Hseen.
  assert (Ht : doc_type_of d1 = doc_type_of d2)
    by exact (f_equal (fun x => fst (fst x)) Hseen).
  apply shown_summarise in Hseen.
  unfold add_document. rewrite <- Ht.
  rewrite <- (dict_has_map _ _ (List.map shown) acc1),
    <- (dict_has_map _ _ (List.map shown) acc2), Hacc.
  set (acc1' := if negb _ then dict_set acc1 _ _ else acc1).
  set (acc2' := if negb _ then dict_set acc2 _ _ else acc2).
  assert (Hacc' : dict_map (List.map shown) acc1'
                  = dict_map (List.map shown) acc2').
  { subst acc1' acc2'.
    destruct (negb (dict_has (dict_map (List.map shown) acc2) (doc_type_of d1)));
      [|exact Hacc].
    now rewrite !dict_map_set, Hacc. }
  rewrite !dict_map_set, Hacc'. f_equal.
  rewrite !map_app. cbn [List.map]. rewrite Hseen. f_equal.
  unfold dict_get_default.
  pose proof (dict_get_map _ _ (List.map shown) acc1' (doc_type_of d1)) as G1.
  pose proof (dict_get_map _ _ (List.map shown) acc2' (doc_type_of d1)) as G2.
  rewrite Hacc' in G1. rewrite G1 in G2.
  destruct (dict_get acc1' (doc_type_of d1)), (dict_get acc2' (doc_type_of d1));
    cbn in G2; congruence.
Qed.

Lemma prepare_shown (docs1 docs2 : list document) :
  List.map seen docs1 = List.map seen docs2 ->
  dict_map (List.map shown) (_prepare_documents docs1)
  = dict_map (List.map shown) (_prepare_documents docs2).
Proof.
  unfold _prepare_documents.
  assert (H : forall acc1 acc2,
             dict_map (List.map shown) acc1 = dict_map (List.map shown) acc2 ->
             List.map seen docs1 = List.map seen docs2 ->
             dict_map (List.map shown) (fold_left add_document docs1 acc1)
             = dict_map (List.map shown) (fold_left add_document docs2 acc2)).
  { revert docs2.
    induction docs1 as [|d1 docs1 IH]; intros [|d2 docs2] acc1 acc2 Hacc Hs;
      try discriminate Hs; [exact Hacc|].
    pose proof (f_equal (List.hd (seen d1)) Hs) as Hd.
    pose proof (f_equal (@List.tl _) Hs) as Htl.
    cbn [List.map List.hd List.tl] in Hd, Htl. cbn [fold_left].
    apply IH; [now apply add_document_shown|exact Htl]. }
  now apply H.
Qed.

Lemma format_doc_shown (s1 s2 : summary) :
  shown s1 = shown s2 -> format_doc s1 = format_doc s2.
Proof.
  intros H.
  assert (Hf : s_filename s1 = s_filename s2) by exact (f_equal fst H).
  assert (Ht : firstn 2000 (s_content s1) = firstn 2000 (s_content s2))
    by exact (f_equal snd H).
  unfold format_doc, excerpt, slice_to. now rewrite Hf, Ht.
Qed.

Lemma format_docs_shown (g1 g2 : list summary) :
  List.map shown g1 = List.map shown g2 ->
  List.map format_doc g1 = List.map format_doc g2.
Proof.
  revert g2. induction g1 as [|s1 g1 IH]; intros [|s2 g2] H;
    try discriminate H; [reflexivity|].
  pose proof (f_equal (List.hd (shown s1)) H) as Hs.
  pose proof (f_equal (@List.tl _) H) as Htl.
  cbn [List.map List.hd List.tl] in *.
  now rewrite (format_doc_shown _ _ Hs), (IH _ Htl).
Qed.

Lemma format_documents_shown (str_upper : str -> str)
  (d1 d2 : dict (list summary)) :
  dict_map (List.map shown) d1 = dict_map (List.map shown) d2 ->
  _format_documents str_upper d1 = _format_documents str_upper d2.
Proof.
  unfold _format_documents. rewrite !format_documents_acc. cbn [app].
  revert d2. induction d1 as [|[k1 g1] d1 IH]; intros [|[k2 g2] d2] H;
    try discriminate H; [reflexivity|].
  pose proof (f_equal (List.hd (k1, List.map shown g1)) H) as Hhd.
  pose proof (f_equal (@List.tl _) H) as Htl.
  cbn [dict_map List.map List.hd List.tl fst snd] in Hhd, Htl.
  assert (Hk : k1 = k2) by exact (f_equal fst Hhd).
  assert (Hg : List.map shown g1 = List.map shown g2) by exact (f_equal snd Hhd).
  cbn [List.map List.concat]. rewrite (IH d2 Htl). f_equal.
  unfold format_group. cbn [fst snd].
  now rewrite Hk, (format_docs_shown _ _ Hg).
Qed.

Section Seen.

Variable json_loads : str -> result value.
Variable str_upper : str -> str.
Variable json_dumps : value -> result str.
Variable format_value : value -> str.
Variable response : Type.
Variable generate_content : str -> result response.
Variable response_text : response -> result str.

(** X9.  Of a bid's documents the model sees the type, the file name
    and the first 2000 characters of the text, and nothing else: two
    bids whose documents agree on these get the same prompt, hence the
    same evaluation and the same log.  Neither the metadata of a
    document nor its characters 2001 to 5000, which the summary keeps,
    reach the model. *)
Theorem model_sees_2000_characters
  (bid_data project_criteria : dict value) (docs1 docs2 : list document)
  (l : log)
  (Hseen : List.map seen docs1 = List.map seen docs2) :
  _create_evaluation_prompt str_upper json_dumps format_value
    bid_data project_criteria (_prepare_documents docs1)
  = _create_evaluation_prompt str_upper json_dumps format_value
      bid_data project_criteria (_prepare_documents docs2)
  /\ evaluate_bid json_loads str_upper json_dumps format_value
       generate_content response_text bid_data project_criteria docs1 l
     = evaluate_bid json_loads str_upper json_dumps format_value
         generate_content response_text bid_data project_criteria docs2 l.
Proof.
  apply prepare_shown, (format_documents_shown str_upper) in Hseen.
  assert (Hp : _create_evaluation_prompt str_upper json_dumps format_value
                 bid_data project_criteria (_prepare_documents docs1)
               = _create_evaluation_prompt str_upper json_dumps format_value
                   bid_data project_criteria (_prepare_documents docs2)).
  { unfold _create_evaluation_prompt. now rewrite Hseen. }
  split; [exact Hp|]. unfold evaluate_bid. now rewrite Hp.
Qed.

End Seen.

Section OtherCalls.

Variable json_loads : str -> result value.
Variable json_dumps : value -> result str.
Variable response : Type.
Variable generate_content : str -> result response.
Variable response_text : response -> result str.

(** X10.  [compare_bids] normalises the comparison with the normaliser
    of a bid evaluation.  When [json.loads] raises [JSONDecodeError] on
    the cleaned answer it returns, without raising, the degraded record
    of a single bid (scores 0 and "reject" under [overall_assessment]),
    in which a comparison's [ranking], [key_insights] and
    [recommendation] are absent.  When [json.loads] raises anything
    else, it logs the error line and raises that exception. *)
Theorem comparison_degrades_to_bid_record
  (evaluations : list value) (l : log) (prompt : str) (resp : response)
  (comparison_text : str) (e : exn)
  (Hprompt : comparison_prompt json_dumps evaluations = Ok prompt)
  (Hcall : generate_content prompt = Ok resp)
  (Htext : response_text resp = Ok comparison_text)
  (Hfail : json_loads (clean comparison_text) = Raise e) :
  (exn_cls e = JSONDecodeError ->
   compare_bids json_loads json_dumps generate_content response_text
     evaluations l
   = (Ok (degraded comparison_text e),
      l ++ [ (ERROR, lit "Failed to parse evaluation JSON: " ++ exn_msg e);
             (ERROR, lit "Raw response: " ++ comparison_text) ])
   /\ field (degraded comparison_text e) (lit "ranking") = None
   /\ field (degraded comparison_text e) (lit "key_insights") = None
   /\ field (degraded comparison_text e) (lit "recommendation") = None
   /\ field2 (degraded comparison_text e) k_overall_assessment
        (lit "recommendation") = Some (VStr (lit "reject")))
  /\ (is_JSONDecodeError e = false ->
      compare_bids json_loads json_dumps generate_content response_text
        evaluations l
      = (Raise e, l ++ [(ERROR, lit "Error in bid comparison: " ++ exn_msg e)])).
Proof.
  assert (Hrun : compare_bids json_loads json_dumps generate_content
                   response_text evaluations l
                 = match _parse_evaluation json_loads comparison_text l with
                   | (Ok r, l') => (Ok r, l')
                   | (Raise e', l') =>
                       (Raise e',
                        l' ++ [(ERROR, lit "Error in bid comparison: "
                                       ++ exn_msg e')])
                   end).
  { unfold compare_bids, Py.bind at 1, lift at 1. rewrite Hprompt.
    rewrite try_except_any.
    unfold Py.bind at 1, lift at 1. rewrite Hcall.
    unfold Py.bind at 1, lift at 1. rewrite Htext.
    destruct (_parse_evaluation json_loads comparison_text l)
      as [[r|e'] l']; reflexivity. }
  split.
  - intros Hcls. split; [|repeat split; reflexivity].
    now rewrite Hrun, (parse_rejected json_loads _ e l Hfail Hcls).
  - intros Hcls.
    now rewrite Hrun, (parse_propagates json_loads _ e l Hfail Hcls).
Qed.

(** X11.  [extract_key_information] returns on every input: the decoded
    answer as it is (whatever its type) when the model answers and
    [json.loads] accepts the cleaned answer, and in every other case the
    record with the message of the exception under [error], after one
    error line in the log.  And it reads the first 4000 characters of
    the document only. *)
Theorem key_information_never_raises
  (document_text document_type : str) (l : log) :
  (exists r l',
     extract_key_information json_loads generate_content response_text
       document_text document_type l = (Ok r, l')
     /\ (l' = l
         \/ exists e,
              r = extraction_failed e /\
              l' = l ++ [(ERROR, lit "Error extracting information: "
                                 ++ exn_msg e)]))
  /\ (forall resp result_text v,
        generate_content (extraction_prompt document_text document_type)
        = Ok resp ->
        response_text resp = Ok result_text ->
        json_loads (clean result_text) = Ok v ->
        extract_key_information json_loads generate_content response_text
          document_text document_type l = (Ok v, l))
  /\ extract_key_information json_loads generate_content response_text
       document_text document_type l
     = extract_key_information json_loads generate_content response_text
         (firstn 4000 document_text) document_type l.
Proof.
  split; [|split].
  - unfold extract_key_information. rewrite try_except_any.
    unfold Py.bind, lift, logger, ret.
    destruct (generate_content _) as [resp|e]; [|eauto 7].
    destruct (response_text resp) as [result_text|e]; [|eauto 7].
    destruct (json_loads (clean result_text)) as [v|e]; eauto 7.
  - intros resp result_text v Hcall Htext Hload.
    unfold extract_key_information. rewrite try_except_any.
    unfold Py.bind, lift. now rewrite Hcall, Htext, Hload.
  - unfold extract_key_information, extraction_prompt, slice_to.
    now rewrite firstn_firstn.
Qed.

End OtherCalls.

(** X7, on a model that is out of service: one error line, after the
    line that announces the request. *)
Lemma evaluate_bid_logs_every_failure_witness :
  exists e emitted,
    stub_evaluate_bid unavailable [] [] bid_documents []
    = (Raise e, [] ++ emitted
                ++ [(ERROR, lit "Error in AI evaluation: " ++ exn_msg e)])
    /\ emitted = [sending].
Proof.
  pose proof (evaluate_bid_logs_every_failure loads (fun s => s)
                stub_json_dumps stub_format_value str unavailable
                response_text [] [] bid_documents []) as H.
  destruct (evaluate_bid loads (fun s => s) stub_json_dumps stub_format_value
              unavailable response_text [] [] bid_documents [])
    as [[r|e] l'] eqn:E; [discriminate E|].
  destruct H as (emitted & -> & Hinfo).
  exists e, emitted. split; [exact E|].
  vm_compute in E. injection E as _ E.
  destruct emitted as [|x [|y emitted]]; try discriminate E.
  - injection E as <-. reflexivity.
  - destruct emitted; discriminate E.
Defined.

(** X8, on an answer in plain prose. *)
Lemma malformed_answer_completes_witness :
  fst (stub_evaluate_bid (answering answer_prose) [] [] bid_documents [])
  = Ok (degraded answer_prose prose_error).
Proof.
  assert (Hfail : loads (clean answer_prose) = Raise prose_error)
    by (vm_compute; reflexivity).
  destruct (malformed_answer_completes loads (fun s => s) stub_json_dumps
              stub_format_value str (answering answer_prose) response_text
              [] [] bid_documents [] _ answer_prose answer_prose prose_error
              eq_refl eq_refl eq_refl Hfail) as [H _].
  destruct (H eq_refl) as [Hrun _].
  unfold stub_evaluate_bid. now rewrite Hrun.
Defined.

(** X9, on a document of 6000 characters and its first 2000. *)
Lemma model_sees_2000_characters_witness :
  stub_evaluate_bid (answering answer_80_70_90) [] [] [long_document] []
  = stub_evaluate_bid (answering answer_80_70_90) [] [] [cut_document] [].
Proof.
  apply (model_sees_2000_characters loads (fun s => s) stub_json_dumps
           stub_format_value str (answering answer_80_70_90) response_text
           [] [] [long_document] [cut_document] []).
  vm_compute. reflexivity.
Defined.

(** X10, on a comparison answered in plain prose. *)
Lemma comparison_degrades_to_bid_record_witness :
  fst (compare_bids loads stub_json_dumps (answering answer_prose)
         response_text [] [])
  = Ok (degraded answer_prose prose_error).
Proof.
  assert (Hfail : loads (clean answer_prose) = Raise prose_error)
    by (vm_compute; reflexivity).
  destruct (comparison_degrades_to_bid_record loads stub_json_dumps str
              (answering answer_prose) response_text [] [] _
              answer_prose answer_prose prose_error
              eq_refl eq_refl eq_refl Hfail) as [H _].
  destruct (H eq_refl) as [Hrun _].
  now rewrite Hrun.
Defined.

(* ================================================================== *)
(** * More on the format extractors *)
(* ================================================================== *)

Lemma docx_tables_acc (tables : list (list (list str))) (acc : list str) :
  fold_left docx_add_table tables acc
  = acc ++ List.map table_block (List.filter has_rows tables).
Proof.
  revert acc. induction tables as [|t tables IH]; intros acc; cbn [fold_left].
  - cbn. now rewrite app_nil_r.
  - rewrite IH. unfold docx_add_table at 1.
    destruct t as [|row t]; cbn [List.map List.filter has_rows]; [reflexivity|].
    now rewrite <- app_assoc.
Qed.

Lemma openpyxl_sheets_acc (wb : workbook) (acc : list str) :
  fold_left openpyxl_add_sheet wb acc
  = acc ++ List.concat (List.map sheet_lines wb).
Proof.
  revert acc. induction wb as [|sheet wb IH]; intros acc;
    cbn [fold_left List.map List.concat].
  - now rewrite app_nil_r.
  - rewrite IH. unfold openpyxl_add_sheet, sheet_lines.
    now rewrite <- !app_assoc.
Qed.

Lemma length_sheet_lines (sheet : str * worksheet_rows) :
  List.length (sheet_lines sheet) <= 101.
Proof.
  unfold sheet_lines. cbn [List.length]. rewrite length_map.
  pose proof (filter_length_le any_cell (firstn 100 (snd sheet))) as H.
  pose proof (firstn_le_length 100 (snd sheet)) as H'.
  rewrite length_firstn in H. lia.
Qed.

Lemma length_workbook_lines (wb : workbook) :
  List.length (List.concat (List.map sheet_lines wb)) <= 101 * List.length wb.
Proof.
  induction wb as [|sheet wb IH]; cbn [List.map List.concat List.length];
    [lia|].
  rewrite length_app. pose proof (length_sheet_lines sheet). lia.
Qed.

Section MoreExtraction.

Variable page : Type.
Variable PdfReader : bytes -> result (list page).
Variable page_extract_text : page -> result str.
Variable Document : bytes -> result docx_document.
Variable dataframe : Type.
Variable read_excel : bytes -> result (dict dataframe).
Variable head100_to_string : dataframe -> result str.
Variable numeric_cols : dataframe -> result (list str).
Variable describe_to_string : dataframe -> list str -> result str.
Variable load_workbook : bytes -> result workbook.

(** X12.  The text of a Word document is its paragraphs that are not
    blank, each as it is (not stripped), followed by the blocks of its
    tables that have rows, all joined by blank lines: the tables come
    after all paragraphs wherever they stand in the document, and a
    blank paragraph or a table without rows leaves no trace. *)
Theorem docx_paragraphs_then_tables
  (file_content : bytes) (doc : docx_document) (l : log)
  (Hread : Document file_content = Ok doc) :
  _extract_from_docx Document file_content l
  = (Ok (join blank_line (docx_parts doc)),
     l ++ [(INFO, extracted_msg (join blank_line (docx_parts doc)) "DOCX")])
  /\ (forall ext, In ext [lit ".docx"; lit ".doc"] ->
        fst (extract_text PdfReader page_extract_text Document read_excel
               head100_to_string numeric_cols describe_to_string
               load_workbook file_content ext l)
        = Ok (join blank_line (docx_parts doc))).
Proof.
  assert (H : _extract_from_docx Document file_content l
              = (Ok (join blank_line (docx_parts doc)),
                 l ++ [(INFO, extracted_msg (join blank_line (docx_parts doc))
                                "DOCX")])).
  { unfold _extract_from_docx. rewrite try_except_any.
    unfold docx_body, Py.bind, lift, logger, ret. rewrite Hread.
    now rewrite docx_tables_acc. }
  split; [exact H|]. intros ext Hext.
  now rewrite (extract_docx page PdfReader page_extract_text Document dataframe
                 read_excel head100_to_string numeric_cols describe_to_string
                 load_workbook file_content ext l Hext), H.
Qed.

(** X13.  When the first spreadsheet reader fails and the second one
    loads the workbook, the extraction succeeds although an error is
    logged: the text is, sheet after sheet, the header of the sheet and
    the rows with a cell among its first 100, one per line, so it has
    at most 101 lines for each sheet. *)
Theorem excel_fallback_reads_100_rows
  (file_content : bytes) (l l1 : log) (e1 : exn) (wb : workbook) (ext : str)
  (Hpandas : pandas_body read_excel head100_to_string numeric_cols
               describe_to_string file_content l = (Raise e1, l1))
  (Hload : load_workbook file_content = Ok wb)
  (Hext : In ext [lit ".xlsx"; lit ".xls"]) :
  extract_text PdfReader page_extract_text Document read_excel
    head100_to_string numeric_cols describe_to_string load_workbook
    file_content ext l
  = (Ok (join nl (List.concat (List.map sheet_lines wb))),
     l1 ++ [ (ERROR, lit "Pandas Excel extraction failed: " ++ exn_msg e1);
             (INFO, extracted_msg
                      (join nl (List.concat (List.map sheet_lines wb)))
                      "Excel (openpyxl)") ])
  /\ List.length (List.concat (List.map sheet_lines wb))
     <= 101 * List.length wb.
Proof.
  split; [|apply length_workbook_lines].
  rewrite (extract_excel page PdfReader page_extract_text Document dataframe
             read_excel head100_to_string numeric_cols describe_to_string
             load_workbook file_content ext l Hext).
  unfold _extract_from_excel. rewrite !try_except_any, Hpandas.
  unfold Py.bind at 1, logger at 1. rewrite try_except_any.
  unfold openpyxl_body, Py.bind, lift, logger, ret. rewrite Hload.
  rewrite openpyxl_sheets_acc. cbn [app]. now rewrite <- app_assoc.
Qed.

(** The loop over the pages stops at the first page that fails. *)
Lemma pdf_pages_fail (page_num : nat) (pre : list page) (texts : list str)
  (p : page) (post : list page) (acc : list str) (e : exn) :
  Forall2 (fun p t => page_extract_text p = Ok t) pre texts ->
  page_extract_text p = Raise e ->
  pdf_pages page_extract_text page_num (pre ++ p :: post) acc = Raise e.
Proof.
  intros Hpre Hp. revert page_num acc.
  induction Hpre as [|q t pre texts Hq _ IH]; intros page_num acc;
    cbn [app pdf_pages].
  - now rewrite Hp.
  - rewrite Hq. cbn [rbind]. apply IH.
Qed.

(** X14.  One page that cannot be read loses the whole PDF: when the
    pages before it yield their text and it raises, the extractor
    returns "Error reading PDF: " with the message, and nothing of the
    pages already read. *)
Theorem failing_page_loses_the_document
  (file_content : bytes) (pre : list page) (texts : list str) (p : page)
  (post : list page) (e : exn) (l : log)
  (Hread : PdfReader file_content = Ok (pre ++ p :: post))
  (Hpre : Forall2 (fun p t => page_extract_text p = Ok t) pre texts)
  (Hp : page_extract_text p = Raise e) :
  extract_text PdfReader page_extract_text Document read_excel
    head100_to_string numeric_cols describe_to_string load_workbook
    file_content (lit ".pdf") l
  = (Ok (lit "Error reading PDF: " ++ exn_msg e),
     l ++ [(ERROR, lit "PDF extraction error: " ++ exn_msg e)]).
Proof.
  rewrite extract_pdf. unfold _extract_from_pdf. rewrite try_except_any.
  unfold pdf_body, Py.bind at 1, lift at 1. rewrite Hread.
  unfold Py.bind at 1, lift at 1.
  rewrite (pdf_pages_fail 0 pre texts p post [] e Hpre Hp).
  reflexivity.
Qed.

End MoreExtraction.

(** X12, on a document with a table between two paragraphs. *)
Lemma docx_paragraphs_then_tables_witness :
  fst (extract_with (fun _ => Ok []) (fun _ => Ok offer) stub_load_workbook
         [] (lit ".docx") [])
  = Ok (lit "Offer" ++ nl ++ nl ++ lit " Valid for 90 days " ++ nl ++ nl
        ++ nl ++ lit "[TABLE]" ++ nl ++ lit "Item | Price" ++ nl
        ++ lit "Licence | 100" ++ nl ++ lit "[/TABLE]").
Proof.
  destruct (docx_paragraphs_then_tables (option str) (fun _ => Ok []) page_text
              (fun _ => Ok offer) unit stub_read_excel
              (fun _ : unit => Ok []) (fun _ : unit => Ok [])
              (fun (_ : unit) _ => Ok []) stub_load_workbook
              [] offer [] eq_refl) as [_ H].
  unfold extract_with. rewrite (H (lit ".docx")); [reflexivity|].
  left. reflexivity.
Defined.

(** X13, on a workbook the first reader rejects. *)
Lemma excel_fallback_reads_100_rows_witness :
  fst (extract_with (fun _ => Ok []) stub_Document (fun _ => Ok price_book)
         [] (lit ".xlsx") [])
  = Ok (lit "--- Sheet: Prices ---" ++ nl ++ lit "Item | Price" ++ nl
        ++ lit "Licence | ").
Proof.
  destruct (excel_fallback_reads_100_rows (option str) (fun _ => Ok [])
              page_text stub_Document unit stub_read_excel
              (fun _ : unit => Ok []) (fun _ : unit => Ok [])
              (fun (_ : unit) _ => Ok []) (fun _ => Ok price_book)
              [] [] [] (Exn (LibraryError (lit "ValueError"))
                          (lit "Excel file format cannot be determined"))
              price_book (lit ".xlsx") eq_refl eq_refl) as [H _].
  - left. reflexivity.
  - unfold extract_with. rewrite H. reflexivity.
Defined.

(** X14, on a PDF whose second page cannot be decoded. *)
Lemma failing_page_loses_the_document_witness :
  extract_with (fun _ => Ok [Some (lit "Scope of work"); None;
                              Some (lit "References")])
    stub_Document stub_load_workbook [] (lit ".pdf") []
  = (Ok (lit "Error reading PDF: Invalid object stream"),
     [(ERROR, lit "PDF extraction error: Invalid object stream")]).
Proof.
  apply (failing_page_loses_the_document (option str)
           (fun _ => Ok [Some (lit "Scope of work"); None;
                         Some (lit "References")])
           page_text stub_Document unit stub_read_excel
           (fun _ : unit => Ok []) (fun _ : unit => Ok [])
           (fun (_ : unit) _ => Ok []) stub_load_workbook
           [] [Some (lit "Scope of work")] [lit "Scope of work"] None
           [Some (lit "References")]
           (Exn (LibraryError (lit "PdfReadError")) (lit "Invalid object stream"))
           []).
  - reflexivity.
  - repeat constructor.
  - reflexivity.
Defined.

(* ================================================================== *)
(** * The keyword scans *)
(* ================================================================== *)

Import DocumentScans.

Lemma startswith_iff (s p : str) :
  startswith s p = true <-> exists post, s = p ++ post.
Proof.
  revert s. induction p as [|c p IH]; intros s; cbn [startswith].
  - split; [intros _; now exists s|reflexivity].
  - destruct s as [|d s].
    + split; [discriminate|]. intros [post H]. discriminate H.
    + rewrite andb_true_iff, N.eqb_eq, IH. split.
      * intros [-> [post ->]]. now exists post.
      * intros [post H]. injection H as -> ->. eauto.
Qed.

(** [needle in hay]: the needle stands somewhere in the hay. *)
Lemma str_contains_iff (hay needle : str) :
  str_contains hay needle = true <-> exists pre post, hay = pre ++ needle ++ post.
Proof.
  induction hay as [|c hay IH]; cbn [str_contains];
    rewrite orb_true_iff, startswith_iff.
  - split.
    + intros [[post H] | H]; [|discriminate]. now exists [], post.
    + intros (pre & post & H). left.
      destruct pre; [now exists post|discriminate H].
  - rewrite IH. split.
    + intros [[post H] | (pre & post & H)].
      * now exists [], post.
      * exists (c :: pre), post. now rewrite H.
    + intros (pre & post & H). destruct pre as [|d pre].
      * left. now exists post.
      * right. injection H as _ H. eauto.
Qed.

Lemma str_contains_trans (text word needle : str) :
  str_contains text word = true -> str_contains word needle = true ->
  str_contains text needle = true.
Proof.
  rewrite !str_contains_iff.
  intros (p1 & q1 & ->) (p2 & q2 & ->).
  exists (p1 ++ p2), (q2 ++ q1). now rewrite <- !app_assoc.
Qed.

Lemma scan_filter (keywords : list str) (text_lower : str) :
  scan keywords text_lower
  = List.filter (fun keyword => str_contains text_lower keyword) keywords.
Proof.
  unfold scan.
  assert (H : forall acc,
             fold_left
               (fun found keyword =>
                  if str_contains text_lower keyword then found ++ [keyword]
                  else found) keywords acc
             = acc ++ List.filter
                        (fun keyword => str_contains text_lower keyword)
                        keywords).
  { induction keywords as [|k keywords IH]; intros acc;
      cbn [fold_left List.filter].
    - now rewrite app_nil_r.
    - rewrite IH. destruct (str_contains text_lower k); [|reflexivity].
      now rewrite <- app_assoc. }
  apply H.
Qed.

Section Scans.

Variable str_lower : str -> str.
Variable findall_currency : str -> list str.
Variable findall_number : str -> list str.
Variable findall_experience : str -> list str.
Variable list_set : list str -> list str.

(** X15.  The scans match keywords as substrings of the lower-cased
    text, not as words: each result is the sub-list, in the order of the
    keyword list, of the keywords that occur somewhere in the text, so a
    text is reported to mention a keyword as soon as it contains any
    word that contains it ("javascript" brings "java", "maintain"
    brings "ai"). *)
Theorem keywords_match_as_substrings (text word keyword : str)
  (Hword : str_contains (str_lower text) word = true)
  (Hin : str_contains word keyword = true) :
  (In keyword keywords ->
   In keyword (keywords_found
                 (extract_financial_data str_lower findall_currency
                    findall_number list_set text))) /\
  (In keyword tech_keywords ->
   In keyword (technologies_mentioned
                 (extract_technical_capabilities str_lower findall_experience
                    text))) /\
  (In keyword cert_keywords ->
   In keyword (certifications
                 (extract_technical_capabilities str_lower findall_experience
                    text))) /\
  technologies_mentioned
    (extract_technical_capabilities str_lower findall_experience text)
  = List.filter (fun k => str_contains (str_lower text) k) tech_keywords.
Proof.
  pose proof (str_contains_trans _ _ _ Hword Hin) as H.
  unfold extract_financial_data, extract_technical_capabilities.
  cbn [keywords_found technologies_mentioned certifications].
  rewrite !scan_filter.
  repeat split; try (intros Hk; apply filter_In; now split).
Qed.

End Scans.

(** X15, on a text about maintenance. *)
Lemma keywords_match_as_substrings_witness :
  In (lit "ai")
    (technologies_mentioned
       (stub_technical_capabilities (lit "We MAINTAIN bridges."))).
Proof.
  destruct (keywords_match_as_substrings ascii_lower (fun _ => [])
              (fun _ => []) (fun _ => []) (fun l => l)
              (lit "We MAINTAIN bridges.") (lit "maintain") (lit "ai"))
    as (_ & H & _).
  - vm_compute. reflexivity.
  - vm_compute. reflexivity.
  - apply H. vm_compute. tauto.
Defined.

(* ================================================================== *)
(** * More on the aggregator *)
(* ================================================================== *)

(** A score above one of two equal scores is above the other. *)
Lemma flt_ties (a b k : float) :
  is_nan a = false -> is_nan b = false -> is_nan k = false ->
  ties k a = true -> flt a b = true -> ties k b = false.
Proof.
  unfold ties, flt, SFltb, SFcompare.
  destruct a as [sa|sa| |sa ma ea], b as [sb|sb| |sb mb eb],
    k as [sk|sk| |sk mk ek];
    try destruct sa; try destruct sb; try destruct sk; simpl; try congruence;
    intros _ _ _; cmp_cases; simpl; try congruence; try lia.
Qed.

Section Stability.

Variable A : Type.
Variable key : A -> float.
Variable k : float.
Hypothesis Hk : is_nan k = false.

Lemma filter_insert_reverse (x : A) (l : list A) :
  is_nan (key x) = false -> Forall (fun a => is_nan (key a) = false) l ->
  List.filter (fun a => ties k (key a)) (insert_reverse key x l)
  = List.filter (fun a => ties k (key a)) (x :: l).
Proof.
  intros Hx Hl. induction Hl as [|y l Hy Hl IH]; [reflexivity|].
  cbn [insert_reverse]. destruct (flt (key x) (key y)) eqn:E; [|reflexivity].
  cbn [List.filter] in *. rewrite IH.
  destruct (ties k (key x)) eqn:Tx; [|reflexivity].
  now rewrite (flt_ties (key x) (key y) k Hx Hy Hk Tx E).
Qed.

Lemma filter_sort_reverse (l : list A) :
  Forall (fun a => is_nan (key a) = false) l ->
  List.filter (fun a => ties k (key a)) (sort_reverse key l)
  = List.filter (fun a => ties k (key a)) l.
Proof.
  intros Hl. induction Hl as [|x l Hx Hl IH]; [reflexivity|].
  cbn [sort_reverse fold_right].
  rewrite filter_insert_reverse.
  - cbn [List.filter]. fold (sort_reverse key l). now rewrite IH.
  - exact Hx.
  - fold (sort_reverse key l). rewrite Forall_forall in *.
    intros a Ha. apply Hl.
    apply (Permutation_in _ (Permutation_sym (sort_reverse_perm A key l)) Ha).
Qed.

End Stability.

Section MoreRanking.

Variable select_project : Z -> Z -> option Project.
Variable select_bids : Z -> list Bid.
Variable select_evaluation : Z -> option Evaluation.

Lemma length_collect (bids : list Bid) :
  List.length (collect select_evaluation bids) <= List.length bids.
Proof.
  induction bids as [|bid bids IH]; cbn [collect List.length]; [lia|].
  destruct (select_evaluation (bid_id_ bid)); cbn [List.length]; lia.
Qed.

(** X16.  The sort of [get_project_evaluations] is stable: bids whose
    overall scores are equal stand in the response in the order in
    which the query returned them (latest submission first).  And
    [total_bids] counts all bids of the project, with or without an
    evaluation, so it is never below the number of rows returned. *)
Theorem equal_scores_keep_query_order
  (project_id current_user_id : Z) (project : Project) (k : float)
  (Hfound : select_project project_id current_user_id = Some project)
  (Hnan : Forall (fun row => is_nan (r_overall_score row) = false)
            (collect select_evaluation (select_bids project_id)))
  (Hk : is_nan k = false) :
  exists resp,
    get_project_evaluations select_project select_bids select_evaluation
      project_id current_user_id = Ok resp /\
    List.filter (fun row => ties k (r_overall_score row)) (resp_evaluations resp)
    = List.filter (fun row => ties k (r_overall_score row))
        (collect select_evaluation (select_bids project_id)) /\
    resp_total_bids resp = List.length (select_bids project_id) /\
    List.length (resp_evaluations resp) <= resp_total_bids resp.
Proof.
  unfold get_project_evaluations. rewrite Hfound.
  eexists. split; [reflexivity|]. cbn [resp_evaluations resp_total_bids].
  split; [|split; [reflexivity|]].
  - now apply filter_sort_reverse.
  - rewrite <- (Permutation_length (sort_reverse_perm _ r_overall_score _)).
    apply length_collect.
Qed.

End MoreRanking.

(** X16, on bids scoring 80, 90 and 80: the two bids at 80 follow the
    one at 90 in the order of the query. *)
Lemma equal_scores_keep_query_order_witness :
  exists resp,
    get_project_evaluations db_project tied_bids tied_evaluation 1 10 = Ok resp
    /\ List.map r_bid_id (resp_evaluations resp) = [202; 201; 203]%Z
    /\ List.map r_bid_id
         (List.filter (fun row => ties (nearest_int 80) (r_overall_score row))
            (resp_evaluations resp))
       = [201; 203]%Z.
Proof.
  destruct (equal_scores_keep_query_order db_project tied_bids tied_evaluation
              1 10 tender (nearest_int 80) eq_refl)
    as (resp & Hresp & Hties & _).
  - repeat constructor.
  - reflexivity.
  - exists resp. split; [exact Hresp|]. split.
    + vm_compute in Hresp. injection Hresp as <-. reflexivity.
    + rewrite Hties. vm_compute. reflexivity.
Defined.

(* ================================================================== *)
(** * The routes that change a bid *)
(* ================================================================== *)

Lemma filter_andb {A : Type} (p q : A -> bool) (l : list A) :
  List.filter (fun x => p x && q x) l = List.filter q (List.filter p l).
Proof.
  induction l as [|x l IH]; cbn [List.filter]; [reflexivity|].
  destruct (p x); cbn [andb List.filter]; [|exact IH].
  destruct (q x); now rewrite IH.
Qed.

Lemma filter_singleton_in {A : Type} (p : A -> bool) (l : list A) (x : A) :
  List.filter p l = [x] -> p x = true /\ In x l.
Proof.
  intros H. assert (Hin : In x (List.filter p l)) by (rewrite H; now left).
  apply filter_In in Hin. tauto.
Qed.

Section Keys.
Variables (A : Type) (key : A -> Z).

(** Writing a row under its key leaves the rows under other keys as they
    are and puts the row in the place of those under its key. *)
Lemma filter_key_replaced (i : Z) (x : A) (l : list A) :
  key x = i ->
  List.filter (fun a => (key a =? i)%Z)
    (List.map (fun a => if (key a =? i)%Z then x else a) l)
  = List.map (fun _ => x) (List.filter (fun a => (key a =? i)%Z) l).
Proof.
  intros Hx. induction l as [|a l IH]; cbn [List.map List.filter]; [reflexivity|].
  destruct (key a =? i)%Z eqn:E.
  - rewrite Hx, Z.eqb_refl. cbn [List.map]. now rewrite IH.
  - rewrite E. exact IH.
Qed.

Lemma filter_key_other (i j : Z) (x : A) (l : list A) :
  i <> j ->
  key x = i ->
  List.filter (fun a => (key a =? j)%Z)
    (List.map (fun a => if (key a =? i)%Z then x else a) l)
  = List.filter (fun a => (key a =? j)%Z) l.
Proof.
  intros Hij Hx. induction l as [|a l IH]; cbn [List.map List.filter];
    [reflexivity|].
  destruct (key a =? i)%Z eqn:E.
  - apply Z.eqb_eq in E. rewrite Hx, E.
    destruct (i =? j)%Z eqn:F; [apply Z.eqb_eq in F; contradiction|exact IH].
  - now rewrite IH.
Qed.

End Keys.

Section Submission.
Import Routes BidderRoutes RouteNotions.

(** The query for the caller's bid. *)
Lemma own_bid_query (bid_id current_user_id : Z) (d : database) (bid : bid_row) :
  bid_with bid_id d = [bid] -> b_bidder_id bid = current_user_id ->
  List.filter (fun b => (b_id b =? bid_id)%Z
                        && (b_bidder_id b =? current_user_id)%Z) (bids d)
  = [bid].
Proof.
  intros Hkey Hown. rewrite filter_andb. unfold bid_with in Hkey.
  rewrite Hkey. cbn [List.filter]. now rewrite Hown, Z.eqb_refl.
Qed.

Lemma bid_with_key (bid_id : Z) (d : database) (bid : bid_row) :
  bid_with bid_id d = [bid] -> b_id bid = bid_id.
Proof.
  intros H. apply filter_singleton_in in H as [H _]. now apply Z.eqb_eq.
Qed.

Lemma submit_bid_accepted
  (bid_id current_user_id : Z) (utcnow : datetime) (s : state)
  (bid : bid_row) (doc : document_row) :
  bid_with bid_id (db s) = [bid] ->
  b_bidder_id bid = current_user_id ->
  b_status bid <> BidStatus.SUBMITTED ->
  In doc (documents (db s)) -> d_bid_id doc = bid_id ->
  submit_bid bid_id current_user_id utcnow s
  = (Returns {| sb_message := lit "Bid submitted successfully";
                sb_bid_id := bid_id;
                sb_submitted_at := Some utcnow |},
     {| db := {| projects := projects (db s);
                 bids := bids_with bid_id (submitted utcnow bid) (db s);
                 documents := documents (db s) |};
        lg := lg s |}).
Proof.
  intros Hkey Hown Hstatus Hdoc Hdb.
  unfold submit_bid, Routes.bind at 1, execute at 1.
  rewrite (own_bid_query _ _ _ _ Hkey Hown).
  unfold Routes.bind at 1, scalar_one_or_none at 1.
  destruct (BidStatus.eqb (b_status bid) BidStatus.SUBMITTED) eqn:E.
  { exfalso. apply Hstatus. now destruct (b_status bid). }
  unfold Routes.bind at 1, execute at 1.
  destruct (List.filter (fun d => (d_bid_id d =? bid_id)%Z) (documents (db s)))
    as [|d0 ds] eqn:Hdocs.
  { exfalso.
    assert (Hin : In doc (List.filter (fun d => (d_bid_id d =? bid_id)%Z)
                            (documents (db s)))).
    { apply filter_In. split; [exact Hdoc|]. now apply Z.eqb_eq. }
    rewrite Hdocs in Hin. exact Hin. }
  cbn [List.length Nat.eqb].
  unfold Routes.bind, commit, Routes.ret, update_bid, bids_with, submitted.
  cbn [b_id b_submitted_at db lg]. now rewrite (bid_with_key _ _ _ Hkey).
Qed.



End Submission.

Section Award.
Import Routes OrganizationRoutes RouteNotions.

Variable bidder_company_name : bid_row -> result str.

Lemma project_with_key (project_id : Z) (d : database) (project : project_row) :
  project_with project_id d = [project] -> p_id project = project_id.
Proof.
  intros H. apply filter_singleton_in in H as [H _]. now apply Z.eqb_eq.
Qed.

(** What [award_contract] does once the project and the bid are found. *)
Lemma award_contract_runs
  (project_id bid_id current_user_id : Z) (s : state)
  (project : project_row) (bid : bid_row) :
  project_with project_id (db s) = [project] ->
  p_organization_id project = current_user_id ->
  bid_with bid_id (db s) = [bid] ->
  b_project_id bid = project_id ->
  award_contract bidder_company_name project_id bid_id current_user_id s
  = (match bidder_company_name (awarded bid) with
     | Ok bidder =>
         Returns {| aw_message := lit "Contract awarded successfully";
                    aw_project_id := project_id;
                    aw_bid_id := bid_id;
                    aw_bidder := bidder |}
     | Raise e => Fails e
     end,
     {| db := {| projects :=
                   projects_with project_id (awarded_project project) (db s);
                 bids := bids_with bid_id (awarded bid) (db s);
                 documents := documents (db s) |};
        lg := lg s |}).
Proof.
  intros Hp Hpo Hb Hbp.
  unfold award_contract, Routes.bind at 1, execute at 1.
  rewrite filter_andb. unfold project_with in Hp. rewrite Hp.
  cbn [List.filter]. rewrite Hpo, Z.eqb_refl.
  unfold Routes.bind at 1, scalar_one_or_none at 1.
  unfold Routes.bind at 1, execute at 1.
  rewrite filter_andb. unfold bid_with in Hb. rewrite Hb.
  cbn [List.filter]. rewrite Hbp, Z.eqb_refl.
  unfold Routes.bind at 1, scalar_one_or_none at 1.
  unfold Routes.bind at 1, commit at 1.
  unfold Routes.bind, call, Routes.ret.
  unfold update_project, update_bid, projects_with, bids_with, awarded,
    awarded_project. cbn [db lg projects bids documents p_id b_id].
  assert (Hpk : p_id project = project_id)
    by (apply (project_with_key _ (db s)); exact Hp).
  assert (Hbk : b_id bid = bid_id)
    by (apply filter_singleton_in in Hb as [Hb _]; now apply Z.eqb_eq).
  rewrite Hpk, Hbk.
  now destruct (bidder_company_name _).
Qed.



End Award.





Section Upload.
Import Routes BidderRoutes RouteNotions.

Variable str_lower : str -> str.
Variable upload_file : UploadFile -> str -> result str.
Variable file_read : UploadFile -> result bytes.
Variable new_document_id : database -> Z.
Variable page : Type.
Variable PdfReader : bytes -> result (list page).
Variable page_extract_text : page -> result str.
Variable Document : bytes -> result docx_document.
Variable dataframe : Type.
Variable read_excel : bytes -> result (dict dataframe).
Variable head100_to_string : dataframe -> result str.
Variable numeric_cols : dataframe -> result (list str).
Variable describe_to_string : dataframe -> list str -> result str.
Variable load_workbook : bytes -> result workbook.

#[local] Abbreviation extract :=
  (extract_text PdfReader page_extract_text Document read_excel
     head100_to_string numeric_cols describe_to_string load_workbook).
#[local] Abbreviation upload :=
  (upload_bid_document str_lower upload_file file_read new_document_id
     PdfReader page_extract_text Document read_excel head100_to_string
     numeric_cols describe_to_string load_workbook).

Lemma existsb_str_eqb (x : str) (l : list str) :
  In x l -> existsb (str_eqb x) l = true.
Proof.
  intros H. apply existsb_exists. exists x. split; [exact H|apply str_eqb_refl].
Qed.

(** Every extension the route admits is one the processor reads. *)
Lemma allowed_is_read (file_content : bytes) (ext : str) (l : log) :
  In ext ALLOWED_EXTENSIONS ->
  extract file_content ext l
  = _extract_from_pdf PdfReader page_extract_text file_content l
  \/ extract file_content ext l = _extract_from_docx Document file_content l
  \/ extract file_content ext l
     = _extract_from_excel read_excel head100_to_string numeric_cols
         describe_to_string load_workbook file_content l.
Proof.
  intros [<- | [<- | [<- | [<- | [<- | []]]]]].
  - left. apply extract_pdf.
  - right; left. apply extract_docx. now left.
  - right; right. apply extract_excel. now left.
  - right; right. apply extract_excel. right. now left.
  - right; left. apply extract_docx. right. now left.
Qed.


End Upload.

